(** * haveibeenpwned: a model of the Go client of the Have I Been Pwned API

    The package (file [haveibeenpwned.go]) offers four lookups,
    [BreachedAccount], [Breaches], [Breach] and [PasteAccount].  Each one
    has [callService] build a GET request and hand it to the HTTP client,
    looks at the status code and decodes the JSON body.

    The model keeps the shape of the Go code.  Go strings are byte strings
    ([string], one [ascii] per byte), [int] is a 64-bit integer carried in
    [Z], a slice is either nil or a list, a pointer is an [option].  What a
    call does to the outside (the request handed to the client, reading and
    closing the response body) and how it ends (it returns, or it panics on
    a nil pointer) are threaded through a small monad over a trace of
    events.  The process environment and the HTTP client are a parameter of
    every call, the [World].  The parts of the Go standard library that the
    package calls ([net/url], [encoding/json]) are modelled in modules of
    their name, after their documented behaviour.

    The file has the model first, then the vocabulary of the properties
    (with the grammar of JSON texts, apart from the decoder), then lemmas on
    the model, then the properties of the specification, C1 to C10, then
    further properties of the code. *)

From Stdlib Require Import String Ascii List ZArith NArith Bool Lia.
Import ListNotations.

Local Open Scope list_scope.
Local Open Scope string_scope.

(** ** Go byte strings

    The functions of package [strings] that the model and the statements
    below use, for a one-byte separator where they take one. *)

(** [c] occurs in [s]. *)
Fixpoint mem (c : ascii) (s : string) : bool :=
  match s with
  | EmptyString => false
  | String a s' => Ascii.eqb a c || mem c s'
  end.

(** [strings.HasPrefix]. *)
Fixpoint HasPrefix (s prefix : string) {struct prefix} : bool :=
  match prefix with
  | EmptyString => true
  | String a p' =>
      match s with
      | EmptyString => false
      | String b s' => Ascii.eqb a b && HasPrefix s' p'
      end
  end.

(** [strings.CutPrefix]: [s] without the leading [prefix], when it has it. *)
Fixpoint CutPrefix (s prefix : string) {struct prefix} : option string :=
  match prefix with
  | EmptyString => Some s
  | String a p' =>
      match s with
      | EmptyString => None
      | String b s' => if Ascii.eqb a b then CutPrefix s' p' else None
      end
  end.

(** [strings.Contains]: [substr] occurs somewhere within [s]. *)
Fixpoint Contains (s substr : string) : bool :=
  HasPrefix s substr ||
  match s with
  | EmptyString => false
  | String _ s' => Contains s' substr
  end.

(** [strings.Split] for a one-byte separator. *)
Fixpoint Split (s : string) (sep : ascii) : list string :=
  match s with
  | EmptyString => [EmptyString]
  | String c s' =>
      if Ascii.eqb c sep then EmptyString :: Split s' sep
      else match Split s' sep with
           | x :: xs => String c x :: xs
           | [] => [String c EmptyString]
           end
  end.

(** [strings.Cut] for a one-byte separator: the text before the first
    separator (all of [s] when there is none). *)
Fixpoint CutBefore (s : string) (sep : ascii) : string :=
  match s with
  | EmptyString => EmptyString
  | String c s' => if Ascii.eqb c sep then EmptyString else String c (CutBefore s' sep)
  end.

(** The parameter names of a raw query string, as the receiving side reads
    them: the query is split at each ampersand, empty pieces are skipped and
    a piece names the parameter up to its first equals sign. *)
Definition query_keys (rawQuery : string) : list string :=
  map (fun piece => CutBefore piece "=")
      (filter (fun piece => negb (String.eqb piece "")) (Split rawQuery "&")).

Definition has_param (rawQuery key : string) : bool :=
  existsb (String.eqb key) (query_keys rawQuery).

(** ** net/url *)

Module url.

Record URL := mkURL {
  Scheme : string;
  Host : string;
  Path : string;
  RawQuery : string
}.

Definition byte_in (lo hi c : ascii) : bool :=
  (N_of_ascii lo <=? N_of_ascii c)%N && (N_of_ascii c <=? N_of_ascii hi)%N.

(** [shouldEscape(c, encodeQueryComponent)]: letters, digits and the four
    marks [-_.~] pass; every other byte, the reserved ones included, is
    escaped. *)
Definition shouldEscape (c : ascii) : bool :=
  if byte_in "a" "z" c || byte_in "A" "Z" c || byte_in "0" "9" c then false
  else if Ascii.eqb c "-" || Ascii.eqb c "_" || Ascii.eqb c "." || Ascii.eqb c "~" then false
  else true.

Definition upperhex : string := "0123456789ABCDEF".

Definition hexdigit (n : N) : ascii :=
  match String.get (N.to_nat n) upperhex with
  | Some d => d
  | None => "0"%char
  end.

(** [escape(s, encodeQueryComponent)]: a space becomes a plus sign, any
    other byte to escape becomes a percent sign and two upper-case hex
    digits. *)
Fixpoint escape (s : string) : string :=
  match s with
  | EmptyString => EmptyString
  | String c s' =>
      if Ascii.eqb c " " then String "+" (escape s')
      else if shouldEscape c then
        String "%" (String (hexdigit (N.shiftr (N_of_ascii c) 4))
                   (String (hexdigit (N.land (N_of_ascii c) 15)) (escape s')))
      else String c (escape s')
  end.

Definition QueryEscape (s : string) : string := escape s.

(** [url.Values] is a [map[string][]string]; the model keeps one entry per
    key, in the order the keys were first added. *)
Definition Values := list (string * list string).

(** [Values.Add]: appends the value to the key's list. *)
Fixpoint Add (v : Values) (key value : string) : Values :=
  match v with
  | [] => [(key, [value])]
  | (k, vs) :: v' =>
      if String.eqb k key then (k, (vs ++ [value])%list) :: v'
      else (k, vs) :: Add v' key value
  end.

Fixpoint insert_sorted (e : string * list string) (v : Values) : Values :=
  match v with
  | [] => [e]
  | e' :: v' =>
      if String.leb (fst e) (fst e') then e :: e' :: v'
      else e' :: insert_sorted e v'
  end.

(** The entries by ascending key ([sort.Strings] over the map's keys). *)
Definition sorted (v : Values) : Values :=
  fold_right insert_sorted [] v.

(** [Values.Encode]: [key=value] pairs, both escaped, joined by ampersands,
    keys in ascending order. *)
Definition Encode (v : Values) : string :=
  String.concat "&"
    (flat_map (fun e => map (fun x => QueryEscape (fst e) ++ "=" ++ QueryEscape x) (snd e))
              (sorted v)).

End url.

(** ** Errors *)

(** The [error] values the package returns: its own ([errors.New]), those
    of the HTTP client ([client.Do] returns a [*url.Error] around the cause),
    of reading the body, and of [json.Unmarshal] (a [*json.SyntaxError], or
    a [*json.UnmarshalTypeError] naming the JSON value that did not fit). *)
Inductive error : Type :=
| errors_New (text : string)
| url_Error (cause : string)
| read_Error (cause : string)
| json_SyntaxError
| json_UnmarshalTypeError (value : string).

(** A slice is nil or has elements; [make([]T, 0)] is [slice_of []]. *)
Inductive slice (A : Type) : Type :=
| slice_nil
| slice_of (elems : list A).
Arguments slice_nil {A}.
Arguments slice_of {A} elems.

Definition elements {A : Type} (s : slice A) : list A :=
  match s with
  | slice_nil => []
  | slice_of l => l
  end.

(** ** encoding/json *)

Module json.

(** A JSON text as the scanner reads it.  A number keeps its literal: how
    it converts depends on the Go type it is stored into. *)
#[local] Unset Elimination Schemes.
Inductive Value : Type :=
| Null
| Bool (b : bool)
| Number (literal : string)
| Str (s : string)
| Array (elems : list Value)
| Object (members : list (string * Value)).
#[local] Set Elimination Schemes.

Definition quote : ascii := "034"%char.

Definition code (c : ascii) : N := N_of_ascii c.

Definition isSpace (c : ascii) : bool :=
  Ascii.eqb c " " || Ascii.eqb c "009" || Ascii.eqb c "013" || Ascii.eqb c "010".

Fixpoint skip_space (s : string) : string :=
  match s with
  | EmptyString => EmptyString
  | String c s' => if isSpace c then skip_space s' else s
  end.

Definition isDigit (c : ascii) : bool := (48 <=? code c)%N && (code c <=? 57)%N.

(** The longest run of digits at the head of [s], and what follows it. *)
Fixpoint digits (s : string) : string * string :=
  match s with
  | EmptyString => (EmptyString, EmptyString)
  | String c s' =>
      if isDigit c then let (ds, rest) := digits s' in (String c ds, rest)
      else (EmptyString, s)
  end.

Definition some_digits (s : string) : option (string * string) :=
  match digits s with
  | (EmptyString, _) => None
  | (ds, rest) => Some (ds, rest)
  end.

(** A number literal: an optional minus sign, an integer part with no
    leading zero, an optional fraction and an optional exponent. *)
Definition sign_part (s : string) : string * string :=
  match s with
  | String c r => if Ascii.eqb c "-" then ("-", r) else (EmptyString, s)
  | EmptyString => (EmptyString, s)
  end.

Definition int_part (s : string) : option (string * string) :=
  match s with
  | String c r => if Ascii.eqb c "0" then Some ("0", r) else some_digits s
  | EmptyString => None
  end.

Definition frac_part (s : string) : option (string * string) :=
  match s with
  | String c r =>
      if Ascii.eqb c "." then
        match some_digits r with
        | Some (ds, r') => Some (String "." ds, r')
        | None => None
        end
      else Some (EmptyString, s)
  | EmptyString => Some (EmptyString, s)
  end.

Definition exp_part (s : string) : option (string * string) :=
  match s with
  | String e r =>
      if Ascii.eqb e "e" || Ascii.eqb e "E" then
        let (esign, r1) :=
          match r with
          | String c r' =>
              if Ascii.eqb c "+" || Ascii.eqb c "-" then (String c EmptyString, r')
              else (EmptyString, r)
          | EmptyString => (EmptyString, r)
          end in
        match some_digits r1 with
        | Some (ds, r2) => Some (String e (esign ++ ds), r2)
        | None => None
        end
      else Some (EmptyString, s)
  | EmptyString => Some (EmptyString, s)
  end.

Definition number (s : string) : option (string * string) :=
  let (sign, s1) := sign_part s in
  match int_part s1 with
  | None => None
  | Some (i, s2) =>
      match frac_part s2 with
      | None => None
      | Some (f, s3) =>
          match exp_part s3 with
          | None => None
          | Some (x, s4) => Some (sign ++ i ++ f ++ x, s4)
          end
      end
  end.

Definition hexval (c : ascii) : option N :=
  if isDigit c then Some (code c - 48)%N
  else if (97 <=? code c)%N && (code c <=? 102)%N then Some (code c - 87)%N
  else if (65 <=? code c)%N && (code c <=? 70)%N then Some (code c - 55)%N
  else None.

(** [getu4]: the code unit of a [\uXXXX] escape at the head of [s]. *)
Definition getu4 (s : string) : option (N * string) :=
  match s with
  | String e (String u (String a (String b (String c (String d rest))))) =>
      if Ascii.eqb e "\" && Ascii.eqb u "u" then
        match hexval a, hexval b, hexval c, hexval d with
        | Some x, Some y, Some z, Some w => Some (x * 4096 + y * 256 + z * 16 + w, rest)%N
        | _, _, _, _ => None
        end
      else None
  | _ => None
  end.

Definition byte (n : N) : ascii := ascii_of_N n.

Definition RuneError : N := 65533.

(** [utf8.EncodeRune]; a surrogate half or a value past U+10FFFF is encoded
    as U+FFFD. *)
Definition EncodeRune (r : N) : string :=
  let r := if ((55296 <=? r) && (r <=? 57343) || (1114111 <? r))%N then RuneError else r in
  if (r <? 128)%N then String (byte r) EmptyString
  else if (r <? 2048)%N then
    String (byte (192 + r / 64)) (String (byte (128 + r mod 64)) EmptyString)
  else if (r <? 65536)%N then
    String (byte (224 + r / 4096))
      (String (byte (128 + (r / 64) mod 64)) (String (byte (128 + r mod 64)) EmptyString))
  else
    String (byte (240 + r / 262144))
      (String (byte (128 + (r / 4096) mod 64))
         (String (byte (128 + (r / 64) mod 64)) (String (byte (128 + r mod 64)) EmptyString))).

Definition between (lo hi : N) (c : ascii) : bool := (lo <=? code c)%N && (code c <=? hi)%N.

Definition cont (c : ascii) : bool := between 128 191 c.

(** [utf8.DecodeRune] on a non-ASCII first byte: the well-formed sequence at
    the head of [s] and what follows it, or [None] when the bytes are no
    UTF-8 encoding (the decoder then reads one byte as U+FFFD). *)
Definition utf8_sequence (s : string) : option (string * string) :=
  match s with
  | String a (String b rest) =>
      if between 194 223 a && cont b then Some (String a (String b EmptyString), rest)
      else
        match rest with
        | String c rest' =>
            if (Ascii.eqb a "224" && between 160 191 b
                || between 225 236 a && cont b
                || Ascii.eqb a "237" && between 128 159 b
                || between 238 239 a && cont b) && cont c
            then Some (String a (String b (String c EmptyString)), rest')
            else
              match rest' with
              | String d rest'' =>
                  if (Ascii.eqb a "240" && between 144 191 b
                      || between 241 243 a && cont b
                      || Ascii.eqb a "244" && between 128 143 b) && cont c && cont d
                  then Some (String a (String b (String c (String d EmptyString))), rest'')
                  else None
              | EmptyString => None
              end
        | EmptyString => None
        end
  | _ => None
  end.

(** The escape after a backslash (the backslash is the head of [s]):
    the bytes it stands for and what follows it.  A [\u] escape of a
    surrogate half pairs with a following low half, and is U+FFFD alone. *)
Definition escape_sequence (s : string) : option (string * string) :=
  match s with
  | String e (String c rest) =>
      if negb (Ascii.eqb e "\") then None
      else if Ascii.eqb c quote then Some (String quote EmptyString, rest)
      else if Ascii.eqb c "\" then Some ("\", rest)
      else if Ascii.eqb c "/" then Some ("/", rest)
      else if Ascii.eqb c "b" then Some (String "008" EmptyString, rest)
      else if Ascii.eqb c "f" then Some (String "012" EmptyString, rest)
      else if Ascii.eqb c "n" then Some (String "010" EmptyString, rest)
      else if Ascii.eqb c "r" then Some (String "013" EmptyString, rest)
      else if Ascii.eqb c "t" then Some (String "009" EmptyString, rest)
      else if Ascii.eqb c "u" then
        match getu4 s with
        | None => None
        | Some (rr, rest1) =>
            if ((55296 <=? rr) && (rr <? 57344))%N then
              match getu4 rest1 with
              | Some (rr1, rest2) =>
                  if ((rr <? 56320) && (56320 <=? rr1) && (rr1 <? 57344))%N
                  then Some (EncodeRune ((rr - 55296) * 1024 + (rr1 - 56320) + 65536)%N, rest2)
                  else Some (EncodeRune RuneError, rest1)
              | None => Some (EncodeRune RuneError, rest1)
              end
            else Some (EncodeRune rr, rest1)
        end
      else None
  | _ => None
  end.

(** The inside of a string literal, after its opening quote: the bytes it
    denotes and what follows the closing quote. *)
Fixpoint string_body (fuel : nat) (s : string) : option (string * string) :=
  match fuel with
  | O => None
  | S fuel' =>
      match s with
      | EmptyString => None
      | String c rest =>
          if Ascii.eqb c quote then Some (EmptyString, rest)
          else
            let step :=
              if Ascii.eqb c "\" then escape_sequence s
              else if (code c <? 32)%N then None
              else if (code c <? 128)%N then Some (String c EmptyString, rest)
              else match utf8_sequence s with
                   | Some r => Some r
                   | None => Some (EncodeRune RuneError, rest)
                   end in
            match step with
            | None => None
            | Some (bytes, rest') =>
                match string_body fuel' rest' with
                | Some (tail, rest'') => Some (bytes ++ tail, rest'')
                | None => None
                end
            end
      end
  end.

Definition maxNestingDepth : N := 10000.

(** What follows white space and the byte [c], when [c] is the next byte
    that is no white space. *)
Definition after (c : ascii) (s : string) : option string :=
  match skip_space s with
  | String a rest => if Ascii.eqb a c then Some rest else None
  | EmptyString => None
  end.

(** One JSON value at the head of [s] (after white space) and what follows
    it; [depth] counts the arrays and objects around it. *)
Fixpoint value (fuel : nat) (depth : N) (s : string) : option (Value * string) :=
  match fuel with
  | O => None
  | S fuel' =>
      match skip_space s with
      | EmptyString => None
      | String c rest =>
          if Ascii.eqb c "{" then
            if (maxNestingDepth <=? depth)%N then None
            else match after "}" rest with
                 | Some rest' => Some (Object [], rest')
                 | None => match members fuel' (depth + 1)%N rest with
                           | Some (ms, rest') => Some (Object ms, rest')
                           | None => None
                           end
                 end
          else if Ascii.eqb c "[" then
            if (maxNestingDepth <=? depth)%N then None
            else match after "]" rest with
                 | Some rest' => Some (Array [], rest')
                 | None => match elems fuel' (depth + 1)%N rest with
                           | Some (vs, rest') => Some (Array vs, rest')
                           | None => None
                           end
                 end
          else if Ascii.eqb c quote then
            match string_body fuel' rest with
            | Some (str, rest') => Some (Str str, rest')
            | None => None
            end
          else
            match CutPrefix (String c rest) "true", CutPrefix (String c rest) "false",
                  CutPrefix (String c rest) "null" with
            | Some rest', _, _ => Some (Bool true, rest')
            | None, Some rest', _ => Some (Bool false, rest')
            | None, None, Some rest' => Some (Null, rest')
            | None, None, None =>
                match number (String c rest) with
                | Some (lit, rest') => Some (Number lit, rest')
                | None => None
                end
            end
      end
  end
with elems (fuel : nat) (depth : N) (s : string) : option (list Value * string) :=
  match fuel with
  | O => None
  | S fuel' =>
      match value fuel' depth s with
      | None => None
      | Some (v, rest) =>
          match after "," rest with
          | Some rest' =>
              match elems fuel' depth rest' with
              | Some (vs, rest'') => Some (v :: vs, rest'')
              | None => None
              end
          | None =>
              match after "]" rest with
              | Some rest' => Some ([v], rest')
              | None => None
              end
          end
      end
  end
with members (fuel : nat) (depth : N) (s : string) : option (list (string * Value) * string) :=
  match fuel with
  | O => None
  | S fuel' =>
      match after quote s with
      | None => None
      | Some rest =>
          match string_body fuel' rest with
          | None => None
          | Some (key, rest1) =>
              match after ":" rest1 with
              | None => None
              | Some rest2 =>
                  match value fuel' depth rest2 with
                  | None => None
                  | Some (v, rest3) =>
                      match after "," rest3 with
                      | Some rest4 =>
                          match members fuel' depth rest4 with
                          | Some (ms, rest5) => Some ((key, v) :: ms, rest5)
                          | None => None
                          end
                      | None =>
                          match after "}" rest3 with
                          | Some rest4 => Some ([(key, v)], rest4)
                          | None => None
                          end
                      end
                  end
              end
          end
      end
  end.

(** [checkValid] and the scan of the whole text: one value, white space
    around it and nothing else; [None] is a syntax error. *)
Definition parse (data : string) : option Value :=
  match value (2 * String.length data + 4) 0 data with
  | Some (v, rest) =>
      match skip_space rest with
      | EmptyString => Some v
      | _ => None
      end
  | None => None
  end.

(** *** Storing a JSON value into a Go value *)

(** [d.saveError]: the first error is kept, decoding goes on. *)
Definition saveError (saved new : option error) : option error :=
  match saved with
  | Some _ => saved
  | None => new
  end.

(** What the decoder reports when it meets a JSON value that the Go type
    does not take. *)
Definition describe (j : Value) : string :=
  match j with
  | Null => "null"
  | Bool _ => "bool"
  | Number _ => "number"
  | Str _ => "string"
  | Array _ => "array"
  | Object _ => "object"
  end.

(** A Go type the decoder can store into: its zero value and the store of
    a JSON value over a current value, with the error saved on the way. *)
Class Decoder (A : Type) := {
  zero : A;
  store : Value -> A -> A * option error
}.

Fixpoint digits_value (acc : Z) (s : string) : option Z :=
  match s with
  | EmptyString => Some acc
  | String c s' =>
      if isDigit c then digits_value (10 * acc + Z.of_N (code c - 48)) s'
      else None
  end.

(** [strconv.ParseInt(s, 10, 64)]: a sign and decimal digits, within the
    range of a 64-bit integer. *)
Definition ParseInt (s : string) : option Z :=
  let (neg, ds) := match s with
                   | String c r =>
                       if Ascii.eqb c "-" then (true, r)
                       else if Ascii.eqb c "+" then (false, r)
                       else (false, s)
                   | EmptyString => (false, s)
                   end in
  match ds with
  | EmptyString => None
  | _ =>
      match digits_value 0 ds with
      | None => None
      | Some n =>
          if neg then (if (n <=? 9223372036854775808)%Z then Some (- n)%Z else None)
          else (if (n <=? 9223372036854775807)%Z then Some n else None)
      end
  end.

#[global] Instance string_Decoder : Decoder string := {
  zero := EmptyString;
  store j cur :=
    match j with
    | Str s => (s, None)
    | Null => (cur, None)
    | _ => (cur, Some (json_UnmarshalTypeError (describe j)))
    end
}.

#[global] Instance int_Decoder : Decoder Z := {
  zero := 0%Z;
  store j cur :=
    match j with
    | Number lit =>
        match ParseInt lit with
        | Some n => (n, None)
        | None => (cur, Some (json_UnmarshalTypeError ("number " ++ lit)))
        end
    | Null => (cur, None)
    | _ => (cur, Some (json_UnmarshalTypeError (describe j)))
    end
}.

#[global] Instance bool_Decoder : Decoder bool := {
  zero := false;
  store j cur :=
    match j with
    | Bool b => (b, None)
    | Null => (cur, None)
    | _ => (cur, Some (json_UnmarshalTypeError (describe j)))
    end
}.

(** The elements of a JSON array stored one by one: element [i] goes over
    the slice's element [i] when it has one and over a zero value past its
    length. *)
Fixpoint store_elems {A : Type} `{Decoder A} (es : list Value) (cur : list A)
  : list A * option error :=
  match es with
  | [] => ([], None)
  | e :: es' =>
      let (x, err) := store e (hd zero cur) in
      let (xs, err') := store_elems es' (tl cur) in
      (x :: xs, saveError err err')
  end.

(** A JSON array makes the slice, an empty array an empty slice that is
    not nil; [null] makes it nil. *)
#[global] Instance slice_Decoder (A : Type) `{Decoder A} : Decoder (slice A) := {
  zero := slice_nil;
  store j cur :=
    match j with
    | Array es => let (xs, err) := store_elems es (elements cur) in (slice_of xs, err)
    | Null => (slice_nil, None)
    | _ => (cur, Some (json_UnmarshalTypeError (describe j)))
    end
}.

(** A pointer: [null] makes it nil; any other value is stored into what it
    points to, a fresh zero value when it was nil. *)
#[global] Instance pointer_Decoder (A : Type) `{Decoder A} : Decoder (option A) := {
  zero := None;
  store j cur :=
    match j with
    | Null => (None, None)
    | _ =>
        let (x, err) := store j (match cur with Some x => x | None => zero end) in
        (Some x, err)
    end
}.

(** The upper-case fold of a key, for the comparison with a field name
    made of ASCII letters: beside the letters, the long s (U+017F) folds to
    S and the Kelvin sign (U+212A) to K. *)
Fixpoint fold (s : string) : string :=
  match s with
  | EmptyString => EmptyString
  | String c r =>
      if between 97 122 c then String (byte (code c - 32)) (fold r)
      else
        match r with
        | String c1 r1 =>
            if Ascii.eqb c "197" && Ascii.eqb c1 "191" then String "S" (fold r1)
            else
              match r1 with
              | String c2 r2 =>
                  if Ascii.eqb c "226" && Ascii.eqb c1 "132" && Ascii.eqb c2 "170"
                  then String "K" (fold r2)
                  else String c (fold r)
              | EmptyString => String c (fold r)
              end
        | EmptyString => String c (fold r)
        end
  end.

Definition equalFold (name key : string) : bool := String.eqb (fold name) (fold key).

(** A struct field as the decoder sees it: the name of its [json] tag and
    the store into it. *)
Definition field (T : Type) : Type := (string * (Value -> T -> T * option error))%type.

(** A field of the struct: how to read it, how to write it. *)
Definition struct_field {T A : Type} `{Decoder A}
  (name : string) (get : T -> A) (set : A -> T -> T) : field T :=
  (name, fun j v => let (x, err) := store j (get v) in (set x v, err)).

(** The field for an object key: the one of that very name, else the first
    that matches without regard to case. *)
Definition find_field {T : Type} (fields : list (field T)) (key : string) : option (field T) :=
  match find (fun f => String.eqb (fst f) key) fields with
  | Some f => Some f
  | None => find (fun f => equalFold (fst f) key) fields
  end.

(** The members of an object, in their order; a key with no field is
    skipped. *)
Fixpoint store_members {T : Type} (fields : list (field T))
  (members : list (string * Value)) (v : T) : T * option error :=
  match members with
  | [] => (v, None)
  | (key, j) :: rest =>
      let (v1, err1) := match find_field fields key with
                        | Some f => snd f j v
                        | None => (v, None)
                        end in
      let (v2, err2) := store_members fields rest v1 in
      (v2, saveError err1 err2)
  end.

Definition store_struct {T : Type} (fields : list (field T)) (j : Value) (v : T)
  : T * option error :=
  match j with
  | Object members => store_members fields members v
  | Null => (v, None)
  | _ => (v, Some (json_UnmarshalTypeError (describe j)))
  end.

(** [json.Unmarshal(data, &v)]: the text is checked first, and a text that
    is no JSON leaves [v] as it was. *)
Definition Unmarshal {A : Type} `{Decoder A} (data : string) (v : A) : A * option error :=
  match parse data with
  | None => (v, Some json_SyntaxError)
  | Some j => store j v
  end.

End json.

(** ** The package's data *)

(** [const API]. *)
Definition API : string := "https://haveibeenpwned.com/api/v3/".

Module BreachModel.

Record t := mk {
  Name : string;
  Title : string;
  Domain : string;
  BreachDate : string;
  AddedDate : string;
  ModifiedDate : string;
  PwnCount : Z;
  Description : string;
  DataClasses : slice string;
  IsVerified : bool;
  IsFabricated : bool;
  IsSensitive : bool;
  IsRetired : bool;
  IsSpamList : bool;
  LogoPath : string
}.

(** [new(BreachModel)] points to this value. *)
Definition empty : t :=
  mk "" "" "" "" "" "" 0 "" slice_nil false false false false false "".

Definition set_Name (x : string) (b : t) : t :=
  mk x (Title b) (Domain b) (BreachDate b) (AddedDate b) (ModifiedDate b) (PwnCount b) (Description b) (DataClasses b) (IsVerified b) (IsFabricated b) (IsSensitive b) (IsRetired b) (IsSpamList b) (LogoPath b).
Definition set_Title (x : string) (b : t) : t :=
  mk (Name b) x (Domain b) (BreachDate b) (AddedDate b) (ModifiedDate b) (PwnCount b) (Description b) (DataClasses b) (IsVerified b) (IsFabricated b) (IsSensitive b) (IsRetired b) (IsSpamList b) (LogoPath b).
Definition set_Domain (x : string) (b : t) : t :=
  mk (Name b) (Title b) x (BreachDate b) (AddedDate b) (ModifiedDate b) (PwnCount b) (Description b) (DataClasses b) (IsVerified b) (IsFabricated b) (IsSensitive b) (IsRetired b) (IsSpamList b) (LogoPath b).
Definition set_BreachDate (x : string) (b : t) : t :=
  mk (Name b) (Title b) (Domain b) x (AddedDate b) (ModifiedDate b) (PwnCount b) (Description b) (DataClasses b) (IsVerified b) (IsFabricated b) (IsSensitive b) (IsRetired b) (IsSpamList b) (LogoPath b).
Definition set_AddedDate (x : string) (b : t) : t :=
  mk (Name b) (Title b) (Domain b) (BreachDate b) x (ModifiedDate b) (PwnCount b) (Description b) (DataClasses b) (IsVerified b) (IsFabricated b) (IsSensitive b) (IsRetired b) (IsSpamList b) (LogoPath b).
Definition set_ModifiedDate (x : string) (b : t) : t :=
  mk (Name b) (Title b) (Domain b) (BreachDate b) (AddedDate b) x (PwnCount b) (Description b) (DataClasses b) (IsVerified b) (IsFabricated b) (IsSensitive b) (IsRetired b) (IsSpamList b) (LogoPath b).
Definition set_PwnCount (x : Z) (b : t) : t :=
  mk (Name b) (Title b) (Domain b) (BreachDate b) (AddedDate b) (ModifiedDate b) x (Description b) (DataClasses b) (IsVerified b) (IsFabricated b) (IsSensitive b) (IsRetired b) (IsSpamList b) (LogoPath b).
Definition set_Description (x : string) (b : t) : t :=
  mk (Name b) (Title b) (Domain b) (BreachDate b) (AddedDate b) (ModifiedDate b) (PwnCount b) x (DataClasses b) (IsVerified b) (IsFabricated b) (IsSensitive b) (IsRetired b) (IsSpamList b) (LogoPath b).
Definition set_DataClasses (x : slice string) (b : t) : t :=
  mk (Name b) (Title b) (Domain b) (BreachDate b) (AddedDate b) (ModifiedDate b) (PwnCount b) (Description b) x (IsVerified b) (IsFabricated b) (IsSensitive b) (IsRetired b) (IsSpamList b) (LogoPath b).
Definition set_IsVerified (x : bool) (b : t) : t :=
  mk (Name b) (Title b) (Domain b) (BreachDate b) (AddedDate b) (ModifiedDate b) (PwnCount b) (Description b) (DataClasses b) x (IsFabricated b) (IsSensitive b) (IsRetired b) (IsSpamList b) (LogoPath b).
Definition set_IsFabricated (x : bool) (b : t) : t :=
  mk (Name b) (Title b) (Domain b) (BreachDate b) (AddedDate b) (ModifiedDate b) (PwnCount b) (Description b) (DataClasses b) (IsVerified b) x (IsSensitive b) (IsRetired b) (IsSpamList b) (LogoPath b).
Definition set_IsSensitive (x : bool) (b : t) : t :=
  mk (Name b) (Title b) (Domain b) (BreachDate b) (AddedDate b) (ModifiedDate b) (PwnCount b) (Description b) (DataClasses b) (IsVerified b) (IsFabricated b) x (IsRetired b) (IsSpamList b) (LogoPath b).
Definition set_IsRetired (x : bool) (b : t) : t :=
  mk (Name b) (Title b) (Domain b) (BreachDate b) (AddedDate b) (ModifiedDate b) (PwnCount b) (Description b) (DataClasses b) (IsVerified b) (IsFabricated b) (IsSensitive b) x (IsSpamList b) (LogoPath b).
Definition set_IsSpamList (x : bool) (b : t) : t :=
  mk (Name b) (Title b) (Domain b) (BreachDate b) (AddedDate b) (ModifiedDate b) (PwnCount b) (Description b) (DataClasses b) (IsVerified b) (IsFabricated b) (IsSensitive b) (IsRetired b) x (LogoPath b).
Definition set_LogoPath (x : string) (b : t) : t :=
  mk (Name b) (Title b) (Domain b) (BreachDate b) (AddedDate b) (ModifiedDate b) (PwnCount b) (Description b) (DataClasses b) (IsVerified b) (IsFabricated b) (IsSensitive b) (IsRetired b) (IsSpamList b) x.

(** The struct's [json] tags, in the order of its fields. *)
Definition fields : list (json.field t) :=
  [ json.struct_field "Name" Name set_Name;
    json.struct_field "Title" Title set_Title;
    json.struct_field "Domain" Domain set_Domain;
    json.struct_field "BreachDate" BreachDate set_BreachDate;
    json.struct_field "AddedDate" AddedDate set_AddedDate;
    json.struct_field "ModifiedDate" ModifiedDate set_ModifiedDate;
    json.struct_field "PwnCount" PwnCount set_PwnCount;
    json.struct_field "Description" Description set_Description;
    json.struct_field "DataClasses" DataClasses set_DataClasses;
    json.struct_field "IsVerified" IsVerified set_IsVerified;
    json.struct_field "IsFabricated" IsFabricated set_IsFabricated;
    json.struct_field "IsSensitive" IsSensitive set_IsSensitive;
    json.struct_field "IsRetired" IsRetired set_IsRetired;
    json.struct_field "IsSpamList" IsSpamList set_IsSpamList;
    json.struct_field "LogoPath" LogoPath set_LogoPath ].

#[global] Instance Decoder : json.Decoder t := {
  json.zero := empty;
  json.store := json.store_struct fields
}.

End BreachModel.

Module PasteModel.

Record t := mk {
  Source : string;
  ID : string;
  Title : string;
  Date : string;
  EmailCount : Z
}.

Definition empty : t := mk "" "" "" "" 0.

Definition set_Source (x : string) (p : t) : t := mk x (ID p) (Title p) (Date p) (EmailCount p).
Definition set_ID (x : string) (p : t) : t := mk (Source p) x (Title p) (Date p) (EmailCount p).
Definition set_Title (x : string) (p : t) : t := mk (Source p) (ID p) x (Date p) (EmailCount p).
Definition set_Date (x : string) (p : t) : t := mk (Source p) (ID p) (Title p) x (EmailCount p).
Definition set_EmailCount (x : Z) (p : t) : t := mk (Source p) (ID p) (Title p) (Date p) x.

Definition fields : list (json.field t) :=
  [ json.struct_field "Source" Source set_Source;
    json.struct_field "Id" ID set_ID;
    json.struct_field "Title" Title set_Title;
    json.struct_field "Date" Date set_Date;
    json.struct_field "EmailCount" EmailCount set_EmailCount ].

#[global] Instance Decoder : json.Decoder t := {
  json.zero := empty;
  json.store := json.store_struct fields
}.

End PasteModel.

(** ** net/http and the world around a call *)

Module http.

Definition StatusBadRequest : Z := 400.
Definition StatusUnauthorized : Z := 401.
Definition StatusNotFound : Z := 404.
Definition StatusTooManyRequests : Z := 429.

(** A request: its method, its URL and its headers. *)
Record Request := mkRequest {
  Method : string;
  URL : url.URL;
  Header : list (string * string)
}.

(** [http.NewRequest(method, u.String(), nil)]: [u.String()] escapes the
    path and the request parses the text back into [u].  For the URLs
    [callService] builds (the scheme and host of [API], an escaped path, an
    encoded query) the parse does not fail. *)
Definition NewRequest (method : string) (u : url.URL) : Request * option error :=
  (mkRequest method u [], None).

(** [Header.Set]: replaces the values of the key (the key is kept as
    written; on the wire its letter case is canonical). *)
Definition Header_Set (req : Request) (key value : string) : Request :=
  mkRequest (Method req) (URL req)
    (filter (fun kv => negb (String.eqb (fst kv) key)) (Header req) ++ [(key, value)])%list.

(** A response body: the bytes [ioutil.ReadAll] gets from it and the error
    the read ends with, if any. *)
Record ReadCloser := mkBody {
  data : string;
  read_err : option error
}.

Record Response := mkResponse {
  StatusCode : Z;
  Body : ReadCloser
}.

End http.

(** What a call depends on and cannot see into: the process environment
    ([os.Getenv]) and the HTTP client, whose [Do] answers a request with a
    response, an error, or both. *)
Record World := mkWorld {
  Getenv : string -> string;
  Do : http.Request -> option http.Response * option error
}.

(** What a call does to the outside, in order. *)
Inductive event : Type :=
| Sent (req : http.Request)
| BodyRead
| BodyClosed.

(** A call returns, or the Go run time stops it on a nil pointer. *)
Inductive outcome (A : Type) : Type :=
| Returns (a : A)
| Panics.
Arguments Returns {A} a.
Arguments Panics {A}.

Definition M (A : Type) : Type := World -> list event -> outcome A * list event.

Definition ret {A : Type} (a : A) : M A := fun _ tr => (Returns a, tr).

Definition bind {A B : Type} (m : M A) (k : A -> M B) : M B :=
  fun w tr =>
    match m w tr with
    | (Returns a, tr') => k a w tr'
    | (Panics, tr') => (Panics, tr')
    end.

Definition panic {A : Type} : M A := fun _ tr => (Panics, tr).

Definition emit (e : event) : M unit := fun _ tr => (Returns tt, (tr ++ [e])%list).

(** [defer f()]: [f] runs when the rest of the function is over, whether it
    returned or panicked. *)
Definition defer {A : Type} (f : M unit) (rest : M A) : M A :=
  fun w tr =>
    let (r, tr') := rest w tr in
    (r, snd (f w tr')).

Notation "x <- m ;; k" := (bind m (fun x => k))
  (at level 61, m at next level, right associativity).
Notation "' pat <- m ;; k" := (bind m (fun x => match x with pat => k end))
  (at level 61, pat pattern, m at next level, right associativity).

Definition os_Getenv (key : string) : M string := fun w tr => (Returns (Getenv w key), tr).

Definition client_Do (req : http.Request) : M (option http.Response * option error) :=
  _ <- emit (Sent req) ;;
  fun w tr => (Returns (Do w req), tr).

Definition ioutil_ReadAll (body : http.ReadCloser) : M (string * option error) :=
  _ <- emit BodyRead ;;
  ret (http.data body, http.read_err body).

Definition Body_Close : M unit := emit BodyClosed.

(** [res.StatusCode]: a nil [res] stops the call. *)
Definition StatusCode_of (res : option http.Response) : M Z :=
  match res with
  | Some r => ret (http.StatusCode r)
  | None => panic
  end.

Definition Body_of (res : option http.Response) : M http.ReadCloser :=
  match res with
  | Some r => ret (http.Body r)
  | None => panic
  end.

(** ** The package's functions *)

(** [url.Parse(API)]: the constant parses, with no error. *)
Definition url_Parse_API : url.URL * option error :=
  (url.mkURL "https" "haveibeenpwned.com" "/api/v3/" "", None).

Definition callService (service account domainFilter : string) (truncate unverified : bool)
  : M (option http.Response * option error) :=
  let (u, err) := url_Parse_API in
  match err with
  | Some e => ret (None, Some e)
  | None =>
      let path := url.Path u ++ service ++ "/" ++ account in
      let parameters : url.Values := [] in
      let parameters :=
        if negb (String.eqb domainFilter "") then url.Add parameters "domain" domainFilter
        else parameters in
      let parameters :=
        if Bool.eqb truncate false then url.Add parameters "truncateResponse" "false"
        else parameters in
      let parameters :=
        if unverified then url.Add parameters "includeUnverified" "true"
        else parameters in
      let u := url.mkURL (url.Scheme u) (url.Host u) path (url.Encode parameters) in
      let (req, err) := http.NewRequest "GET" u in
      match err with
      | Some e => ret (None, Some e)
      | None =>
          let req := http.Header_Set req "User-Agent" "Go/1.15" in
          key <- os_Getenv "HIBP_API_KEY" ;;
          let req := http.Header_Set req "hibp-api-key" key in
          '(res, err) <- client_Do req ;;
          status <- StatusCode_of res ;;
          if (status =? http.StatusBadRequest)%Z then
            ret (None, Some (errors_New "the account does not comply with an acceptable format"))
          else if (status =? http.StatusTooManyRequests)%Z then
            ret (None, Some (errors_New "too many requests — the rate limit has been exceeded"))
          else if (status =? http.StatusUnauthorized)%Z then
            ret (None, Some (errors_New "valid header `hibp-api-key` required"))
          else
            match err with
            | Some e => ret (None, Some e)
            | None => ret (res, None)
            end
      end
  end.

Definition BreachedAccount (account domainFilter : string) (truncate unverified : bool)
  : M (slice BreachModel.t * option error) :=
  '(res, err) <- callService "breachedaccount" account domainFilter truncate unverified ;;
  match err with
  | Some e => ret (slice_nil, Some e)
  | None =>
      status <- StatusCode_of res ;;
      if (status =? http.StatusNotFound)%Z then ret (slice_nil, None)
      else
        resBody <- Body_of res ;;
        '(body, err) <- ioutil_ReadAll resBody ;;
        match err with
        | Some e => ret (slice_nil, Some e)
        | None =>
            defer Body_Close (
              let breaches : slice BreachModel.t := slice_of [] in
              let (breaches, err) := json.Unmarshal body breaches in
              match err with
              | Some e => ret (slice_nil, Some e)
              | None => ret (breaches, None)
              end)
        end
  end.

Definition Breaches (domainFilter : string) : M (slice BreachModel.t * option error) :=
  '(res, err) <- callService "breaches" "" "" false false ;;
  match err with
  | Some e => ret (slice_nil, Some e)
  | None =>
      status <- StatusCode_of res ;;
      if (status =? http.StatusNotFound)%Z then ret (slice_nil, None)
      else
        resBody <- Body_of res ;;
        '(body, err) <- ioutil_ReadAll resBody ;;
        match err with
        | Some e => ret (slice_nil, Some e)
        | None =>
            defer Body_Close (
              let breaches : slice BreachModel.t := slice_of [] in
              let (breaches, err) := json.Unmarshal body breaches in
              match err with
              | Some e => ret (slice_nil, Some e)
              | None => ret (breaches, None)
              end)
        end
  end.

(** [*breach]: a nil pointer stops the call. *)
Definition deref {A : Type} (p : option A) : M A :=
  match p with
  | Some x => ret x
  | None => panic
  end.

Definition Breach (name : string) : M (BreachModel.t * option error) :=
  let breach : option BreachModel.t := Some BreachModel.empty in
  '(res, err) <- callService "breach" name "" false false ;;
  match err with
  | Some e => b <- deref breach ;; ret (b, Some e)
  | None =>
      status <- StatusCode_of res ;;
      if (status =? http.StatusNotFound)%Z then b <- deref breach ;; ret (b, None)
      else
        resBody <- Body_of res ;;
        '(body, err) <- ioutil_ReadAll resBody ;;
        match err with
        | Some e => b <- deref breach ;; ret (b, Some e)
        | None =>
            defer Body_Close (
              let (breach, err) := json.Unmarshal body breach in
              match err with
              | Some e => b <- deref breach ;; ret (b, Some e)
              | None => b <- deref breach ;; ret (b, None)
              end)
        end
  end.

Definition PasteAccount (email : string) : M (slice PasteModel.t * option error) :=
  '(res, err) <- callService "pasteaccount" email "" false false ;;
  match err with
  | Some e => ret (slice_nil, Some e)
  | None =>
      status <- StatusCode_of res ;;
      if (status =? http.StatusNotFound)%Z then ret (slice_nil, None)
      else
        resBody <- Body_of res ;;
        '(body, err) <- ioutil_ReadAll resBody ;;
        match err with
        | Some e => ret (slice_nil, Some e)
        | None =>
            defer Body_Close (
              let pastes : slice PasteModel.t := slice_of [] in
              let (pastes, err) := json.Unmarshal body pastes in
              match err with
              | Some e => ret (slice_nil, Some e)
              | None => ret (pastes, None)
              end)
        end
  end.

(** ** Vocabulary of the properties *)

(** The request [callService] hands to the client (lines 149 to 173 of the
    source, see [callService_run]). *)
Definition callService_request (service account domainFilter : string)
  (truncate unverified : bool) (w : World) : http.Request :=
  let parameters : url.Values := [] in
  let parameters :=
    if negb (String.eqb domainFilter "") then url.Add parameters "domain" domainFilter
    else parameters in
  let parameters :=
    if Bool.eqb truncate false then url.Add parameters "truncateResponse" "false"
    else parameters in
  let parameters :=
    if unverified then url.Add parameters "includeUnverified" "true"
    else parameters in
  http.mkRequest "GET"
    (url.mkURL "https" "haveibeenpwned.com" ("/api/v3/" ++ service ++ "/" ++ account)
       (url.Encode parameters))
    [("User-Agent", "Go/1.15"); ("hibp-api-key", Getenv w "HIBP_API_KEY")].

(** A call of one of the four exported functions. *)
Inductive call : Type :=
| CallBreachedAccount (account domainFilter : string) (truncate unverified : bool)
| CallBreaches (domainFilter : string)
| CallBreach (name : string)
| CallPasteAccount (email : string).

(** What a call returns beside its error. *)
Inductive result : Type :=
| BreachList (breaches : slice BreachModel.t)
| OneBreach (breach : BreachModel.t)
| PasteList (pastes : slice PasteModel.t).

Definition returning {A : Type} (tag : A -> result) (m : M (A * option error))
  : M (result * option error) :=
  '(r, err) <- m ;; ret (tag r, err).

Definition perform (c : call) : M (result * option error) :=
  match c with
  | CallBreachedAccount account domainFilter truncate unverified =>
      returning BreachList (BreachedAccount account domainFilter truncate unverified)
  | CallBreaches domainFilter => returning BreachList (Breaches domainFilter)
  | CallBreach name => returning OneBreach (Breach name)
  | CallPasteAccount email => returning PasteList (PasteAccount email)
  end.

(** The arguments each function passes to [callService] (lines 48, 73, 100
    and 123 of the source). *)
Definition callService_arguments (c : call) : string * string * string * bool * bool :=
  match c with
  | CallBreachedAccount account domainFilter truncate unverified =>
      ("breachedaccount", account, domainFilter, truncate, unverified)
  | CallBreaches _ => ("breaches", "", "", false, false)
  | CallBreach name => ("breach", name, "", false, false)
  | CallPasteAccount email => ("pasteaccount", email, "", false, false)
  end.

(** The request a call hands to the client (see [requests_of_call]). *)
Definition request_of (c : call) (w : World) : http.Request :=
  let '(service, account, domainFilter, truncate, unverified) := callService_arguments c in
  callService_request service account domainFilter truncate unverified w.

(** The call a function makes to [callService]. *)
Definition service_call (c : call) : M (option http.Response * option error) :=
  let '(service, account, domainFilter, truncate, unverified) := callService_arguments c in
  callService service account domainFilter truncate unverified.

(** A call from a quiet start: what it returns, what it did. *)
Definition returned (c : call) (w : World) : outcome (result * option error) :=
  fst (perform c w []).

Definition events (c : call) (w : World) : list event :=
  snd (perform c w []).

Definition requests (tr : list event) : list http.Request :=
  flat_map (fun e => match e with Sent req => [req] | _ => [] end) tr.

(** No data: the nil slice, or the record with every field at its zero
    value. *)
Definition no_data (c : call) : result :=
  match c with
  | CallBreachedAccount _ _ _ _ | CallBreaches _ => BreachList slice_nil
  | CallBreach _ => OneBreach BreachModel.empty
  | CallPasteAccount _ => PasteList slice_nil
  end.

(** The error kinds of the specification, as the values the code returns
    for them. *)
Definition InvalidFormat : error :=
  errors_New "the account does not comply with an acceptable format".
Definition Unauthorized : error :=
  errors_New "valid header `hibp-api-key` required".
Definition RateLimited : error :=
  errors_New "too many requests — the rate limit has been exceeded".

(** The status table of the specification (section 4.1, step 5): the
    statuses that fail, and with what. *)
Definition status_error (status : Z) : option error :=
  if (status =? 400)%Z then Some InvalidFormat
  else if (status =? 401)%Z then Some Unauthorized
  else if (status =? 429)%Z then Some RateLimited
  else None.

(** The body of the response was closed. *)
Definition body_closed (tr : list event) : bool :=
  existsb (fun e => match e with BodyClosed => true | _ => false end) tr.

(** The statuses [callService] and the functions do not single out. *)
Definition passes (status : Z) : bool :=
  negb (status =? 400)%Z && negb (status =? 401)%Z &&
  negb (status =? 404)%Z && negb (status =? 429)%Z.

(** What a function makes of a response whose status passes: the body is
    read and decoded into the function's result. *)
Definition decode_body (c : call) (body : http.ReadCloser) : outcome (result * option error) :=
  match http.read_err body with
  | Some e => Returns (no_data c, Some e)
  | None =>
      match c with
      | CallBreachedAccount _ _ _ _ | CallBreaches _ =>
          match json.Unmarshal (http.data body) (slice_of [] : slice BreachModel.t) with
          | (_, Some e) => Returns (BreachList slice_nil, Some e)
          | (s, None) => Returns (BreachList s, None)
          end
      | CallBreach _ =>
          match json.Unmarshal (http.data body) (Some BreachModel.empty) with
          | (Some b, err) => Returns (OneBreach b, err)
          | (None, _) => Panics
          end
      | CallPasteAccount _ =>
          match json.Unmarshal (http.data body) (slice_of [] : slice PasteModel.t) with
          | (_, Some e) => Returns (PasteList slice_nil, Some e)
          | (s, None) => Returns (PasteList s, None)
          end
      end
  end.

(** A JSON value that is a well-formed body for the call: the decoder
    stores it into the call's result type with no error (an array for the
    lists, an object for the single breach).  The result is what it stores. *)
Definition accepts (c : call) (j : json.Value) : option result :=
  match c with
  | CallBreachedAccount _ _ _ _ | CallBreaches _ =>
      match j with
      | json.Array _ =>
          match json.store j (slice_of [] : slice BreachModel.t) with
          | (s, None) => Some (BreachList s)
          | (_, Some _) => None
          end
      | _ => None
      end
  | CallBreach _ =>
      match j with
      | json.Object _ =>
          match json.store j BreachModel.empty with
          | (b, None) => Some (OneBreach b)
          | (_, Some _) => None
          end
      | _ => None
      end
  | CallPasteAccount _ =>
      match j with
      | json.Array _ =>
          match json.store j (slice_of [] : slice PasteModel.t) with
          | (s, None) => Some (PasteList s)
          | (_, Some _) => None
          end
      | _ => None
      end
  end.

(** The calls that return a list of breaches, and those that return a list. *)
Definition breach_list_call (c : call) : bool :=
  match c with
  | CallBreachedAccount _ _ _ _ | CallBreaches _ => true
  | _ => false
  end.

Definition list_call (c : call) : bool :=
  match c with
  | CallBreach _ => false
  | _ => true
  end.

(** The empty list that is not nil, in the call's result type. *)
Definition empty_list (c : call) : result :=
  match c with
  | CallPasteAccount _ => PasteList (slice_of [])
  | _ => BreachList (slice_of [])
  end.

(** *** Breach objects (section 3 of the specification) *)

Inductive json_type : Type := JString | JInteger | JBoolean | JStrings.

(** The attributes of a breach on the wire and their JSON types. *)
Definition breach_schema : list (string * json_type) :=
  [ ("Name", JString); ("Title", JString); ("Domain", JString);
    ("BreachDate", JString); ("AddedDate", JString); ("ModifiedDate", JString);
    ("PwnCount", JInteger); ("Description", JString); ("DataClasses", JStrings);
    ("IsVerified", JBoolean); ("IsFabricated", JBoolean); ("IsSensitive", JBoolean);
    ("IsRetired", JBoolean); ("IsSpamList", JBoolean); ("LogoPath", JString) ].

Definition is_string (j : json.Value) : bool :=
  match j with
  | json.Str _ => true
  | _ => false
  end.

Definition has_type (ty : json_type) (j : json.Value) : bool :=
  match ty, j with
  | JString, json.Str _ => true
  | JInteger, json.Number lit =>
      match json.ParseInt lit with
      | Some _ => true
      | None => false
      end
  | JBoolean, json.Bool _ => true
  | JStrings, json.Array es => forallb is_string es
  | _, _ => false
  end.

Definition schema_type (name : string) : option json_type :=
  match find (fun e => String.eqb (fst e) name) breach_schema with
  | Some e => Some (snd e)
  | None => None
  end.

(** A member of a breach object: an attribute of the schema with a value
    of its type, or an attribute the schema does not know, under a name that
    is not a schema name in another letter case. *)
Definition breach_member (kv : string * json.Value) : bool :=
  match schema_type (fst kv) with
  | Some ty => has_type ty (snd kv)
  | None => negb (existsb (fun e => json.equalFold (fst e) (fst kv)) breach_schema)
  end.

Fixpoint distinct (l : list string) : bool :=
  match l with
  | [] => true
  | x :: l' => negb (existsb (String.eqb x) l') && distinct l'
  end.

(** A well-formed breach object: no attribute twice, every member well
    formed. *)
Definition breach_object (o : list (string * json.Value)) : bool :=
  distinct (map fst o) && forallb breach_member o.

(** The value of an attribute in an object. *)
Definition member (name : string) (o : list (string * json.Value)) : option json.Value :=
  match find (fun kv => String.eqb (fst kv) name) o with
  | Some kv => Some (snd kv)
  | None => None
  end.

Definition as_string (default : string) (j : option json.Value) : string :=
  match j with
  | Some (json.Str s) => s
  | _ => default
  end.

Definition as_int (default : Z) (j : option json.Value) : Z :=
  match j with
  | Some (json.Number lit) =>
      match json.ParseInt lit with
      | Some n => n
      | None => default
      end
  | _ => default
  end.

Definition as_bool (default : bool) (j : option json.Value) : bool :=
  match j with
  | Some (json.Bool b) => b
  | _ => default
  end.

Definition as_strings (default : slice string) (j : option json.Value) : slice string :=
  match j with
  | Some (json.Array es) => slice_of (map (fun e => as_string "" (Some e)) es)
  | _ => default
  end.

(** The record that equals the object field for field: each field is the
    attribute of its name, and keeps [d]'s value when the object has no such
    attribute. *)
Definition read_breach (d : BreachModel.t) (o : list (string * json.Value)) : BreachModel.t :=
  BreachModel.mk
    (as_string (BreachModel.Name d) (member "Name" o))
    (as_string (BreachModel.Title d) (member "Title" o))
    (as_string (BreachModel.Domain d) (member "Domain" o))
    (as_string (BreachModel.BreachDate d) (member "BreachDate" o))
    (as_string (BreachModel.AddedDate d) (member "AddedDate" o))
    (as_string (BreachModel.ModifiedDate d) (member "ModifiedDate" o))
    (as_int (BreachModel.PwnCount d) (member "PwnCount" o))
    (as_string (BreachModel.Description d) (member "Description" o))
    (as_strings (BreachModel.DataClasses d) (member "DataClasses" o))
    (as_bool (BreachModel.IsVerified d) (member "IsVerified" o))
    (as_bool (BreachModel.IsFabricated d) (member "IsFabricated" o))
    (as_bool (BreachModel.IsSensitive d) (member "IsSensitive" o))
    (as_bool (BreachModel.IsRetired d) (member "IsRetired" o))
    (as_bool (BreachModel.IsSpamList d) (member "IsSpamList" o))
    (as_string (BreachModel.LogoPath d) (member "LogoPath" o)).

Definition record_of (o : list (string * json.Value)) : BreachModel.t :=
  read_breach BreachModel.empty o.

(** The [key=value] pieces of the query [callService] encodes, in the
    order [Values.Encode] gives them (see [query_of_request]). *)
Definition query_pieces (domainFilter : string) (truncate unverified : bool) : list string :=
  ((if negb (String.eqb domainFilter "") then [("domain=" ++ url.QueryEscape domainFilter)%string] else [])
   ++ (if unverified then ["includeUnverified=true"] else [])
   ++ (if truncate then [] else ["truncateResponse=false"]))%list.

(** *** Sample worlds *)

(** A world with a given API key whose client gives every request the same
    answer. *)
Definition answering (ans : option http.Response * option error) : World :=
  mkWorld (fun key => if String.eqb key "HIBP_API_KEY" then "0123456789abcdef" else "")
          (fun _ => ans).

(** A response with a body that reads to its end. *)
Definition response (status : Z) (body : string) : http.Response :=
  http.mkResponse status (http.mkBody body None).

(** [s] between double quotes. *)
Definition quoted (s : string) : string :=
  String json.quote (s ++ String json.quote "").

(** A body of two breaches, as text. *)
Definition two_breaches : string :=
  "[{" ++ quoted "Name" ++ ":" ++ quoted "Adobe" ++ ","
       ++ quoted "Title" ++ ":" ++ quoted "Adobe" ++ ","
       ++ quoted "PwnCount" ++ ":152445165},"
  ++ " {" ++ quoted "Name" ++ ":" ++ quoted "LinkedIn" ++ ","
       ++ quoted "Domain" ++ ":" ++ quoted "linkedin.com" ++ ","
       ++ quoted "DataClasses" ++ ":[" ++ quoted "Email addresses" ++ ","
                                        ++ quoted "Passwords" ++ "],"
       ++ quoted "IsVerified" ++ ":true,"
       ++ quoted "IsMalware" ++ ":false}]".

Definition adobe_object : list (string * json.Value) :=
  [ ("Name", json.Str "Adobe"); ("Title", json.Str "Adobe");
    ("PwnCount", json.Number "152445165") ].

Definition linkedin_object : list (string * json.Value) :=
  [ ("Name", json.Str "LinkedIn"); ("Domain", json.Str "linkedin.com");
    ("DataClasses", json.Array [json.Str "Email addresses"; json.Str "Passwords"]);
    ("IsVerified", json.Bool true); ("IsMalware", json.Bool false) ].

(** ** More of net/url: the text of a URL and its way back

    [callService] makes its request from [u.String()] (line 167); the
    functions below are the ones [String] runs and the ones that undo them
    on the receiving side. *)

Module url_text.

(** The three escaping modes met on the way: the path, the host and a
    query component. *)
Inductive encoding : Type := encodePath | encodeHost | encodeQueryComponent.

Definition alphanum (c : ascii) : bool :=
  url.byte_in "a" "z" c || url.byte_in "A" "Z" c || url.byte_in "0" "9" c.

Definition one_of (c : ascii) (set : string) : bool := mem c set.

(** [shouldEscape(c, mode)]. *)
Definition shouldEscape (c : ascii) (mode : encoding) : bool :=
  if alphanum c then false
  else if match mode with
          | encodeHost => one_of c ("!$&'()*+,;=:[]<>" ++ String "034" "")
          | _ => false
          end then false
  else if one_of c "-_.~" then false
  else if one_of c "$&+,/:;=?@" then
    match mode with
    | encodePath => Ascii.eqb c "?"
    | encodeQueryComponent => true
    | encodeHost => true
    end
  else true.

(** [escape(s, mode)]. *)
Fixpoint escape (s : string) (mode : encoding) : string :=
  match s with
  | EmptyString => EmptyString
  | String c s' =>
      if Ascii.eqb c " " && match mode with encodeQueryComponent => true | _ => false end
      then String "+" (escape s' mode)
      else if shouldEscape c mode then
        String "%" (String (url.hexdigit (N.shiftr (N_of_ascii c) 4))
                   (String (url.hexdigit (N.land (N_of_ascii c) 15)) (escape s' mode)))
      else String c (escape s' mode)
  end.

(** [u.EscapedPath()], for a URL with no raw path of its own (the URL
    parsed from [API] has none, and [callService] sets [Path] only). *)
Definition EscapedPath (u : url.URL) : string :=
  if String.eqb (url.Path u) "*" then "*" else escape (url.Path u) encodePath.

Definition nonempty (s : string) : bool := negb (String.eqb s "").

(** The first path segment holds a colon. *)
Definition colon_in_first_segment (path : string) : bool :=
  mem ":" (CutBefore path "/").

(** [u.String()], for a URL with no opaque part, no user, no fragment and
    no forced query (the URL parsed from [API] has none of them). *)
Definition URL_String (u : url.URL) : string :=
  let scheme := if nonempty (url.Scheme u) then url.Scheme u ++ ":" else "" in
  let authority :=
    if nonempty (url.Scheme u) || nonempty (url.Host u) then
      (if nonempty (url.Host u) || nonempty (url.Path u) then "//" else "")
      ++ (if nonempty (url.Host u) then escape (url.Host u) encodeHost else "")
    else "" in
  let path := EscapedPath u in
  let slash :=
    match path with
    | String c _ => if negb (Ascii.eqb c "/") && nonempty (url.Host u) then "/" else ""
    | EmptyString => ""
    end in
  let buf := scheme ++ authority ++ slash in
  let dot := if negb (nonempty buf) && colon_in_first_segment path then "./" else "" in
  buf ++ dot ++ path
  ++ (if nonempty (url.RawQuery u) then "?" ++ url.RawQuery u else "").

Definition ishex (c : ascii) : bool :=
  url.byte_in "0" "9" c || url.byte_in "a" "f" c || url.byte_in "A" "F" c.

Definition unhex (c : ascii) : N :=
  if url.byte_in "0" "9" c then N_of_ascii c - 48
  else if url.byte_in "a" "f" c then N_of_ascii c - 87
  else if url.byte_in "A" "F" c then N_of_ascii c - 55
  else 0.

(** [unescape(s, mode)] for the path ([query] false) and for a query
    component ([query] true): a percent sign takes two hex digits with it
    and is an error without them; a plus sign is a space in a query
    component. *)
Fixpoint unescape (s : string) (query : bool) : option string :=
  match s with
  | EmptyString => Some EmptyString
  | String c s' =>
      if Ascii.eqb c "%" then
        match s' with
        | String h (String l s'') =>
            if ishex h && ishex l then
              match unescape s'' query with
              | Some t => Some (String (ascii_of_N (N.lor (N.shiftl (unhex h) 4) (unhex l))) t)
              | None => None
              end
            else None
        | _ => None
        end
      else
        match unescape s' query with
        | Some t => Some (String (if Ascii.eqb c "+" && query then " "%char else c) t)
        | None => None
        end
  end.

Definition QueryUnescape (s : string) : option string := unescape s true.

End url_text.

(** [strings.Cut] for a one-byte separator: the text after the first
    separator (empty when there is none). *)
Fixpoint CutAfter (s : string) (sep : ascii) : string :=
  match s with
  | EmptyString => EmptyString
  | String c s' => if Ascii.eqb c sep then s' else CutAfter s' sep
  end.

(** The value of a parameter of a raw query string, as the receiving side
    reads it: the first piece of that name, its text after the equals sign,
    unescaped. *)
Definition query_value (rawQuery key : string) : option string :=
  match find (fun piece => String.eqb (CutBefore piece "=") key)
             (filter (fun piece => negb (String.eqb piece "")) (Split rawQuery "&")) with
  | Some piece => url_text.QueryUnescape (CutAfter piece "=")
  | None => None
  end.

(** The service and the identifier of a call, as it passes them to
    [callService]. *)
Definition service_of (c : call) : string :=
  let '(service, _, _, _, _) := callService_arguments c in service.

Definition identifier_of (c : call) : string :=
  let '(_, account, _, _, _) := callService_arguments c in account.

(** *** Paste objects *)

(** The attributes of a paste on the wire and their JSON types. *)
Definition paste_schema : list (string * json_type) :=
  [ ("Source", JString); ("Id", JString); ("Title", JString); ("Date", JString);
    ("EmailCount", JInteger) ].

Definition paste_schema_type (name : string) : option json_type :=
  match find (fun e => String.eqb (fst e) name) paste_schema with
  | Some e => Some (snd e)
  | None => None
  end.

Definition paste_member (kv : string * json.Value) : bool :=
  match paste_schema_type (fst kv) with
  | Some ty => has_type ty (snd kv)
  | None => negb (existsb (fun e => json.equalFold (fst e) (fst kv)) paste_schema)
  end.

(** A well-formed paste object: no attribute twice, every member well
    formed. *)
Definition paste_object (o : list (string * json.Value)) : bool :=
  distinct (map fst o) && forallb paste_member o.

(** The paste that equals the object field for field. *)
Definition read_paste (d : PasteModel.t) (o : list (string * json.Value)) : PasteModel.t :=
  PasteModel.mk
    (as_string (PasteModel.Source d) (member "Source" o))
    (as_string (PasteModel.ID d) (member "Id" o))
    (as_string (PasteModel.Title d) (member "Title" o))
    (as_string (PasteModel.Date d) (member "Date" o))
    (as_int (PasteModel.EmailCount d) (member "EmailCount" o)).

Definition paste_of (o : list (string * json.Value)) : PasteModel.t :=
  read_paste PasteModel.empty o.

(** *** A mistyped attribute *)

(** A member under the name of a breach attribute whose value is of
    another JSON kind than the attribute takes, and is not [null]. *)
Definition mistyped (kv : string * json.Value) : bool :=
  match schema_type (fst kv), snd kv with
  | _, json.Null => false
  | Some JString, json.Str _ => false
  | Some JBoolean, json.Bool _ => false
  | Some JStrings, json.Array _ => false
  | Some JInteger, json.Number lit =>
      match json.ParseInt lit with
      | Some _ => false
      | None => true
      end
  | Some _, _ => true
  | None, _ => false
  end.

(** The error the decoder saves for it. *)
Definition type_error (kv : string * json.Value) : error :=
  match schema_type (fst kv), snd kv with
  | Some JInteger, json.Number lit => json_UnmarshalTypeError ("number " ++ lit)
  | _, v => json_UnmarshalTypeError (json.describe v)
  end.

(** ** JSON texts

    What a JSON text is and what it says, after RFC 8259 and apart from
    the decoder: a [syntax] is a JSON value together with the way it is
    written (the white space between the tokens, how each character of a
    string is spelled, the digits of a number); [write] is its text and
    [denote] the value it stands for.  The properties of the decoded
    results below take the body of the response as such a text. *)

Module json_text.

(** White space: space, tab, line feed, carriage return. *)
Definition blank (c : ascii) : bool :=
  mem c (String " " (String "009" (String "010" (String "013" "")))).

Fixpoint blanks (w : string) : bool :=
  match w with
  | EmptyString => true
  | String c w' => blank c && blanks w'
  end.

(** What may follow a value: the end of the text, white space, a comma
    or a closing bracket. *)
Definition stops (rest : string) : bool :=
  match rest with
  | EmptyString => true
  | String c _ => blank c || mem c ",]}"
  end.

(** *** Numbers *)

(** A decimal digit and a run of them, most significant first. *)
Definition digit (d : N) : ascii := ascii_of_N (48 + d).

Fixpoint digits (ds : list N) : string :=
  match ds with
  | [] => ""
  | d :: ds' => String (digit d) (digits ds')
  end.

Definition decimal (ds : list N) : bool := forallb (fun d => (d <? 10)%N) ds.

(** The number the digits stand for. *)
Definition natural (ds : list N) : Z :=
  fold_left (fun acc d => (10 * acc + Z.of_N d)%Z) ds 0%Z.

(** An exponent part: [e] or [E], an optional sign ([Some true] is [+]),
    digits. *)
Record exponent : Type := mkExponent {
  capital : bool;
  sign : option bool;
  power : list N
}.

(** A number as it is written: an optional minus sign, the digits of the
    integer part, the digits of the fraction (none: no fraction part) and an
    optional exponent part. *)
Record numeral : Type := mkNumeral {
  negative : bool;
  whole : list N;
  fraction : list N;
  exponent_part : option exponent
}.

Definition write_exponent (e : exponent) : string :=
  (if capital e then "E" else "e")
  ++ match sign e with
     | None => ""
     | Some true => "+"
     | Some false => "-"
     end
  ++ digits (power e).

Definition write_numeral (n : numeral) : string :=
  (if negative n then "-" else "")
  ++ digits (whole n)
  ++ match fraction n with
     | [] => ""
     | _ => String "." (digits (fraction n))
     end
  ++ match exponent_part n with
     | None => ""
     | Some e => write_exponent e
     end.

(** The integer part has a digit and no leading zero; every part is made
    of decimal digits; an exponent has a digit. *)
Definition numeral_ok (n : numeral) : bool :=
  match whole n with
  | [] => false
  | [_] => true
  | d :: _ => negb (d =? 0)%N
  end
  && decimal (whole n) && decimal (fraction n)
  && match exponent_part n with
     | None => true
     | Some e =>
         match power e with
         | [] => false
         | _ => decimal (power e)
         end
     end.

(** The integer a numeral stands for, when it is written as one: with no
    fraction and no exponent. *)
Definition integer (n : numeral) : option Z :=
  match fraction n, exponent_part n with
  | [], None => Some (if negative n then - natural (whole n) else natural (whole n))%Z
  | _, _ => None
  end.

Definition int64 (z : Z) : bool :=
  ((-9223372036854775808 <=? z) && (z <=? 9223372036854775807))%Z.

(** *** Strings *)

(** A hexadecimal digit: its value and whether a letter is a capital. *)
Definition hex : Type := (N * bool)%type.

Definition write_hex (h : hex) : ascii :=
  let (d, up) := h in
  if (d <? 10)%N then ascii_of_N (48 + d)
  else if up then ascii_of_N (55 + d)
  else ascii_of_N (87 + d).

Definition hex4 : Type := (hex * hex * hex * hex)%type.

Definition hex4_ok (q : hex4) : bool :=
  let '(a, b, c, d) := q in
  ((fst a <? 16) && (fst b <? 16) && (fst c <? 16) && (fst d <? 16))%N.

Definition write_hex4 (q : hex4) : string :=
  let '(a, b, c, d) := q in
  String (write_hex a) (String (write_hex b) (String (write_hex c) (String (write_hex d) ""))).

(** The 16-bit code unit of four hexadecimal digits. *)
Definition code_unit (q : hex4) : N :=
  let '(a, b, c, d) := q in
  (((fst a * 16 + fst b) * 16 + fst c) * 16 + fst d)%N.

(** A Unicode scalar value: a code point that is no surrogate. *)
Definition scalar (r : N) : bool :=
  ((r <? 55296) || (57343 <? r) && (r <=? 1114111))%N.

(** The UTF-8 encoding of a scalar value (RFC 3629). *)
Definition utf8 (r : N) : string :=
  if (r <? 128)%N then String (ascii_of_N r) ""
  else if (r <? 2048)%N then
    String (ascii_of_N (192 + r / 64)) (String (ascii_of_N (128 + r mod 64)) "")
  else if (r <? 65536)%N then
    String (ascii_of_N (224 + r / 4096))
      (String (ascii_of_N (128 + (r / 64) mod 64))
         (String (ascii_of_N (128 + r mod 64)) ""))
  else
    String (ascii_of_N (240 + r / 262144))
      (String (ascii_of_N (128 + (r / 4096) mod 64))
         (String (ascii_of_N (128 + (r / 64) mod 64))
            (String (ascii_of_N (128 + r mod 64)) ""))).

(** One character of a string, as it is written between the quotes: an
    ASCII character as it is; a character past ASCII in UTF-8; a backslash
    and one of the eight characters that may follow it (the quote, the
    backslash, the slash, b, f, n, r, t); a backslash, u and four
    hexadecimal digits; two of these that make a surrogate pair.  (An
    escape of a surrogate half on its own is left out: it stands for no
    character.) *)
Inductive glyph : Type :=
| Plain (c : ascii)
| Multibyte (r : N)
| Short (c : ascii)
| Unicode (q : hex4)
| Surrogates (hi lo : hex4).

Definition glyph_ok (g : glyph) : bool :=
  match g with
  | Plain c =>
      (32 <=? N_of_ascii c)%N && (N_of_ascii c <? 128)%N
      && negb (Ascii.eqb c "034") && negb (Ascii.eqb c "\")
  | Multibyte r => (128 <=? r)%N && scalar r
  | Short c => mem c (String "034" "\/bfnrt")
  | Unicode q => hex4_ok q && scalar (code_unit q)
  | Surrogates hi lo =>
      hex4_ok hi && hex4_ok lo
      && (55296 <=? code_unit hi)%N && (code_unit hi <? 56320)%N
      && (56320 <=? code_unit lo)%N && (code_unit lo <? 57344)%N
  end.

Definition write_glyph (g : glyph) : string :=
  match g with
  | Plain c => String c ""
  | Multibyte r => utf8 r
  | Short c => String "\" (String c "")
  | Unicode q => String "\" (String "u" (write_hex4 q))
  | Surrogates hi lo =>
      String "\" (String "u" (write_hex4 hi)) ++ String "\" (String "u" (write_hex4 lo))
  end.

(** The bytes a glyph stands for. *)
Definition glyph_bytes (g : glyph) : string :=
  match g with
  | Plain c => String c ""
  | Multibyte r => utf8 r
  | Short c =>
      if Ascii.eqb c "b" then String "008" ""
      else if Ascii.eqb c "f" then String "012" ""
      else if Ascii.eqb c "n" then String "010" ""
      else if Ascii.eqb c "r" then String "013" ""
      else if Ascii.eqb c "t" then String "009" ""
      else String c ""
  | Unicode q => utf8 (code_unit q)
  | Surrogates hi lo =>
      utf8 (65536 + (code_unit hi - 55296) * 1024 + (code_unit lo - 56320))%N
  end.

Fixpoint write_glyphs (gs : list glyph) : string :=
  match gs with
  | [] => ""
  | g :: gs' => write_glyph g ++ write_glyphs gs'
  end.

(** The string the glyphs stand for. *)
Fixpoint spell (gs : list glyph) : string :=
  match gs with
  | [] => ""
  | g :: gs' => glyph_bytes g ++ spell gs'
  end.

(** A string literal: the glyphs between double quotes. *)
Definition write_string (gs : list glyph) : string :=
  String "034" (write_glyphs gs ++ String "034" "").

(** *** Values *)

(** A value as it is written.  The strings [w] are the white space at the
    places where the grammar allows it: inside the brackets of an empty
    array or object, around an element, around a key and around a member's
    value. *)
Inductive syntax : Type :=
| SNull
| SBool (b : bool)
| SNumber (n : numeral)
| SString (gs : list glyph)
| SEmptyArray (w : string)
| SArray (es : elements)
| SEmptyObject (w : string)
| SObject (ms : members)
with elements : Type :=
| Last (w1 : string) (v : syntax) (w2 : string)
| Next (w1 : string) (v : syntax) (w2 : string) (es : elements)
with members : Type :=
| LastMember (w1 : string) (key : list glyph) (w2 w3 : string) (v : syntax) (w4 : string)
| NextMember (w1 : string) (key : list glyph) (w2 w3 : string) (v : syntax) (w4 : string)
    (ms : members).

(** The text. *)
Fixpoint write (v : syntax) : string :=
  match v with
  | SNull => "null"
  | SBool true => "true"
  | SBool false => "false"
  | SNumber n => write_numeral n
  | SString gs => write_string gs
  | SEmptyArray w => "[" ++ w ++ "]"
  | SArray es => "[" ++ write_elements es ++ "]"
  | SEmptyObject w => "{" ++ w ++ "}"
  | SObject ms => "{" ++ write_members ms ++ "}"
  end
with write_elements (es : elements) : string :=
  match es with
  | Last w1 v w2 => w1 ++ write v ++ w2
  | Next w1 v w2 es' => w1 ++ write v ++ w2 ++ "," ++ write_elements es'
  end
with write_members (ms : members) : string :=
  match ms with
  | LastMember w1 key w2 w3 v w4 =>
      w1 ++ write_string key ++ w2 ++ ":" ++ w3 ++ write v ++ w4
  | NextMember w1 key w2 w3 v w4 ms' =>
      w1 ++ write_string key ++ w2 ++ ":" ++ w3 ++ write v ++ w4 ++ "," ++ write_members ms'
  end.

(** The elements of an array and the members of an object, in their
    order; a member is the string of its key and its value. *)
Fixpoint items (es : elements) : list syntax :=
  match es with
  | Last _ v _ => [v]
  | Next _ v _ es' => v :: items es'
  end.

Fixpoint entries (ms : members) : list (string * syntax) :=
  match ms with
  | LastMember _ key _ _ v _ => [(spell key, v)]
  | NextMember _ key _ _ v _ ms' => (spell key, v) :: entries ms'
  end.

(** The value a text stands for; a number keeps its literal. *)
Fixpoint denote (v : syntax) : json.Value :=
  match v with
  | SNull => json.Null
  | SBool b => json.Bool b
  | SNumber n => json.Number (write_numeral n)
  | SString gs => json.Str (spell gs)
  | SEmptyArray _ => json.Array []
  | SArray es => json.Array (denote_elements es)
  | SEmptyObject _ => json.Object []
  | SObject ms => json.Object (denote_members ms)
  end
with denote_elements (es : elements) : list json.Value :=
  match es with
  | Last _ v _ => [denote v]
  | Next _ v _ es' => denote v :: denote_elements es'
  end
with denote_members (ms : members) : list (string * json.Value) :=
  match ms with
  | LastMember _ key _ _ v _ => [(spell key, denote v)]
  | NextMember _ key _ _ v _ ms' => (spell key, denote v) :: denote_members ms'
  end.

(** How deep arrays and objects nest. *)
Fixpoint height (v : syntax) : N :=
  match v with
  | SEmptyArray _ | SEmptyObject _ => 1
  | SArray es => 1 + height_elements es
  | SObject ms => 1 + height_members ms
  | _ => 0
  end
with height_elements (es : elements) : N :=
  match es with
  | Last _ v _ => height v
  | Next _ v _ es' => N.max (height v) (height_elements es')
  end
with height_members (ms : members) : N :=
  match ms with
  | LastMember _ _ _ _ v _ => height v
  | NextMember _ _ _ _ v _ ms' => N.max (height v) (height_members ms')
  end.

(** The text follows the grammar: the strings [w] are white space, the
    numbers and the glyphs are well formed. *)
Fixpoint grammatical (v : syntax) : bool :=
  match v with
  | SNull | SBool _ => true
  | SNumber n => numeral_ok n
  | SString gs => forallb glyph_ok gs
  | SEmptyArray w | SEmptyObject w => blanks w
  | SArray es => grammatical_elements es
  | SObject ms => grammatical_members ms
  end
with grammatical_elements (es : elements) : bool :=
  match es with
  | Last w1 v w2 => blanks w1 && grammatical v && blanks w2
  | Next w1 v w2 es' => blanks w1 && grammatical v && blanks w2 && grammatical_elements es'
  end
with grammatical_members (ms : members) : bool :=
  match ms with
  | LastMember w1 key w2 w3 v w4 =>
      blanks w1 && forallb glyph_ok key && blanks w2 && blanks w3 && grammatical v && blanks w4
  | NextMember w1 key w2 w3 v w4 ms' =>
      blanks w1 && forallb glyph_ok key && blanks w2 && blanks w3 && grammatical v && blanks w4
      && grammatical_members ms'
  end.

(** A JSON text: white space, a value, white space; [encoding/json] takes
    no text that nests deeper than 10000. *)
Record document : Type := mkDocument {
  leading : string;
  root : syntax;
  trailing : string
}.

Definition write_document (t : document) : string :=
  leading t ++ write (root t) ++ trailing t.

Definition well_formed (t : document) : bool :=
  blanks (leading t) && grammatical (root t) && blanks (trailing t)
  && (height (root t) <=? 10000)%N.

End json_text.

(** ** What a body says

    The breaches and the pastes a JSON text describes, read off the text
    itself: an attribute is the value written under its name, a string is
    what its glyphs spell, an integer is what its digits stand for. *)

(** The members of an object; no other value has any. *)
Definition entries_of (v : json_text.syntax) : list (string * json_text.syntax) :=
  match v with
  | json_text.SObject ms => json_text.entries ms
  | _ => []
  end.

Definition is_object (v : json_text.syntax) : bool :=
  match v with
  | json_text.SObject _ | json_text.SEmptyObject _ => true
  | _ => false
  end.

(** The elements of an array. *)
Definition items_of (v : json_text.syntax) : option (list json_text.syntax) :=
  match v with
  | json_text.SEmptyArray _ => Some []
  | json_text.SArray es => Some (json_text.items es)
  | _ => None
  end.

(** The value written under [name], the first one if there are several. *)
Definition attribute (name : string) (v : json_text.syntax) : option json_text.syntax :=
  match find (fun kv => String.eqb (fst kv) name) (entries_of v) with
  | Some kv => Some (snd kv)
  | None => None
  end.

Definition string_in (default : string) (v : option json_text.syntax) : string :=
  match v with
  | Some (json_text.SString gs) => json_text.spell gs
  | _ => default
  end.

Definition integer_in (default : Z) (v : option json_text.syntax) : Z :=
  match v with
  | Some (json_text.SNumber n) =>
      match json_text.integer n with
      | Some z => if json_text.int64 z then z else default
      | None => default
      end
  | _ => default
  end.

Definition bool_in (default : bool) (v : option json_text.syntax) : bool :=
  match v with
  | Some (json_text.SBool b) => b
  | _ => default
  end.

Definition strings_in (default : slice string) (v : option json_text.syntax) : slice string :=
  match v with
  | Some x =>
      match items_of x with
      | Some vs => slice_of (map (fun e => string_in "" (Some e)) vs)
      | None => default
      end
  | None => default
  end.

(** The breach an object describes: each field is the attribute of its
    name, the zero value when the object has none. *)
Definition breach_in (v : json_text.syntax) : BreachModel.t :=
  BreachModel.mk
    (string_in "" (attribute "Name" v))
    (string_in "" (attribute "Title" v))
    (string_in "" (attribute "Domain" v))
    (string_in "" (attribute "BreachDate" v))
    (string_in "" (attribute "AddedDate" v))
    (string_in "" (attribute "ModifiedDate" v))
    (integer_in 0 (attribute "PwnCount" v))
    (string_in "" (attribute "Description" v))
    (strings_in slice_nil (attribute "DataClasses" v))
    (bool_in false (attribute "IsVerified" v))
    (bool_in false (attribute "IsFabricated" v))
    (bool_in false (attribute "IsSensitive" v))
    (bool_in false (attribute "IsRetired" v))
    (bool_in false (attribute "IsSpamList" v))
    (string_in "" (attribute "LogoPath" v)).

(** The paste an object describes; the field [ID] is the attribute [Id]. *)
Definition paste_in (v : json_text.syntax) : PasteModel.t :=
  PasteModel.mk
    (string_in "" (attribute "Source" v))
    (string_in "" (attribute "Id" v))
    (string_in "" (attribute "Title" v))
    (string_in "" (attribute "Date" v))
    (integer_in 0 (attribute "EmailCount" v)).

Definition is_text (v : json_text.syntax) : bool :=
  match v with
  | json_text.SString _ => true
  | _ => false
  end.

(** A value of the JSON type [ty], as it is written: a string; an integer
    with no fraction and no exponent, in the range of 64 bits; a boolean;
    an array of strings. *)
Definition written_as (ty : json_type) (v : json_text.syntax) : bool :=
  match ty, v with
  | JString, json_text.SString _ => true
  | JInteger, json_text.SNumber n =>
      match json_text.integer n with
      | Some z => json_text.int64 z
      | None => false
      end
  | JBoolean, json_text.SBool _ => true
  | JStrings, json_text.SEmptyArray _ => true
  | JStrings, json_text.SArray es => forallb is_text (json_text.items es)
  | _, _ => false
  end.

(** A member of a breach object: an attribute of the schema with a value
    of its type, or an attribute the schema does not have, under no name
    that differs from one of the schema by case only. *)
Definition breach_attribute (kv : string * json_text.syntax) : bool :=
  match schema_type (fst kv) with
  | Some ty => written_as ty (snd kv)
  | None => negb (existsb (fun e => json.equalFold (fst e) (fst kv)) breach_schema)
  end.

(** A breach object: an object, no attribute twice, every member well
    formed. *)
Definition breach_text (v : json_text.syntax) : bool :=
  is_object v && distinct (map fst (entries_of v)) && forallb breach_attribute (entries_of v).

Definition paste_attribute (kv : string * json_text.syntax) : bool :=
  match paste_schema_type (fst kv) with
  | Some ty => written_as ty (snd kv)
  | None => negb (existsb (fun e => json.equalFold (fst e) (fst kv)) paste_schema)
  end.

Definition paste_text (v : json_text.syntax) : bool :=
  is_object v && distinct (map fst (entries_of v)) && forallb paste_attribute (entries_of v).

(** A member as the decoder has it: the key and the value the text of the
    member's value stands for. *)
Definition denoted (kv : string * json_text.syntax) : string * json.Value :=
  (fst kv, json_text.denote (snd kv)).

(** The glyphs of a string of plain ASCII characters written as it is,
    character by character. *)
Definition plain (s : string) : list json_text.glyph :=
  map json_text.Plain (list_ascii_of_string s).

(** A member and an element with no white space around them, the key in
    plain characters. *)
Definition one_member (key : string) (v : json_text.syntax) : json_text.members :=
  json_text.LastMember "" (plain key) "" "" v "".

Definition and_member (key : string) (v : json_text.syntax) (ms : json_text.members)
  : json_text.members :=
  json_text.NextMember "" (plain key) "" "" v "" ms.

Definition integer_literal (ds : list N) : json_text.syntax :=
  json_text.SNumber (json_text.mkNumeral false ds [] None).

(** Two breaches as a server may write them: a line feed and a space
    between the objects, a space after a colon, [A] written as an escape of
    four hexadecimal digits and a slash with a backslash before it. *)
Definition adobe_text : json_text.syntax :=
  json_text.SObject
    (json_text.NextMember "" (plain "Name") "" " " (json_text.SString (plain "Adobe")) ""
       (and_member "Title"
          (json_text.SString
             (json_text.Unicode ((0, false), (0, false), (4, false), (1, false))%N
                :: plain "dobe"))
          (one_member "PwnCount" (integer_literal [1; 5; 2; 4; 4; 5; 1; 6; 5]%N)))).

Definition linkedin_text : json_text.syntax :=
  json_text.SObject
    (and_member "Name" (json_text.SString (plain "LinkedIn"))
       (and_member "Domain" (json_text.SString (plain "linkedin.com"))
          (and_member "DataClasses"
             (json_text.SArray
                (json_text.Next "" (json_text.SString (plain "Email addresses")) ""
                   (json_text.Last " " (json_text.SString (plain "Passwords")) "")))
             (and_member "IsVerified" (json_text.SBool true)
                (and_member "LogoPath"
                   (json_text.SString
                      (plain "https:" ++ [json_text.Short "/"; json_text.Short "/"]
                         ++ plain "logos" ++ [json_text.Short "/"] ++ plain "in.png")%list)
                   (one_member "IsMalware" (json_text.SBool false))))))).

Definition two_breaches_document : json_text.document :=
  json_text.mkDocument ""
    (json_text.SArray
       (json_text.Next "" adobe_text ""
          (json_text.Last (String "010" " ") linkedin_text "")))
    (String "010" "").

Definition pastebin_text : json_text.syntax :=
  json_text.SObject
    (and_member "Source" (json_text.SString (plain "Pastebin"))
       (and_member "Id" (json_text.SString (plain "8Q0BvKD8"))
          (and_member "Date" (json_text.SString (plain "2014-03-04T19:14:54Z"))
             (one_member "EmailCount" (integer_literal [1; 3; 9]%N))))).

(** A breach whose [PwnCount] is written as a string. *)
Definition mistyped_document : json_text.document :=
  json_text.mkDocument ""
    (json_text.SObject
       (and_member "Name" (json_text.SString (plain "Adobe"))
          (one_member "PwnCount" (json_text.SString (plain "many")))))
    "".

(** *** Decode errors *)

(** The kind of a value, as [encoding/json] names it in a type error. *)
Definition kind (v : json_text.syntax) : string :=
  match v with
  | json_text.SNull => "null"
  | json_text.SBool _ => "bool"
  | json_text.SNumber _ => "number"
  | json_text.SString _ => "string"
  | json_text.SEmptyArray _ | json_text.SArray _ => "array"
  | json_text.SEmptyObject _ | json_text.SObject _ => "object"
  end.

(** A value of the wrong shape for the call: not [null] and, for a list
    function, no array, for [Breach], no object. *)
Definition wrong_shape (c : call) (v : json_text.syntax) : bool :=
  match v with
  | json_text.SNull => false
  | json_text.SEmptyArray _ | json_text.SArray _ => negb (list_call c)
  | json_text.SEmptyObject _ | json_text.SObject _ => list_call c
  | _ => true
  end.

(** The error [json.Unmarshal] reports for the body when it stores it
    into the result of the call: a syntax error when the text is no JSON,
    the first type error when a value does not fit the Go type of its
    place; [None] when it reports none. *)
Definition decode_error (c : call) (data : string) : option error :=
  match c with
  | CallBreachedAccount _ _ _ _ | CallBreaches _ =>
      snd (json.Unmarshal data (slice_of [] : slice BreachModel.t))
  | CallBreach _ => snd (json.Unmarshal data (Some BreachModel.empty))
  | CallPasteAccount _ => snd (json.Unmarshal data (slice_of [] : slice PasteModel.t))
  end.


(** ** The scanner has fuel enough

    [json.parse] runs the scanner with a fuel of twice the length of the
    text and four.  Every call of the scanner uses up a byte within two
    steps, so no larger fuel reads a text that this fuel does not. *)

Lemma skip_space_length (s : string) :
  String.length (json.skip_space s) <= String.length s.
Proof.
  induction s as [|c s IH]; simpl; [lia|].
  destruct (json.isSpace c); simpl; lia.
Qed.

Lemma after_length (c : ascii) (s r : string) :
  json.after c s = Some r -> String.length r < String.length s.
Proof.
  unfold json.after. pose proof (skip_space_length s) as L.
  destruct (json.skip_space s) as [|a rest]; [discriminate|].
  destruct (Ascii.eqb a c); [|discriminate].
  intros [= <-]. simpl in L. lia.
Qed.

Lemma digits_length (s ds r : string) :
  json.digits s = (ds, r) -> String.length s = String.length ds + String.length r.
Proof.
  revert ds r. induction s as [|c s IH]; intros ds r; simpl.
  - now intros [= <- <-].
  - destruct (json.isDigit c).
    + destruct (json.digits s) as [ds' r'] eqn:E. intros [= <- <-].
      simpl. now rewrite (IH _ _ eq_refl).
    + now intros [= <- <-].
Qed.

Lemma some_digits_length (s ds r : string) :
  json.some_digits s = Some (ds, r) -> String.length r < String.length s.
Proof.
  unfold json.some_digits. destruct (json.digits s) as [ds' r'] eqn:E.
  apply digits_length in E.
  destruct ds'; [discriminate|]. intros [= <- <-]. simpl in E. lia.
Qed.

Lemma CutPrefix_length (p : string) :
  forall s r, CutPrefix s p = Some r -> String.length s = String.length p + String.length r.
Proof.
  induction p as [|a p IH]; intros s r; simpl.
  - now intros [= <-].
  - destruct s as [|b s]; [discriminate|].
    destruct (Ascii.eqb a b); [|discriminate].
    intros H. simpl. now rewrite (IH _ _ H).
Qed.

Ltac break_match H :=
  match type of H with
  | context [match ?e with _ => _ end] => destruct e eqn:?
  end.

Ltac break_all H :=
  repeat (break_match H; try discriminate);
  repeat match goal with
         | E : (_, _) = (_, _) |- _ => injection E as <- <-
         | E : Some _ = Some _ |- _ => injection E as <- <-
         end.

Lemma sign_part_length (s sign r : string) :
  json.sign_part s = (sign, r) -> String.length r <= String.length s.
Proof.
  unfold json.sign_part. intros H.
  destruct s as [|c s]; [|destruct (Ascii.eqb c "-")];
    injection H as <- <-; simpl; lia.
Qed.

Lemma int_part_length (s i r : string) :
  json.int_part s = Some (i, r) -> String.length r < String.length s.
Proof.
  unfold json.int_part. intros H.
  destruct s as [|c s]; [discriminate|].
  destruct (Ascii.eqb c "0").
  - injection H as <- <-. simpl. lia.
  - now apply some_digits_length in H.
Qed.

Lemma frac_part_length (s f r : string) :
  json.frac_part s = Some (f, r) -> String.length r <= String.length s.
Proof.
  unfold json.frac_part. intros H.
  destruct s as [|c s]; [injection H as <- <-; simpl; lia|].
  destruct (Ascii.eqb c ".").
  - destruct (json.some_digits s) as [[ds r']|] eqn:E; [|discriminate].
    injection H as <- <-. apply some_digits_length in E. simpl. lia.
  - injection H as <- <-. simpl. lia.
Qed.

Lemma exp_part_length (s x r : string) :
  json.exp_part s = Some (x, r) -> String.length r <= String.length s.
Proof.
  unfold json.exp_part. intros H.
  destruct s as [|e s]; [injection H as <- <-; simpl; lia|].
  destruct (Ascii.eqb e "e" || Ascii.eqb e "E")%bool.
  - destruct s as [|c s'].
    + destruct (json.some_digits "") as [[ds r2]|] eqn:E; [|discriminate].
      injection H as <- <-. apply some_digits_length in E. simpl in *. lia.
    + destruct (Ascii.eqb c "+" || Ascii.eqb c "-")%bool;
        match type of H with
        | context [json.some_digits ?t] =>
            destruct (json.some_digits t) as [[ds r2]|] eqn:E; [|discriminate]
        end;
        injection H as <- <-; apply some_digits_length in E; simpl in *; lia.
  - injection H as <- <-. simpl. lia.
Qed.

Lemma number_length (s lit r : string) :
  json.number s = Some (lit, r) -> String.length r < String.length s.
Proof.
  unfold json.number. intros H.
  destruct (json.sign_part s) as [sign s1] eqn:E1.
  destruct (json.int_part s1) as [[i s2]|] eqn:E2; [|discriminate].
  destruct (json.frac_part s2) as [[f s3]|] eqn:E3; [|discriminate].
  destruct (json.exp_part s3) as [[x s4]|] eqn:E4; [|discriminate].
  injection H as <- <-.
  apply sign_part_length in E1. apply int_part_length in E2.
  apply frac_part_length in E3. apply exp_part_length in E4. lia.
Qed.

Lemma getu4_length (s r : string) (n : N) :
  json.getu4 s = Some (n, r) -> String.length r < String.length s.
Proof.
  unfold json.getu4. intros H.
  do 6 (destruct s as [|? s]; [discriminate|]).
  break_all H. simpl. lia.
Qed.

Lemma escape_sequence_length (s bytes r : string) :
  json.escape_sequence s = Some (bytes, r) -> String.length r < String.length s.
Proof.
  unfold json.escape_sequence. intros H.
  destruct s as [|e s]; [discriminate|]. destruct s as [|c rest]; [discriminate|].
  repeat match type of H with
         | (if ?b then _ else _) = _ => destruct b; try discriminate
         end;
    try (injection H as <- <-; simpl; lia).
  destruct (json.getu4 (String e (String c rest))) as [[rr rest1]|] eqn:E1; [|discriminate].
  apply getu4_length in E1.
  destruct ((55296 <=? rr) && (rr <? 57344))%N.
  - destruct (json.getu4 rest1) as [[rr1 rest2]|] eqn:E2.
    + apply getu4_length in E2.
      destruct ((rr <? 56320) && (56320 <=? rr1) && (rr1 <? 57344))%N;
        injection H as <- <-; lia.
    + injection H as <- <-; lia.
  - injection H as <- <-; lia.
Qed.

Lemma utf8_sequence_length (s bytes r : string) :
  json.utf8_sequence s = Some (bytes, r) -> String.length r < String.length s.
Proof.
  unfold json.utf8_sequence. intros H.
  destruct s as [|a s]; [discriminate|]. destruct s as [|b rest]; [discriminate|].
  destruct (json.between 194 223 a && json.cont b)%bool; [injection H as <- <-; simpl; lia|].
  destruct rest as [|c rest']; [discriminate|].
  match type of H with
  | (if ?t then _ else _) = _ => destruct t; [injection H as <- <-; simpl; lia|]
  end.
  destruct rest' as [|d rest'']; [discriminate|].
  match type of H with
  | (if ?t then _ else _) = _ => destruct t; [injection H as <- <-; simpl; lia|discriminate]
  end.
Qed.

(** One step of a string literal. *)
Lemma string_body_length (fuel : nat) :
  forall s str r, json.string_body fuel s = Some (str, r) -> String.length r < String.length s.
Proof.
  induction fuel as [|fuel IH]; intros s str r H; simpl in H; [discriminate|].
  destruct s as [|c rest]; [discriminate|].
  destruct (Ascii.eqb c json.quote); [injection H as <- <-; simpl; lia|].
  match type of H with
  | match ?step with _ => _ end = _ => destruct step as [[bytes rest']|] eqn:Es; [|discriminate]
  end.
  destruct (json.string_body fuel rest') as [[tail rest'']|] eqn:Eb; [|discriminate].
  injection H as <- <-. apply IH in Eb.
  assert (String.length rest' < String.length (String c rest)); [|lia].
  destruct (Ascii.eqb c "\"); [now apply escape_sequence_length in Es|].
  destruct (json.code c <? 32)%N; [discriminate|].
  destruct (json.code c <? 128)%N; [injection Es as <- <-; simpl; lia|].
  destruct (json.utf8_sequence (String c rest)) as [[b' r']|] eqn:Eu.
  - injection Es as <- <-. now apply utf8_sequence_length in Eu.
  - injection Es as <- <-. simpl. lia.
Qed.

Lemma string_body_fuel (fuel : nat) :
  forall s res fuel',
    json.string_body fuel s = Some res -> String.length s < fuel' ->
    json.string_body fuel' s = Some res.
Proof.
  induction fuel as [|fuel IH]; intros s res fuel' H L; simpl in H; [discriminate|].
  destruct fuel' as [|fuel']; [lia|]. simpl.
  destruct s as [|c rest]; [discriminate|].
  destruct (Ascii.eqb c json.quote); [exact H|].
  match type of H with
  | match ?step with _ => _ end = _ => destruct step as [[bytes rest']|] eqn:Es; [|discriminate]
  end.
  destruct (json.string_body fuel rest') as [[tail rest'']|] eqn:Eb; [|discriminate].
  assert (String.length rest' < String.length (String c rest)) as Lr.
  { destruct (Ascii.eqb c "\"); [now apply escape_sequence_length in Es|].
    destruct (json.code c <? 32)%N; [discriminate|].
    destruct (json.code c <? 128)%N; [injection Es as <- <-; simpl; lia|].
    destruct (json.utf8_sequence (String c rest)) as [[b' r']|] eqn:Eu.
    - injection Es as <- <-. now apply utf8_sequence_length in Eu.
    - injection Es as <- <-. simpl. lia. }
  rewrite (IH _ _ fuel' Eb); [exact H|]. simpl in *. lia.
Qed.

(** The scanner uses up at least one byte. *)
Lemma scan_length (fuel : nat) :
  (forall d s v r, json.value fuel d s = Some (v, r) -> String.length r < String.length s) /\
  (forall d s vs r, json.elems fuel d s = Some (vs, r) -> String.length r < String.length s) /\
  (forall d s ms r, json.members fuel d s = Some (ms, r) -> String.length r < String.length s).
Proof.
  induction fuel as [|fuel (IHv & IHe & IHm)];
    [repeat split; intros; discriminate|].
  repeat split; intros d s x r H; cbn [json.value json.elems json.members] in H.
  - pose proof (skip_space_length s) as L.
    destruct (json.skip_space s) as [|c rest]; [discriminate|]. simpl in L.
    destruct (Ascii.eqb c "{").
    { destruct (json.maxNestingDepth <=? d)%N; [discriminate|].
      destruct (json.after "}" rest) as [rest'|] eqn:Ea.
      - injection H as <- <-. apply after_length in Ea. lia.
      - destruct (json.members fuel (d + 1) rest) as [[ms rest']|] eqn:Em; [|discriminate].
        injection H as <- <-. apply IHm in Em. lia. }
    destruct (Ascii.eqb c "[").
    { destruct (json.maxNestingDepth <=? d)%N; [discriminate|].
      destruct (json.after "]" rest) as [rest'|] eqn:Ea.
      - injection H as <- <-. apply after_length in Ea. lia.
      - destruct (json.elems fuel (d + 1) rest) as [[vs rest']|] eqn:Ee; [|discriminate].
        injection H as <- <-. apply IHe in Ee. lia. }
    destruct (Ascii.eqb c json.quote).
    { destruct (json.string_body fuel rest) as [[str rest']|] eqn:Eb; [|discriminate].
      injection H as <- <-. apply string_body_length in Eb. lia. }
    destruct (CutPrefix (String c rest) "true") as [r1|] eqn:E1.
    { injection H as <- <-. apply CutPrefix_length in E1. simpl in *. lia. }
    destruct (CutPrefix (String c rest) "false") as [r2|] eqn:E2.
    { injection H as <- <-. apply CutPrefix_length in E2. simpl in *. lia. }
    destruct (CutPrefix (String c rest) "null") as [r3|] eqn:E3.
    { injection H as <- <-. apply CutPrefix_length in E3. simpl in *. lia. }
    destruct (json.number (String c rest)) as [[lit rest']|] eqn:En; [|discriminate].
    injection H as <- <-. apply number_length in En. simpl in *. lia.
  - destruct (json.value fuel d s) as [[v rest]|] eqn:Ev; [|discriminate].
    apply IHv in Ev.
    destruct (json.after "," rest) as [rest'|] eqn:Ea.
    + destruct (json.elems fuel d rest') as [[vs rest'']|] eqn:Ee; [|discriminate].
      injection H as <- <-. apply after_length in Ea. apply IHe in Ee. lia.
    + destruct (json.after "]" rest) as [rest'|] eqn:Ea'; [|discriminate].
      injection H as <- <-. apply after_length in Ea'. lia.
  - destruct (json.after json.quote s) as [rest|] eqn:Eq; [|discriminate].
    destruct (json.string_body fuel rest) as [[key rest1]|] eqn:Eb; [|discriminate].
    destruct (json.after ":" rest1) as [rest2|] eqn:Ec; [|discriminate].
    destruct (json.value fuel d rest2) as [[v rest3]|] eqn:Ev; [|discriminate].
    apply after_length in Eq, Ec. apply string_body_length in Eb. apply IHv in Ev.
    destruct (json.after "," rest3) as [rest4|] eqn:Ea.
    + destruct (json.members fuel d rest4) as [[ms rest5]|] eqn:Em; [|discriminate].
      injection H as <- <-. apply after_length in Ea. apply IHm in Em. lia.
    + destruct (json.after "}" rest3) as [rest4|] eqn:Ea'; [|discriminate].
      injection H as <- <-. apply after_length in Ea'. lia.
Qed.

(** What the scanner reads with some fuel, it reads with any fuel past
    twice the length of the text and two (and three for the elements of an
    array, which start with a value). *)
Lemma scan_fuel (fuel : nat) :
  (forall d s res fuel', json.value fuel d s = Some res ->
     2 * String.length s + 2 <= fuel' -> json.value fuel' d s = Some res) /\
  (forall d s res fuel', json.elems fuel d s = Some res ->
     2 * String.length s + 3 <= fuel' -> json.elems fuel' d s = Some res) /\
  (forall d s res fuel', json.members fuel d s = Some res ->
     2 * String.length s + 2 <= fuel' -> json.members fuel' d s = Some res).
Proof.
  induction fuel as [|fuel (IHv & IHe & IHm)];
    [repeat split; intros; discriminate|].
  destruct (scan_length fuel) as (Lv & Le & Lm).
  repeat split; intros d s res fuel' H L; (destruct fuel' as [|fuel']; [lia|]);
    cbn [json.value json.elems json.members] in H |- *.
  - pose proof (skip_space_length s) as Ls.
    destruct (json.skip_space s) as [|c rest]; [discriminate|]. simpl in Ls.
    destruct (Ascii.eqb c "{").
    { destruct (json.maxNestingDepth <=? d)%N; [discriminate|].
      destruct (json.after "}" rest) as [rest'|] eqn:Ea; [exact H|].
      destruct (json.members fuel (d + 1) rest) as [[ms rest']|] eqn:Em; [|discriminate].
      rewrite (IHm _ _ _ fuel' Em); [exact H|lia]. }
    destruct (Ascii.eqb c "[").
    { destruct (json.maxNestingDepth <=? d)%N; [discriminate|].
      destruct (json.after "]" rest) as [rest'|] eqn:Ea; [exact H|].
      destruct (json.elems fuel (d + 1) rest) as [[vs rest']|] eqn:Ee; [|discriminate].
      rewrite (IHe _ _ _ fuel' Ee); [exact H|lia]. }
    destruct (Ascii.eqb c json.quote); [|exact H].
    destruct (json.string_body fuel rest) as [[str rest']|] eqn:Eb; [|discriminate].
    rewrite (string_body_fuel _ _ _ fuel' Eb); [exact H|lia].
  - destruct (json.value fuel d s) as [[v rest]|] eqn:Ev; [|discriminate].
    rewrite (IHv _ _ _ fuel' Ev) by lia. apply Lv in Ev.
    destruct (json.after "," rest) as [rest'|] eqn:Ea; [|exact H].
    destruct (json.elems fuel d rest') as [[vs rest'']|] eqn:Ee; [|discriminate].
    apply after_length in Ea.
    rewrite (IHe _ _ _ fuel' Ee); [exact H|lia].
  - destruct (json.after json.quote s) as [rest|] eqn:Eq; [|discriminate].
    destruct (json.string_body fuel rest) as [[key rest1]|] eqn:Eb; [|discriminate].
    apply after_length in Eq.
    rewrite (string_body_fuel _ _ _ fuel' Eb) by lia. apply string_body_length in Eb.
    destruct (json.after ":" rest1) as [rest2|] eqn:Ec; [|discriminate].
    apply after_length in Ec.
    destruct (json.value fuel d rest2) as [[v rest3]|] eqn:Ev; [|discriminate].
    rewrite (IHv _ _ _ fuel' Ev) by lia. apply Lv in Ev.
    destruct (json.after "," rest3) as [rest4|] eqn:Ea; [|exact H].
    destruct (json.members fuel d rest4) as [[ms rest5]|] eqn:Em; [|discriminate].
    apply after_length in Ea.
    rewrite (IHm _ _ _ fuel' Em); [exact H|lia].
Qed.

(** A text that the scanner reads as one value with some fuel, white space
    around it, is parsed to that value: [json.parse] fails on no text for
    want of fuel. *)
Lemma parse_has_fuel (data : string) (fuel : nat) (v : json.Value) (rest : string) :
  json.value fuel 0 data = Some (v, rest) ->
  json.skip_space rest = "" ->
  json.parse data = Some v.
Proof.
  intros H Hr. unfold json.parse.
  rewrite (proj1 (scan_fuel fuel) _ _ _ (2 * String.length data + 4) H) by lia.
  now rewrite Hr.
Qed.

(** ** callService *)

(** Whatever the client answers, [callService] hands it exactly one
    request, [callService_request], and classifies the answer. *)
Lemma callService_run (service account domainFilter : string) (truncate unverified : bool)
  (w : World) (tr : list event) :
  callService service account domainFilter truncate unverified w tr =
  (match Do w (callService_request service account domainFilter truncate unverified w) with
   | (None, _) => Panics
   | (Some r, err) =>
       if (http.StatusCode r =? 400)%Z then
         Returns (None, Some InvalidFormat)
       else if (http.StatusCode r =? 429)%Z then
         Returns (None, Some RateLimited)
       else if (http.StatusCode r =? 401)%Z then
         Returns (None, Some Unauthorized)
       else match err with
            | Some e => Returns (None, Some e)
            | None => Returns (Some r, None)
            end
   end,
   (tr ++ [Sent (callService_request service account domainFilter truncate unverified w)])%list).
Proof.
  unfold callService, callService_request; simpl.
  unfold bind, os_Getenv, client_Do, bind, emit, http.Header_Set; simpl.
  destruct (Do w _) as [[r|] err]; simpl; [|reflexivity].
  unfold http.StatusBadRequest, http.StatusTooManyRequests, http.StatusUnauthorized.
  destruct (http.StatusCode r =? 400)%Z; [reflexivity|].
  destruct (http.StatusCode r =? 429)%Z; [reflexivity|].
  destruct (http.StatusCode r =? 401)%Z; [reflexivity|].
  destruct err; reflexivity.
Qed.

(** ** The four functions, by the client's answer *)

Ltac run_call :=
  unfold returned, events, perform, returning,
    BreachedAccount, Breaches, Breach, PasteAccount;
  unfold bind; rewrite callService_run.

Ltac crunch :=
  repeat (simpl; unfold defer, ret, Body_Close, emit, deref, panic, http.StatusNotFound; simpl;
          match goal with
          | |- context [(http.StatusCode ?r =? ?k)%Z] => destruct (http.StatusCode r =? k)%Z
          | |- context [match ?e with Some _ => _ | None => _ end] => is_var e; destruct e
          | |- context [http.read_err ?b] => destruct (http.read_err b)
          | |- context [json.Unmarshal ?d ?v] => destruct (json.Unmarshal d v) as [? [?|]]
          end).

(** Every call hands the client one request, the one [request_of] names,
    whatever the client answers. *)
Lemma requests_of_call (c : call) (w : World) :
  requests (events c w) = [request_of c w].
Proof.
  destruct c; run_call; simpl;
    match goal with |- context [Do w ?r] => destruct (Do w r) as [[r0|] err] end;
    crunch; reflexivity.
Qed.
(** When the client answers with no response, the call panics: [callService]
    reads [res.StatusCode] before it looks at [err]. *)
Lemma no_response_panics (c : call) (w : World) (err : option error) :
  Do w (request_of c w) = (None, err) ->
  returned c w = Panics /\ events c w = [Sent (request_of c w)].
Proof.
  intros H. destruct c; cbn in H; run_call; rewrite H; simpl; auto.
Qed.

Lemma status_error_cases (status : Z) (e : error) :
  status_error status = Some e ->
  (status = 400%Z /\ e = InvalidFormat) \/
  (status = 429%Z /\ e = RateLimited) \/
  (status = 401%Z /\ e = Unauthorized).
Proof.
  unfold status_error.
  destruct (Z.eqb_spec status 400); [intros [= <-]; auto|].
  destruct (Z.eqb_spec status 401); [intros [= <-]; auto|].
  destruct (Z.eqb_spec status 429); [intros [= <-]; auto|].
  discriminate.
Qed.

(** A status of 400, 401 or 429 ends the call with the error of the table
    and no data, and the body is neither read nor closed. *)
Lemma status_error_run (c : call) (w : World) (res : http.Response) (err : option error)
  (e : error) :
  Do w (request_of c w) = (Some res, err) ->
  status_error (http.StatusCode res) = Some e ->
  returned c w = Returns (no_data c, Some e) /\ events c w = [Sent (request_of c w)].
Proof.
  intros H He.
  destruct (status_error_cases _ _ He) as [[Hs ->]|[[Hs ->]|[Hs ->]]];
    destruct c; cbn in H; run_call; rewrite H; simpl; rewrite Hs; simpl; auto.
Qed.

(** A status of 404 ends the call with no data and no error, and the body
    is neither read nor closed. *)
Lemma not_found_run (c : call) (w : World) (res : http.Response) :
  Do w (request_of c w) = (Some res, None) ->
  http.StatusCode res = 404%Z ->
  returned c w = Returns (no_data c, None) /\ events c w = [Sent (request_of c w)].
Proof.
  intros H H404.
  destruct c; cbn in H; run_call; rewrite H; simpl;
    repeat (rewrite H404; simpl); auto.
Qed.

(** ** Decoding a breach object *)

Lemma member_absent (k : string) (o : list (string * json.Value)) :
  existsb (String.eqb k) (map fst o) = false -> member k o = None.
Proof.
  unfold member. induction o as [|[k' v] o IH]; simpl; [reflexivity|].
  intros H. apply Bool.orb_false_iff in H as [Hk Ho].
  rewrite String.eqb_sym, Hk. now apply IH.
Qed.

Lemma member_cons (name k : string) (v : json.Value) (o : list (string * json.Value)) :
  member name ((k, v) :: o) = if String.eqb k name then Some v else member name o.
Proof. unfold member. simpl. now destruct (String.eqb k name). Qed.

Lemma store_strings (es : list json.Value) (cur : list string) :
  forallb is_string es = true ->
  json.store_elems es cur = (map (fun e => as_string "" (Some e)) es, None).
Proof.
  revert cur. induction es as [|e es IH]; intros cur H; simpl; [reflexivity|].
  simpl in H. apply Bool.andb_true_iff in H as [He Hes].
  destruct e; try discriminate. simpl. now rewrite IH.
Qed.

Lemma read_breach_nil (d : BreachModel.t) : read_breach d [] = d.
Proof. now destruct d. Qed.

Lemma store_members_cons {T : Type} (fields : list (json.field T)) (k : string)
  (j : json.Value) (rest : list (string * json.Value)) (v : T) :
  json.store_members fields ((k, j) :: rest) v =
  let (v1, err1) := match json.find_field fields k with
                    | Some f => snd f j v
                    | None => (v, None)
                    end in
  let (v2, err2) := json.store_members fields rest v1 in
  (v2, json.saveError err1 err2).
Proof. reflexivity. Qed.

Ltac split_orb H :=
  repeat match type of H with
         | (_ || _)%bool = false =>
             let H1 := fresh "Hf" in
             apply Bool.orb_false_iff in H as [H1 H]
         end.

Ltac rewrite_all_false :=
  repeat match goal with
         | E : _ = false |- _ => rewrite E; clear E
         end.

Lemma equalFold_differs (name k : string) :
  json.equalFold name k = false -> String.eqb name k = false.
Proof.
  intros H. apply String.eqb_neq. intros ->.
  unfold json.equalFold in H. now rewrite String.eqb_refl in H.
Qed.

(** A key that matches no attribute of the schema, in any letter case, has
    no field. *)
Lemma find_field_unknown (k : string) :
  existsb (fun e => json.equalFold (fst e) k) breach_schema = false ->
  json.find_field BreachModel.fields k = None.
Proof.
  intros H. cbn [existsb breach_schema fst] in H. split_orb H.
  unfold json.find_field.
  cbn [find BreachModel.fields json.struct_field fst].
  repeat match goal with
         | E : json.equalFold ?g k = false |- _ =>
             rewrite (equalFold_differs g k E)
         end.
  cbn [find BreachModel.fields json.struct_field fst].
  rewrite_all_false. reflexivity.
Qed.

(** An attribute of the schema, with a value of its type, is stored into
    the field of its name. *)
Ltac known_field v Hkv IH Ho Habs :=
  cbn -[json.ParseInt] in Hkv; destruct v; try discriminate;
  cbn -[json.store_members read_breach json.store_elems json.ParseInt];
  try (destruct (json.ParseInt _) eqn:?; [|discriminate]);
  try rewrite (store_strings _ _ Hkv);
  rewrite IH by exact Ho; cbn [json.saveError]; f_equal;
  unfold read_breach; rewrite !member_cons; cbn -[json.ParseInt];
  rewrite Habs;
  repeat match goal with E : json.ParseInt _ = _ |- _ => rewrite E end;
  reflexivity.

Lemma store_members_read (o : list (string * json.Value)) :
  forall d : BreachModel.t,
    breach_object o = true ->
    json.store_members BreachModel.fields o d = (read_breach d o, None).
Proof.
  induction o as [|[k v] o IH]; intros d H.
  - simpl. now rewrite read_breach_nil.
  - unfold breach_object in H. cbn [map fst distinct forallb] in H.
    apply Bool.andb_true_iff in H as [Hd Hm].
    apply Bool.andb_true_iff in Hd as [Hk Hd].
    apply Bool.andb_true_iff in Hm as [Hkv Hm].
    apply Bool.negb_true_iff in Hk.
    assert (Ho : breach_object o = true).
    { unfold breach_object. now rewrite Hd, Hm. }
    pose proof (member_absent _ _ Hk) as Habs.
    rewrite store_members_cons.
    destruct (string_dec k "Name") as [->|?]; [known_field v Hkv IH Ho Habs|].
    destruct (string_dec k "Title") as [->|?]; [known_field v Hkv IH Ho Habs|].
    destruct (string_dec k "Domain") as [->|?]; [known_field v Hkv IH Ho Habs|].
    destruct (string_dec k "BreachDate") as [->|?]; [known_field v Hkv IH Ho Habs|].
    destruct (string_dec k "AddedDate") as [->|?]; [known_field v Hkv IH Ho Habs|].
    destruct (string_dec k "ModifiedDate") as [->|?]; [known_field v Hkv IH Ho Habs|].
    destruct (string_dec k "PwnCount") as [->|?]; [known_field v Hkv IH Ho Habs|].
    destruct (string_dec k "Description") as [->|?]; [known_field v Hkv IH Ho Habs|].
    destruct (string_dec k "DataClasses") as [->|?]; [known_field v Hkv IH Ho Habs|].
    destruct (string_dec k "IsVerified") as [->|?]; [known_field v Hkv IH Ho Habs|].
    destruct (string_dec k "IsFabricated") as [->|?]; [known_field v Hkv IH Ho Habs|].
    destruct (string_dec k "IsSensitive") as [->|?]; [known_field v Hkv IH Ho Habs|].
    destruct (string_dec k "IsRetired") as [->|?]; [known_field v Hkv IH Ho Habs|].
    destruct (string_dec k "IsSpamList") as [->|?]; [known_field v Hkv IH Ho Habs|].
    destruct (string_dec k "LogoPath") as [->|?]; [known_field v Hkv IH Ho Habs|].
    clear Hk Habs Hd Hm.
    unfold breach_member, schema_type in Hkv.
    cbn [find breach_schema fst snd] in Hkv.
    rewrite !(proj2 (String.eqb_neq _ k)) in Hkv by congruence.
    apply Bool.negb_true_iff in Hkv.
    rewrite (find_field_unknown k Hkv).
    rewrite IH by exact Ho. cbn [json.saveError]. f_equal.
    unfold read_breach. rewrite !member_cons.
    rewrite !(proj2 (String.eqb_neq k _)) by congruence.
    reflexivity.
Qed.

Lemma passes_cases (status : Z) :
  passes status = true ->
  (status =? 400)%Z = false /\ (status =? 401)%Z = false /\
  (status =? 404)%Z = false /\ (status =? 429)%Z = false.
Proof.
  unfold passes. intros H.
  repeat match type of H with
         | (_ && _)%bool = true => apply Bool.andb_true_iff in H as [H ?]
         end.
  repeat match goal with
         | E : negb _ = true |- _ => apply Bool.negb_true_iff in E
         end.
  auto.
Qed.

Lemma status_cases (status : Z) :
  (exists e, status_error status = Some e /\ passes status = false) \/
  (status = 404%Z /\ passes status = false) \/
  passes status = true.
Proof.
  unfold status_error, passes.
  destruct (Z.eqb_spec status 400); [left; eexists; split; reflexivity|].
  destruct (Z.eqb_spec status 401); [left; eexists; split; reflexivity|].
  destruct (Z.eqb_spec status 429);
    [left; eexists; split; [reflexivity|now rewrite Bool.andb_false_r]|].
  destruct (Z.eqb_spec status 404); [right; left; split; [assumption|reflexivity]|].
  right; right; reflexivity.
Qed.

(** A response whose status passes is read and decoded; the body is closed
    when the read went through, and left open when it failed. *)
Lemma passing_run (c : call) (w : World) (res : http.Response) :
  Do w (request_of c w) = (Some res, None) ->
  passes (http.StatusCode res) = true ->
  returned c w = decode_body c (http.Body res) /\
  events c w =
    Sent (request_of c w) :: BodyRead ::
    match http.read_err (http.Body res) with
    | Some _ => []
    | None => [BodyClosed]
    end.
Proof.
  intros H Hp. destruct (passes_cases _ Hp) as (E400 & E401 & E404 & E429).
  unfold decode_body.
  destruct c; cbn in H; run_call; rewrite H; simpl;
    rewrite E400, E429, E401; simpl; unfold http.StatusNotFound; rewrite E404; simpl;
    destruct (http.read_err (http.Body res)); simpl; auto;
    unfold defer, ret, Body_Close, emit, deref, panic; simpl;
    match goal with
    | |- context [json.Unmarshal ?d ?v] => destruct (json.Unmarshal d v) as [x [e|]]
    end; simpl; auto; destruct x; simpl; auto.
Qed.

(** [callService] on a status that is none of 400, 401 and 429. *)
Lemma service_call_passes (c : call) (w : World) (res : http.Response) :
  Do w (request_of c w) = (Some res, None) ->
  passes (http.StatusCode res) = true ->
  fst (service_call c w []) = Returns (Some res, None).
Proof.
  intros H Hp. destruct (passes_cases _ Hp) as (E400 & E401 & E404 & E429).
  unfold service_call, request_of in *.
  destruct (callService_arguments c) as [[[[service account] domainFilter] truncate] unverified].
  rewrite callService_run, H. simpl. now rewrite E400, E429, E401.
Qed.

(** A body that is no JSON text: a syntax error and no data. *)
Lemma decode_body_syntax_error (c : call) (body : http.ReadCloser) :
  http.read_err body = None ->
  json.parse (http.data body) = None ->
  decode_body c body = Returns (no_data c, Some json_SyntaxError).
Proof.
  intros Hr Hp. unfold decode_body, json.Unmarshal. rewrite Hr, Hp.
  now destruct c.
Qed.

Lemma store_pointer_object {A : Type} `{json.Decoder A}
  (members : list (string * json.Value)) (x : A) :
  json.store (json.Object members) (Some x) =
  let (x', err) := json.store (json.Object members) x in (Some x', err).
Proof. reflexivity. Qed.

(** A body the decoder accepts: its value and no error. *)
Lemma decode_body_accepts (c : call) (body : http.ReadCloser) (j : json.Value) (r : result) :
  http.read_err body = None ->
  json.parse (http.data body) = Some j ->
  accepts c j = Some r ->
  decode_body c body = Returns (r, None).
Proof.
  intros Hr Hp Ha. unfold decode_body, json.Unmarshal. rewrite Hr, Hp.
  destruct c; destruct j; try discriminate; unfold accepts in Ha;
    rewrite ?store_pointer_object;
    match type of Ha with
    | context [json.store ?v ?x] => destruct (json.store v x) as [y [e'|]]
    end; try discriminate; now injection Ha as <-.
Qed.

(** An array of two well-formed breach objects is accepted as the two
    records that equal them field for field. *)
Lemma accepts_two_breaches (c : call) (o1 o2 : list (string * json.Value)) :
  breach_list_call c = true ->
  breach_object o1 = true ->
  breach_object o2 = true ->
  accepts c (json.Array [json.Object o1; json.Object o2]) =
  Some (BreachList (slice_of [record_of o1; record_of o2])).
Proof.
  intros Hc H1 H2.
  assert (E : json.store (json.Array [json.Object o1; json.Object o2])
                (slice_of [] : slice BreachModel.t) =
              (slice_of [record_of o1; record_of o2], None)).
  { cbn -[json.store_members]. now rewrite !store_members_read. }
  destruct c; try discriminate; unfold accepts; now rewrite E.
Qed.

Lemma accepts_empty_array (c : call) :
  list_call c = true -> accepts c (json.Array []) = Some (empty_list c).
Proof. now destruct c. Qed.

(** ** Byte strings and query strings *)

Lemma mem_app (c : ascii) (a b : string) : mem c (a ++ b) = (mem c a || mem c b)%bool.
Proof.
  induction a as [|x a IH]; simpl; [reflexivity|].
  now rewrite IH, Bool.orb_assoc.
Qed.

Lemma HasPrefix_mem (c : ascii) (p : string) :
  forall s, HasPrefix s p = true -> mem c p = true -> mem c s = true.
Proof.
  induction p as [|a p IH]; intros s Hp Hc; simpl in *; [discriminate|].
  destruct s as [|b s]; [discriminate|].
  apply Bool.andb_true_iff in Hp as [Hab Hp].
  apply Ascii.eqb_eq in Hab as <-. simpl.
  apply Bool.orb_true_iff in Hc as [Hc|Hc].
  - now rewrite Hc.
  - rewrite (IH s Hp Hc). apply Bool.orb_true_r.
Qed.

(** A text that lacks a byte of the pattern does not contain the pattern. *)
Lemma Contains_lacking (c : ascii) (p s : string) :
  mem c p = true -> mem c s = false -> Contains s p = false.
Proof.
  intros Hp. induction s as [|x s IH]; intros Hs.
  - simpl. destruct p; [discriminate|reflexivity].
  - simpl in Hs. apply Bool.orb_false_iff in Hs as [Hx Hs].
    cbn [Contains]. rewrite (IH Hs), Bool.orb_false_r.
    destruct (HasPrefix (String x s) p) eqn:E; [|reflexivity].
    pose proof (HasPrefix_mem c p _ E Hp) as Hm. simpl in Hm.
    now rewrite Hx, Hs in Hm.
Qed.

Lemma HasPrefix_app_sep (sep : ascii) (b p : string) :
  mem sep p = false ->
  forall a, HasPrefix (a ++ String sep b) p = HasPrefix a p.
Proof.
  induction p as [|c p IH]; intros Hp a; [now destruct a|].
  simpl in Hp. apply Bool.orb_false_iff in Hp as [Hc Hp].
  destruct a as [|x a]; simpl.
  - now rewrite Hc.
  - now rewrite (IH Hp).
Qed.

(** A pattern without the separator lies on one side of a separator. *)
Lemma Contains_app_sep (sep : ascii) (a b p : string) :
  mem sep p = false -> p <> "" ->
  Contains (a ++ String sep b) p = (Contains a p || Contains b p)%bool.
Proof.
  intros Hp Hne. induction a as [|x a IH].
  - change ("" ++ String sep b) with (String sep b). cbn [Contains].
    destruct p as [|c p]; [congruence|].
    simpl in Hp. apply Bool.orb_false_iff in Hp as [Hc _].
    simpl. now rewrite Hc.
  - change (String x a ++ String sep b) with (String x (a ++ String sep b)).
    cbn [Contains]. rewrite IH.
    change (String x (a ++ String sep b)) with (String x a ++ String sep b).
    rewrite (HasPrefix_app_sep sep b p Hp).
    now rewrite Bool.orb_assoc.
Qed.

Lemma Contains_concat (sep : ascii) (p : string) (ps : list string) :
  mem sep p = false -> p <> "" ->
  Contains (String.concat (String sep "") ps) p = existsb (fun x => Contains x p) ps.
Proof.
  intros Hp Hne. induction ps as [|x ps IH].
  - simpl. destruct p; [congruence|reflexivity].
  - destruct ps as [|y ps].
    + simpl. now rewrite Bool.orb_false_r.
    + change (String.concat (String sep "") (x :: y :: ps))
        with (x ++ String sep (String.concat (String sep "") (y :: ps))).
      rewrite Contains_app_sep by assumption. now rewrite IH.
Qed.

Lemma Split_not_nil (s : string) (sep : ascii) : Split s sep <> [].
Proof.
  destruct s as [|c s]; simpl; [discriminate|].
  destruct (Ascii.eqb c sep); [discriminate|].
  destruct (Split s sep); discriminate.
Qed.

Lemma Split_app_sep (sep : ascii) (a b : string) :
  Split (a ++ String sep b) sep = (Split a sep ++ Split b sep)%list.
Proof.
  induction a as [|x a IH]; simpl.
  - now rewrite Ascii.eqb_refl.
  - rewrite IH. destruct (Ascii.eqb x sep); [reflexivity|].
    pose proof (Split_not_nil a sep).
    destruct (Split a sep); [congruence|reflexivity].
Qed.

Lemma Split_lacking (sep : ascii) (s : string) :
  mem sep s = false -> Split s sep = [s].
Proof.
  induction s as [|x s IH]; intros H; simpl in *; [reflexivity|].
  apply Bool.orb_false_iff in H as [Hx Hs].
  now rewrite Hx, (IH Hs).
Qed.

Lemma query_keys_app (a b : string) :
  query_keys (a ++ String "&" b) = (query_keys a ++ query_keys b)%list.
Proof.
  unfold query_keys. now rewrite Split_app_sep, filter_app, map_app.
Qed.

Lemma query_keys_concat (ps : list string) :
  query_keys (String.concat "&" ps) = flat_map query_keys ps.
Proof.
  induction ps as [|x ps IH]; [reflexivity|].
  destruct ps as [|y ps].
  - simpl. now rewrite app_nil_r.
  - change (String.concat "&" (x :: y :: ps))
      with (x ++ String "&" (String.concat "&" (y :: ps))).
    now rewrite query_keys_app, IH.
Qed.

(** *** Escaped text *)

Lemma hexdigit_upperhex (n : N) : mem (url.hexdigit n) url.upperhex = true.
Proof.
  unfold url.hexdigit. generalize (N.to_nat n). intros k.
  do 16 (destruct k as [|k]; [reflexivity|]). reflexivity.
Qed.

Lemma mem_differs (c d : ascii) (s : string) :
  mem c s = false -> mem d s = true -> Ascii.eqb d c = false.
Proof.
  intros Hc Hd. apply Ascii.eqb_neq. intros ->. congruence.
Qed.

(** An escaped text holds letters, digits, the marks [-_.~], plus signs and
    percent signs only: a byte that is escaped, and is none of the plus
    sign, the percent sign and the hex digits, does not occur in it. *)
Lemma escape_lacks (c0 : ascii) (s : string) :
  url.shouldEscape c0 = true ->
  Ascii.eqb "+" c0 = false -> Ascii.eqb "%" c0 = false ->
  mem c0 url.upperhex = false ->
  mem c0 (url.escape s) = false.
Proof.
  intros Hesc Hplus Hpct Hhex. induction s as [|c s IH]; [reflexivity|].
  cbn [url.escape].
  destruct (Ascii.eqb c " ").
  - cbn [mem]. now rewrite Hplus, IH.
  - destruct (url.shouldEscape c) eqn:E.
    + cbn [mem].
      rewrite Hpct, !(mem_differs c0 _ _ Hhex (hexdigit_upperhex _)), IH. reflexivity.
    + cbn [mem]. rewrite IH, Bool.orb_false_r.
      apply Ascii.eqb_neq. intros ->. congruence.
Qed.

Lemma QueryEscape_lacks_equals (s : string) : mem "=" (url.QueryEscape s) = false.
Proof. now apply escape_lacks. Qed.

Lemma QueryEscape_lacks_ampersand (s : string) : mem "&" (url.QueryEscape s) = false.
Proof. now apply escape_lacks. Qed.

(** *** The query of a request *)

Lemma query_of_request (service account domainFilter : string) (truncate unverified : bool)
  (w : World) :
  url.RawQuery (http.URL (callService_request service account domainFilter truncate unverified w)) =
  String.concat "&" (query_pieces domainFilter truncate unverified).
Proof.
  unfold callService_request, query_pieces.
  destruct domainFilter, truncate, unverified; reflexivity.
Qed.

(** The [domain] piece holds neither of the two other parameters. *)
Lemma domain_piece_lacks_truncateResponse (domainFilter : string) :
  Contains ("domain=" ++ url.QueryEscape domainFilter) "truncateResponse=false" = false.
Proof.
  simpl. apply Contains_lacking with (c := "="%char); [reflexivity|].
  apply QueryEscape_lacks_equals.
Qed.

Lemma domain_piece_lacks_includeUnverified (domainFilter : string) :
  Contains ("domain=" ++ url.QueryEscape domainFilter) "includeUnverified=true" = false.
Proof.
  simpl. apply Contains_lacking with (c := "="%char); [reflexivity|].
  apply QueryEscape_lacks_equals.
Qed.

Lemma query_keys_domain_piece (domainFilter : string) :
  query_keys ("domain=" ++ url.QueryEscape domainFilter) = ["domain"].
Proof.
  unfold query_keys. rewrite Split_lacking.
  - reflexivity.
  - simpl. apply QueryEscape_lacks_ampersand.
Qed.

(** The query of a request contains a parameter text exactly when the
    argument asks for it, whatever the domain filter. *)
Lemma query_truncateResponse (domainFilter : string) (truncate unverified : bool) :
  Contains (String.concat "&" (query_pieces domainFilter truncate unverified))
    "truncateResponse=false" = negb truncate.
Proof.
  rewrite Contains_concat by (reflexivity || discriminate).
  unfold query_pieces.
  destruct (negb (String.eqb domainFilter "")), truncate, unverified;
    cbn [app existsb]; rewrite ?domain_piece_lacks_truncateResponse; reflexivity.
Qed.

Lemma query_includeUnverified (domainFilter : string) (truncate unverified : bool) :
  Contains (String.concat "&" (query_pieces domainFilter truncate unverified))
    "includeUnverified=true" = unverified.
Proof.
  rewrite Contains_concat by (reflexivity || discriminate).
  unfold query_pieces.
  destruct (negb (String.eqb domainFilter "")), truncate, unverified;
    cbn [app existsb]; rewrite ?domain_piece_lacks_includeUnverified; reflexivity.
Qed.

Lemma query_keys_of_pieces (domainFilter : string) (truncate unverified : bool) :
  query_keys (String.concat "&" (query_pieces domainFilter truncate unverified)) =
  ((if negb (String.eqb domainFilter "") then ["domain"] else [])
   ++ (if unverified then ["includeUnverified"] else [])
   ++ (if truncate then [] else ["truncateResponse"]))%list.
Proof.
  rewrite query_keys_concat. unfold query_pieces.
  destruct (negb (String.eqb domainFilter "")), truncate, unverified;
    cbn [app flat_map]; rewrite ?query_keys_domain_piece; reflexivity.
Qed.

(** The events of a function are those of the call that wraps it. *)
Lemma events_returning {A : Type} (tag : A -> result) (m : M (A * option error))
  (w : World) (tr : list event) :
  snd (returning tag m w tr) = snd (m w tr).
Proof.
  unfold returning, bind. now destruct (m w tr) as [[[r err]|] tr'].
Qed.

(** ** The scanner reads what the grammar writes *)

Lemma append_empty (s : string) : s ++ "" = s.
Proof. induction s as [|c s IH]; simpl; [reflexivity|]. now rewrite IH. Qed.

Lemma append_assoc (a b c : string) : (a ++ b) ++ c = a ++ b ++ c.
Proof. induction a as [|x a IH]; simpl; [reflexivity|]. now rewrite IH. Qed.

Lemma length_append (a b : string) :
  String.length (a ++ b) = String.length a + String.length b.
Proof. induction a as [|x a IH]; simpl; [reflexivity|]. now rewrite IH. Qed.

Lemma blank_isSpace (c : ascii) : json_text.blank c = json.isSpace c.
Proof.
  unfold json_text.blank, json.isSpace. cbn [mem].
  rewrite !(Ascii.eqb_sym c). now destruct (Ascii.eqb " " c), (Ascii.eqb "009" c),
    (Ascii.eqb "010" c), (Ascii.eqb "013" c).
Qed.

Lemma skip_space_blanks (w s : string) :
  json_text.blanks w = true -> json.skip_space (w ++ s) = json.skip_space s.
Proof.
  induction w as [|c w IH]; simpl; [reflexivity|]. intros H.
  apply Bool.andb_true_iff in H as [Hc Hw].
  rewrite <- blank_isSpace, Hc. now apply IH.
Qed.

Lemma skip_space_solid (c : ascii) (s : string) :
  json.isSpace c = false -> json.skip_space (String c s) = String c s.
Proof. intros H. simpl. now rewrite H. Qed.

Lemma after_blanks (c : ascii) (w rest : string) :
  json_text.blanks w = true -> json.isSpace c = false ->
  json.after c (w ++ String c rest) = Some rest.
Proof.
  intros Hw Hc. unfold json.after.
  rewrite (skip_space_blanks w _ Hw), (skip_space_solid c rest Hc).
  now rewrite Ascii.eqb_refl.
Qed.

Lemma after_other (c a : ascii) (w rest : string) :
  json_text.blanks w = true -> json.isSpace a = false -> Ascii.eqb a c = false ->
  json.after c (w ++ String a rest) = None.
Proof.
  intros Hw Ha Hc. unfold json.after.
  rewrite (skip_space_blanks w _ Hw), (skip_space_solid a rest Ha).
  now rewrite Hc.
Qed.

(** *** Numbers *)

Lemma digit_code (d : N) : (d <? 10)%N = true -> json.code (json_text.digit d) = (48 + d)%N.
Proof.
  intros H. apply N.ltb_lt in H. unfold json.code, json_text.digit.
  apply N_ascii_embedding. lia.
Qed.

Lemma digit_isDigit (d : N) : (d <? 10)%N = true -> json.isDigit (json_text.digit d) = true.
Proof.
  intros H. unfold json.isDigit. rewrite (digit_code d H). apply N.ltb_lt in H.
  apply Bool.andb_true_iff. split; apply N.leb_le; lia.
Qed.

(** What a digit is not. *)
Lemma isDigit_char (c : ascii) :
  json.isDigit c = true ->
  json.isSpace c = false /\
  Ascii.eqb c "-" = false /\ Ascii.eqb c "+" = false /\ Ascii.eqb c "." = false /\
  Ascii.eqb c "e" = false /\ Ascii.eqb c "E" = false.
Proof.
  destruct c as [[] [] [] [] [] [] [] []]; intros H; try discriminate H;
    repeat split; reflexivity.
Qed.

(** What a character that ends a value is not. *)
Lemma stop_char (c : ascii) :
  json_text.blank c || mem c ",]}" = true ->
  json.isDigit c = false /\
  Ascii.eqb c "-" = false /\ Ascii.eqb c "+" = false /\ Ascii.eqb c "." = false /\
  Ascii.eqb c "e" = false /\ Ascii.eqb c "E" = false.
Proof.
  destruct c as [[] [] [] [] [] [] [] []]; intros H; try discriminate H;
    repeat split; reflexivity.
Qed.

Lemma stops_no_digit (rest : string) :
  json_text.stops rest = true -> forall c t, rest = String c t -> json.isDigit c = false.
Proof. intros H c t ->. now apply stop_char. Qed.

Lemma digits_scan (ds : list N) (tail : string) :
  json_text.decimal ds = true ->
  (forall c t, tail = String c t -> json.isDigit c = false) ->
  json.digits (json_text.digits ds ++ tail) = (json_text.digits ds, tail).
Proof.
  intros Hd Ht. induction ds as [|d ds IH]; simpl.
  - destruct tail as [|c t]; [reflexivity|]. simpl. now rewrite (Ht c t eq_refl).
  - cbn [json_text.decimal forallb] in Hd. apply Bool.andb_true_iff in Hd as [H Hd].
    rewrite (digit_isDigit d H). now rewrite (IH Hd).
Qed.

Lemma some_digits_scan (d : N) (ds : list N) (tail : string) :
  json_text.decimal (d :: ds) = true ->
  (forall c t, tail = String c t -> json.isDigit c = false) ->
  json.some_digits (String (json_text.digit d) (json_text.digits ds ++ tail)) =
  Some (String (json_text.digit d) (json_text.digits ds), tail).
Proof.
  intros Hd Ht. unfold json.some_digits.
  change (String (json_text.digit d) (json_text.digits ds ++ tail))
    with (json_text.digits (d :: ds) ++ tail).
  now rewrite (digits_scan _ _ Hd Ht).
Qed.

Lemma exp_part_none (rest : string) :
  json_text.stops rest = true -> json.exp_part rest = Some ("", rest).
Proof.
  destruct rest as [|c r]; [reflexivity|]. intros H.
  destruct (stop_char c H) as (_ & _ & _ & _ & He & HE). simpl. now rewrite He, HE.
Qed.

Lemma exp_part_written (e : json_text.exponent) (rest : string) :
  match json_text.power e with
  | [] => false
  | _ => json_text.decimal (json_text.power e)
  end = true ->
  json_text.stops rest = true ->
  json.exp_part (json_text.write_exponent e ++ rest) = Some (json_text.write_exponent e, rest).
Proof.
  destruct e as [cap sg [|d ds]]; cbn [json_text.power]; [discriminate|].
  intros Hd Hr. pose proof (stops_no_digit rest Hr) as Hn.
  assert (Hc : json.isDigit (json_text.digit d) = true).
  { cbn [json_text.decimal forallb] in Hd. apply Bool.andb_true_iff in Hd as [H _].
    now apply digit_isDigit. }
  destruct (isDigit_char _ Hc) as (_ & Hm & Hp & _).
  unfold json_text.write_exponent. cbn [json_text.capital json_text.sign json_text.power].
  destruct cap, sg as [[]|]; cbn [append json.exp_part Ascii.eqb Bool.eqb orb andb json_text.digits];
    rewrite ?Hm, ?Hp; cbn [orb]; rewrite (some_digits_scan d ds rest Hd Hn); reflexivity.
Qed.

Lemma frac_part_none (tail : string) :
  (forall c t, tail = String c t -> Ascii.eqb c "." = false) ->
  json.frac_part tail = Some ("", tail).
Proof.
  destruct tail as [|c r]; [reflexivity|]. intros H. simpl. now rewrite (H c r eq_refl).
Qed.

Lemma frac_part_written (d : N) (ds : list N) (tail : string) :
  json_text.decimal (d :: ds) = true ->
  (forall c t, tail = String c t -> json.isDigit c = false) ->
  json.frac_part (String "." (json_text.digits (d :: ds) ++ tail)) =
  Some (String "." (json_text.digits (d :: ds)), tail).
Proof.
  intros Hd Ht. cbn [json.frac_part Ascii.eqb Bool.eqb andb json_text.digits append].
  now rewrite (some_digits_scan d ds tail Hd Ht).
Qed.

Lemma digit_zero (d : N) :
  (d <? 10)%N = true -> Ascii.eqb (json_text.digit d) "0" = (d =? 0)%N.
Proof.
  intros H. destruct (N.eqb_spec d 0) as [->|Hd]; [reflexivity|].
  apply Ascii.eqb_neq. intros E. apply (f_equal json.code) in E.
  rewrite (digit_code d H) in E. change (json.code "0") with 48%N in E. lia.
Qed.

Lemma int_part_written (ds : list N) (tail : string) :
  match ds with
  | [] => false
  | [_] => true
  | d :: _ => negb (d =? 0)%N
  end = true ->
  json_text.decimal ds = true ->
  (forall c t, tail = String c t -> json.isDigit c = false) ->
  json.int_part (json_text.digits ds ++ tail) = Some (json_text.digits ds, tail).
Proof.
  destruct ds as [|d ds]; [discriminate|]. intros Hs Hd Ht.
  assert (H : (d <? 10)%N = true).
  { cbn [json_text.decimal forallb] in Hd. now apply Bool.andb_true_iff in Hd as [H _]. }
  cbn [json_text.digits append json.int_part]. rewrite (digit_zero d H).
  destruct (N.eqb_spec d 0) as [->|Hz].
  - destruct ds as [|d' ds]; [reflexivity|discriminate].
  - now apply some_digits_scan.
Qed.

Lemma sign_part_digit (d : N) (s : string) :
  (d <? 10)%N = true ->
  json.sign_part (String (json_text.digit d) s) = ("", String (json_text.digit d) s).
Proof.
  intros H. destruct (isDigit_char _ (digit_isDigit d H)) as (_ & Hm & _).
  simpl. now rewrite Hm.
Qed.

Lemma number_written (n : json_text.numeral) (rest : string) :
  json_text.numeral_ok n = true -> json_text.stops rest = true ->
  json.number (json_text.write_numeral n ++ rest) = Some (json_text.write_numeral n, rest).
Proof.
  destruct n as [neg wh fr ex]. unfold json_text.numeral_ok, json_text.write_numeral.
  cbn [json_text.negative json_text.whole json_text.fraction json_text.exponent_part].
  intros H Hr.
  apply Bool.andb_true_iff in H as [H Hex].
  apply Bool.andb_true_iff in H as [H Hfr].
  apply Bool.andb_true_iff in H as [Hs Hwh].
  pose proof (stops_no_digit rest Hr) as Hn.
  (* the exponent *)
  set (E := match ex with None => "" | Some e => json_text.write_exponent e end).
  assert (HE : json.exp_part (E ++ rest) = Some (E, rest)).
  { subst E. destruct ex as [e|]; [now apply exp_part_written|now apply exp_part_none]. }
  assert (HEd : forall c t, E ++ rest = String c t -> json.isDigit c = false).
  { subst E. destruct ex as [[[] sg pw]|]; cbn; try exact Hn;
      intros c t [= <- _]; reflexivity. }
  assert (HEp : forall c t, E ++ rest = String c t -> Ascii.eqb c "." = false).
  { subst E. destruct ex as [[[] sg pw]|]; cbn;
      try (intros c t [= <- _]; reflexivity).
    intros c t ->. now apply (stop_char c Hr). }
  (* the fraction *)
  set (F := match fr with [] => "" | _ => String "." (json_text.digits fr) end).
  assert (HF : json.frac_part (F ++ E ++ rest) = Some (F, E ++ rest)).
  { subst F. destruct fr as [|d ds]; [now apply frac_part_none|].
    now apply frac_part_written. }
  assert (HFd : forall c t, F ++ E ++ rest = String c t -> json.isDigit c = false).
  { subst F. destruct fr as [|d ds]; [exact HEd|]. intros c t [= <- _]. reflexivity. }
  (* the integer part and the sign *)
  pose proof (int_part_written wh (F ++ E ++ rest) Hs Hwh HFd) as HI.
  rewrite !append_assoc. unfold json.number.
  destruct neg.
  - cbn [append json.sign_part Ascii.eqb Bool.eqb andb].
    rewrite HI, HF, HE. reflexivity.
  - destruct wh as [|d ds]; [discriminate|].
    assert (Hd : (d <? 10)%N = true).
    { cbn [json_text.decimal forallb] in Hwh. now apply Bool.andb_true_iff in Hwh as [Hd _]. }
    cbn [append json_text.digits]. rewrite (sign_part_digit d _ Hd).
    cbn [append json_text.digits] in HI. rewrite HI, HF, HE. reflexivity.
Qed.

(** *** Strings *)

Lemma code_byte (n : N) : (n < 256)%N -> json.code (ascii_of_N n) = n.
Proof. apply N_ascii_embedding. Qed.

Lemma eqb_byte (n : N) (c : ascii) :
  (n < 256)%N -> Ascii.eqb (ascii_of_N n) c = (n =? json.code c)%N.
Proof.
  intros H. destruct (N.eqb_spec n (json.code c)) as [->|Hn].
  - unfold json.code. rewrite ascii_N_embedding. apply Ascii.eqb_refl.
  - apply Ascii.eqb_neq. intros <-. now rewrite (code_byte n H) in Hn.
Qed.

Lemma between_byte (lo hi n : N) :
  (n < 256)%N -> json.between lo hi (ascii_of_N n) = ((lo <=? n) && (n <=? hi))%N.
Proof. intros H. unfold json.between. now rewrite (code_byte n H). Qed.

Lemma cont_byte (n : N) :
  (n < 256)%N -> json.cont (ascii_of_N n) = ((128 <=? n) && (n <=? 191))%N.
Proof. apply between_byte. Qed.

Lemma hexval_written (d : N) (up : bool) :
  (d <? 16)%N = true -> json.hexval (json_text.write_hex (d, up)) = Some d.
Proof.
  intros H. apply N.ltb_lt in H.
  assert (E : In d [0; 1; 2; 3; 4; 5; 6; 7; 8; 9; 10; 11; 12; 13; 14; 15]%N)
    by (cbn [In]; lia).
  cbn [In] in E.
  repeat (destruct E as [<-|E]; [destruct up; reflexivity|]). contradiction.
Qed.

Lemma getu4_written (q : json_text.hex4) (rest : string) :
  json_text.hex4_ok q = true ->
  json.getu4 (String "\" (String "u" (json_text.write_hex4 q ++ rest))) =
  Some (json_text.code_unit q, rest).
Proof.
  destruct q as [[[[a ua] [b ub]] [c uc]] [d ud]]. unfold json_text.hex4_ok. cbn [fst].
  intros H.
  apply Bool.andb_true_iff in H as [H Hd].
  apply Bool.andb_true_iff in H as [H Hc].
  apply Bool.andb_true_iff in H as [Ha Hb].
  cbn [json_text.write_hex4 append json.getu4 Ascii.eqb Bool.eqb andb].
  rewrite (hexval_written a ua Ha), (hexval_written b ub Hb),
    (hexval_written c uc Hc), (hexval_written d ud Hd).
  unfold json_text.code_unit. cbn [fst]. do 2 f_equal. lia.
Qed.

Lemma EncodeRune_scalar (r : N) : json_text.scalar r = true -> json.EncodeRune r = json_text.utf8 r.
Proof.
  intros H. unfold json.EncodeRune.
  replace ((55296 <=? r) && (r <=? 57343) || (1114111 <? r))%N with false; [reflexivity|].
  unfold json_text.scalar in H.
  destruct (N.ltb_spec r 55296), (N.ltb_spec 57343 r), (N.leb_spec r 1114111),
    (N.leb_spec 55296 r), (N.leb_spec r 57343), (N.ltb_spec 1114111 r);
    cbn in *; try reflexivity; try discriminate; lia.
Qed.

Ltac arith := zify; Z.to_euclidean_division_equations; lia.

(** Every comparison of the goal settled, the impossible cases left out. *)
Ltac compare_all :=
  repeat match goal with
         | |- context [(?a <=? ?b)%N] =>
             destruct (N.leb_spec a b); try (exfalso; arith)
         | |- context [(?a <? ?b)%N] =>
             destruct (N.ltb_spec a b); try (exfalso; arith)
         | |- context [(?a =? ?b)%N] =>
             destruct (N.eqb_spec a b); try (exfalso; arith)
         end.

Lemma utf8_sequence_written (r : N) (rest : string) :
  (128 <=? r)%N = true -> json_text.scalar r = true ->
  json.utf8_sequence (json_text.utf8 r ++ rest) = Some (json_text.utf8 r, rest).
Proof.
  intros Hlo Hs. apply N.leb_le in Hlo.
  assert (Hr : (r < 55296 \/ 57343 < r <= 1114111)%N).
  { unfold json_text.scalar in Hs.
    destruct (N.ltb_spec r 55296); [now left|right].
    destruct (N.ltb_spec 57343 r), (N.leb_spec r 1114111); try discriminate. lia. }
  clear Hs. unfold json_text.utf8.
  destruct (N.ltb_spec r 128); [lia|].
  destruct (N.ltb_spec r 2048); [|destruct (N.ltb_spec r 65536)];
    cbn [append json.utf8_sequence].
  - rewrite between_byte, cont_byte by arith.
    compare_all. reflexivity.
  - rewrite !between_byte, !cont_byte, !eqb_byte by arith.
    change (json.code "224") with 224%N. change (json.code "237") with 237%N.
    compare_all; reflexivity.
  - rewrite !between_byte, !cont_byte, !eqb_byte by arith.
    change (json.code "224") with 224%N. change (json.code "237") with 237%N.
    change (json.code "240") with 240%N. change (json.code "244") with 244%N.
    compare_all; reflexivity.
Qed.

(** The first byte of a character past ASCII. *)
Lemma utf8_first (r : N) :
  (128 <=? r)%N = true -> json_text.scalar r = true ->
  exists a t, json_text.utf8 r = String a t /\ (128 <= json.code a)%N.
Proof.
  intros Hlo Hs. apply N.leb_le in Hlo.
  assert (Hr : (r <= 1114111)%N).
  { unfold json_text.scalar in Hs.
    destruct (N.ltb_spec r 55296); [lia|].
    destruct (N.ltb_spec 57343 r), (N.leb_spec r 1114111); try discriminate. lia. }
  unfold json_text.utf8.
  destruct (N.ltb_spec r 128); [lia|].
  destruct (N.ltb_spec r 2048); [|destruct (N.ltb_spec r 65536)];
    eexists; eexists; (split; [reflexivity|]); rewrite code_byte; arith.
Qed.

Lemma escape_sequence_short (c : ascii) (rest : string) :
  mem c (String "034" "\/bfnrt") = true ->
  json.escape_sequence (String "\" (String c rest)) =
  Some (json_text.glyph_bytes (json_text.Short c), rest).
Proof.
  destruct c as [[] [] [] [] [] [] [] []]; intros H; try discriminate H; reflexivity.
Qed.

Lemma code_unit_bound (q : json_text.hex4) :
  json_text.hex4_ok q = true -> (json_text.code_unit q < 65536)%N.
Proof.
  destruct q as [[[[a ua] [b ub]] [c uc]] [d ud]].
  unfold json_text.hex4_ok, json_text.code_unit. cbn [fst]. intros H.
  apply Bool.andb_true_iff in H as [H Hd].
  apply Bool.andb_true_iff in H as [H Hc].
  apply Bool.andb_true_iff in H as [Ha Hb].
  apply N.ltb_lt in Ha, Hb, Hc, Hd. lia.
Qed.

Lemma escape_sequence_unicode (q : json_text.hex4) (rest : string) :
  json_text.hex4_ok q = true -> json_text.scalar (json_text.code_unit q) = true ->
  json.escape_sequence (String "\" (String "u" (json_text.write_hex4 q ++ rest))) =
  Some (json_text.utf8 (json_text.code_unit q), rest).
Proof.
  intros Hq Hs. pose proof (code_unit_bound q Hq) as Hb.
  unfold json.escape_sequence, json.quote. cbn [Ascii.eqb Bool.eqb negb andb].
  rewrite (getu4_written q rest Hq).
  replace ((55296 <=? json_text.code_unit q) && (json_text.code_unit q <? 57344))%N
    with false.
  - now rewrite (EncodeRune_scalar _ Hs).
  - unfold json_text.scalar in Hs.
    destruct (N.ltb_spec (json_text.code_unit q) 55296),
      (N.ltb_spec 57343 (json_text.code_unit q)),
      (N.leb_spec 55296 (json_text.code_unit q)),
      (N.ltb_spec (json_text.code_unit q) 57344);
      cbn in *; try reflexivity; try discriminate; lia.
Qed.

Lemma escape_sequence_surrogates (hi lo : json_text.hex4) (rest : string) :
  json_text.glyph_ok (json_text.Surrogates hi lo) = true ->
  json.escape_sequence (json_text.write_glyph (json_text.Surrogates hi lo) ++ rest) =
  Some (json_text.glyph_bytes (json_text.Surrogates hi lo), rest).
Proof.
  cbn [json_text.glyph_ok json_text.write_glyph json_text.glyph_bytes]. intros H.
  repeat match type of H with
         | (_ && _)%bool = true => let H' := fresh "H" in apply Bool.andb_true_iff in H as [H H']
         end.
  rewrite append_assoc. cbn [append].
  unfold json.escape_sequence, json.quote. cbn [Ascii.eqb Bool.eqb negb andb].
  rewrite (getu4_written hi _ H), (getu4_written lo rest H4).
  apply N.leb_le in H3. apply N.ltb_lt in H2. apply N.leb_le in H1. apply N.ltb_lt in H0.
  set (a := json_text.code_unit hi) in *. set (b := json_text.code_unit lo) in *.
  replace ((55296 <=? a) && (a <? 57344))%N with true
    by (symmetry; apply Bool.andb_true_iff; split; [apply N.leb_le|apply N.ltb_lt]; lia).
  replace ((a <? 56320) && (56320 <=? b) && (b <? 57344))%N with true
    by (symmetry; rewrite !Bool.andb_true_iff; repeat split;
        [apply N.ltb_lt|apply N.leb_le|apply N.ltb_lt]; lia).
  replace ((a - 55296) * 1024 + (b - 56320) + 65536)%N
    with (65536 + (a - 55296) * 1024 + (b - 56320))%N by lia.
  rewrite EncodeRune_scalar; [reflexivity|].
  unfold json_text.scalar. apply Bool.orb_true_iff. right.
  apply Bool.andb_true_iff. split; [apply N.ltb_lt|apply N.leb_le]; lia.
Qed.

Lemma eqb_codes (a c : ascii) : json.code a <> json.code c -> Ascii.eqb a c = false.
Proof. intros H. apply Ascii.eqb_neq. intros ->. now apply H. Qed.

(** The scanner on one glyph: the bytes it stands for, and the scan goes
    on behind it. *)
Lemma string_body_glyph (g : json_text.glyph) (tail : string) (fuel : nat) :
  json_text.glyph_ok g = true ->
  json.string_body (S fuel) (json_text.write_glyph g ++ tail) =
  match json.string_body fuel tail with
  | Some (t, rest) => Some (json_text.glyph_bytes g ++ t, rest)
  | None => None
  end.
Proof.
  destruct g as [c|r|c|q|hi lo]; intros H.
  - cbn [json_text.glyph_ok] in H.
    repeat match type of H with
           | (_ && _)%bool = true =>
               let H' := fresh "H" in apply Bool.andb_true_iff in H as [H H']
           end.
    apply Bool.negb_true_iff in H0, H1. apply N.leb_le in H. apply N.ltb_lt in H2.
    cbn [json_text.write_glyph json_text.glyph_bytes append json.string_body].
    unfold json.quote, json.code. rewrite H0, H1.
    destruct (N.ltb_spec (N_of_ascii c) 32); [lia|].
    destruct (N.ltb_spec (N_of_ascii c) 128); [reflexivity|lia].
  - cbn [json_text.glyph_ok] in H. apply Bool.andb_true_iff in H as [Hlo Hs].
    cbn [json_text.write_glyph json_text.glyph_bytes].
    pose proof (utf8_sequence_written r tail Hlo Hs) as Hu.
    destruct (utf8_first r Hlo Hs) as (a & t & E & Ha).
    rewrite E in *. cbn [append] in *. cbn [json.string_body].
    rewrite Hu.
    rewrite (eqb_codes a json.quote), (eqb_codes a "\");
      [|change (json.code "\") with 92%N; lia|change (json.code json.quote) with 34%N; lia].
    destruct (N.ltb_spec (json.code a) 32); [lia|].
    destruct (N.ltb_spec (json.code a) 128); [lia|reflexivity].
  - cbn [json_text.glyph_ok] in H.
    cbn [json_text.write_glyph append json.string_body].
    rewrite (escape_sequence_short c tail H). reflexivity.
  - cbn [json_text.glyph_ok] in H. apply Bool.andb_true_iff in H as [Hq Hs].
    cbn [json_text.write_glyph json_text.glyph_bytes append json.string_body].
    rewrite (escape_sequence_unicode q tail Hq Hs). reflexivity.
  - pose proof (escape_sequence_surrogates hi lo tail H) as He.
    cbn [json_text.write_glyph append] in *. cbn [json.string_body].
    rewrite He. reflexivity.
Qed.

Lemma write_glyph_length (g : json_text.glyph) :
  json_text.glyph_ok g = true -> 0 < String.length (json_text.write_glyph g).
Proof.
  destruct g as [c|r|c|q|hi lo]; intros H; cbn; try lia.
  cbn [json_text.glyph_ok] in H. apply Bool.andb_true_iff in H as [Hlo Hs].
  destruct (utf8_first r Hlo Hs) as (a & t & -> & _). cbn. lia.
Qed.

Lemma string_body_written (gs : list json_text.glyph) :
  forall (rest : string) (fuel : nat),
    forallb json_text.glyph_ok gs = true ->
    String.length (json_text.write_glyphs gs ++ String "034" rest) < fuel ->
    json.string_body fuel (json_text.write_glyphs gs ++ String "034" rest) =
    Some (json_text.spell gs, rest).
Proof.
  induction gs as [|g gs IH]; intros rest fuel Hok Hf.
  - destruct fuel as [|fuel]; [inversion Hf|]. reflexivity.
  - cbn [forallb] in Hok. apply Bool.andb_true_iff in Hok as [Hg Hok].
    cbn [json_text.write_glyphs json_text.spell] in *. rewrite append_assoc in *.
    rewrite length_append in Hf. pose proof (write_glyph_length g Hg).
    destruct fuel as [|fuel]; [inversion Hf|].
    rewrite (string_body_glyph g _ fuel Hg), (IH rest fuel Hok) by lia.
    reflexivity.
Qed.

(** *** Values *)

Scheme syntax_mut := Induction for json_text.syntax Sort Prop
  with elements_mut := Induction for json_text.elements Sort Prop
  with members_mut := Induction for json_text.members Sort Prop.

Combined Scheme syntax_mutind from syntax_mut, elements_mut, members_mut.

Lemma value_blanks (fuel : nat) (d : N) (w s : string) :
  json_text.blanks w = true -> json.value fuel d (w ++ s) = json.value fuel d s.
Proof.
  intros H. destruct fuel as [|fuel]; [reflexivity|].
  cbn [json.value]. now rewrite (skip_space_blanks w s H).
Qed.

Lemma value_array (fuel : nat) (d : N) (s : string) :
  (d < 10000)%N ->
  json.value (S fuel) d (String "[" s) =
  match json.after "]" s with
  | Some rest => Some (json.Array [], rest)
  | None =>
      match json.elems fuel (d + 1) s with
      | Some (vs, rest) => Some (json.Array vs, rest)
      | None => None
      end
  end.
Proof.
  intros H. cbn [json.value json.skip_space json.isSpace Ascii.eqb Bool.eqb orb andb].
  unfold json.maxNestingDepth. destruct (N.leb_spec 10000 d); [lia|reflexivity].
Qed.

Lemma value_object (fuel : nat) (d : N) (s : string) :
  (d < 10000)%N ->
  json.value (S fuel) d (String "{" s) =
  match json.after "}" s with
  | Some rest => Some (json.Object [], rest)
  | None =>
      match json.members fuel (d + 1) s with
      | Some (ms, rest) => Some (json.Object ms, rest)
      | None => None
      end
  end.
Proof.
  intros H. cbn [json.value json.skip_space json.isSpace Ascii.eqb Bool.eqb orb andb].
  unfold json.maxNestingDepth. destruct (N.leb_spec 10000 d); [lia|reflexivity].
Qed.

Lemma value_string (fuel : nat) (d : N) (s : string) :
  json.value (S fuel) d (String "034" s) =
  match json.string_body fuel s with
  | Some (str, rest) => Some (json.Str str, rest)
  | None => None
  end.
Proof. reflexivity. Qed.

Lemma value_number (fuel : nat) (d : N) (c : ascii) (s : string) :
  json.isDigit c || Ascii.eqb c "-" = true ->
  json.value (S fuel) d (String c s) =
  match json.number (String c s) with
  | Some (lit, rest) => Some (json.Number lit, rest)
  | None => None
  end.
Proof.
  destruct c as [[] [] [] [] [] [] [] []]; intros H; try discriminate H; reflexivity.
Qed.

Lemma numeral_start (n : json_text.numeral) (rest : string) :
  json_text.numeral_ok n = true ->
  exists c r, json_text.write_numeral n ++ rest = String c r /\
              json.isDigit c || Ascii.eqb c "-" = true.
Proof.
  destruct n as [[] [|d ds] fr ex]; unfold json_text.numeral_ok, json_text.write_numeral;
    cbn [json_text.negative json_text.whole json_text.fraction json_text.exponent_part andb];
    intros H; try discriminate H.
  - eexists; eexists. split; [reflexivity|reflexivity].
  - apply Bool.andb_true_iff in H as [H _]. apply Bool.andb_true_iff in H as [H _].
    apply Bool.andb_true_iff in H as [_ H].
    cbn [json_text.decimal forallb] in H. apply Bool.andb_true_iff in H as [H _].
    eexists; eexists. split; [reflexivity|]. now rewrite (digit_isDigit d H).
Qed.

(** The first character of a value is no white space and no bracket that
    closes. *)
Lemma value_start (v : json_text.syntax) (rest : string) :
  json_text.grammatical v = true ->
  exists a t, json_text.write v ++ rest = String a t /\
              json.isSpace a = false /\ Ascii.eqb a "]" = false.
Proof.
  destruct v as [|[]|n|gs|w|es|w|ms]; intros H;
    try (eexists; eexists; split; [reflexivity|split; reflexivity]).
  cbn [json_text.grammatical json_text.write] in *.
  destruct (numeral_start n rest H) as (c & r & -> & Hc).
  exists c, r. split; [reflexivity|].
  destruct c as [[] [] [] [] [] [] [] []]; try discriminate Hc; split; reflexivity.
Qed.

Lemma stops_blanks (w : string) (c : ascii) (rest : string) :
  json_text.blanks w = true -> mem c ",]}" = true ->
  json_text.stops (w ++ String c rest) = true.
Proof.
  intros Hw Hc. destruct w as [|a w]; cbn [append json_text.stops].
  - rewrite Hc. apply Bool.orb_true_r.
  - cbn [json_text.blanks] in Hw. apply Bool.andb_true_iff in Hw as [-> _]. reflexivity.
Qed.

Ltac split_andb H :=
  repeat match type of H with
         | (_ && _)%bool = true =>
             let H' := fresh "H" in apply Bool.andb_true_iff in H as [H H']
         end.

Ltac lengths :=
  repeat match goal with
         | H : _ <= _ |- _ =>
             first [rewrite length_append in H | progress cbn [String.length] in H]
         end;
  repeat first [rewrite length_append | progress cbn [String.length]];
  lia.

Lemma scan_written :
  (forall v : json_text.syntax,
      json_text.grammatical v = true ->
      forall (d : N) (rest : string) (fuel : nat),
        (d + json_text.height v <= 10000)%N ->
        json_text.stops rest = true ->
        2 * String.length (json_text.write v ++ rest) + 2 <= fuel ->
        json.value fuel d (json_text.write v ++ rest) = Some (json_text.denote v, rest)) /\
  (forall es : json_text.elements,
      json_text.grammatical_elements es = true ->
      forall (d : N) (rest : string) (fuel : nat),
        (d + json_text.height_elements es <= 10000)%N ->
        2 * String.length (json_text.write_elements es ++ String "]" rest) + 3 <= fuel ->
        json.elems fuel d (json_text.write_elements es ++ String "]" rest) =
        Some (json_text.denote_elements es, rest)) /\
  (forall ms : json_text.members,
      json_text.grammatical_members ms = true ->
      forall (d : N) (rest : string) (fuel : nat),
        (d + json_text.height_members ms <= 10000)%N ->
        2 * String.length (json_text.write_members ms ++ String "}" rest) + 2 <= fuel ->
        json.members fuel d (json_text.write_members ms ++ String "}" rest) =
        Some (json_text.denote_members ms, rest)).
Proof.
  apply syntax_mutind.
  - (* null *)
    intros _ d rest [|fuel] _ _ Hf; [lia|]. reflexivity.
  - (* true, false *)
    intros [] _ d rest [|fuel] _ _ Hf; try lia; reflexivity.
  - (* a number *)
    intros n Hn d rest [|fuel] _ Hr Hf; [lia|].
    cbn [json_text.grammatical json_text.write json_text.denote] in *.
    pose proof (number_written n rest Hn Hr) as E.
    destruct (numeral_start n rest Hn) as (c & r & Es & Hc).
    rewrite Es in *. now rewrite (value_number fuel d c r Hc), E.
  - (* a string *)
    intros gs Hg d rest [|fuel] _ _ Hf; [lia|].
    cbn [json_text.grammatical json_text.write json_text.denote] in *.
    unfold json_text.write_string in *. cbn [append] in *.
    rewrite append_assoc in *. cbn [append] in *.
    rewrite value_string, (string_body_written gs rest fuel Hg); [reflexivity|].
    cbn [String.length] in Hf. lia.
  - (* an empty array *)
    intros w Hw d rest [|fuel] Hd _ Hf; [lia|].
    cbn [json_text.grammatical json_text.write json_text.denote json_text.height] in *.
    cbn [append]. rewrite append_assoc. cbn [append].
    rewrite value_array by lia. now rewrite (after_blanks "]" w rest Hw eq_refl).
  - (* an array *)
    intros es IH He d rest [|fuel] Hd _ Hf; [lia|].
    cbn [json_text.grammatical json_text.write json_text.denote json_text.height] in *.
    cbn [append] in *. rewrite append_assoc in *. cbn [append] in *.
    rewrite value_array by lia.
    assert (Hn : json.after "]" (json_text.write_elements es ++ String "]" rest) = None).
    { destruct es as [w1 v w2|w1 v w2 es'];
        cbn [json_text.write_elements json_text.grammatical_elements] in *;
        split_andb He; rewrite !append_assoc;
        match goal with
        | |- json.after _ (_ ++ json_text.write v ++ ?tail) = None =>
            destruct (value_start v tail) as (a & t & Ea & Hs & Hb); [assumption|]
        end;
        rewrite Ea; now apply after_other. }
    rewrite Hn, (IH He (d + 1)%N rest fuel); [reflexivity|lia|].
    cbn [String.length] in Hf. lia.
  - (* an empty object *)
    intros w Hw d rest [|fuel] Hd _ Hf; [lia|].
    cbn [json_text.grammatical json_text.write json_text.denote json_text.height] in *.
    cbn [append]. rewrite append_assoc. cbn [append].
    rewrite value_object by lia. now rewrite (after_blanks "}" w rest Hw eq_refl).
  - (* an object *)
    intros ms IH Hm d rest [|fuel] Hd _ Hf; [lia|].
    cbn [json_text.grammatical json_text.write json_text.denote json_text.height] in *.
    cbn [append] in *. rewrite append_assoc in *. cbn [append] in *.
    rewrite value_object by lia.
    assert (Hn : json.after "}" (json_text.write_members ms ++ String "}" rest) = None).
    { destruct ms as [w1 key w2 w3 v w4|w1 key w2 w3 v w4 ms'];
        cbn [json_text.write_members json_text.grammatical_members] in *;
        split_andb Hm; unfold json_text.write_string; rewrite !append_assoc; cbn [append];
        now apply after_other. }
    rewrite Hn, (IH Hm (d + 1)%N rest fuel); [reflexivity|lia|].
    cbn [String.length] in Hf. lia.
  - (* the last element *)
    intros w1 v IH w2 He d rest [|fuel] Hd Hf; [lia|].
    cbn [json_text.grammatical_elements json_text.write_elements json_text.denote_elements
         json_text.height_elements] in *.
    split_andb He. rewrite !append_assoc in *.
    cbn [json.elems]. rewrite (value_blanks fuel d w1 _ He).
    rewrite (IH H0 d (w2 ++ String "]" rest) fuel Hd);
      [|now apply stops_blanks|lengths].
    rewrite (after_other "," "]" w2 rest H eq_refl eq_refl).
    now rewrite (after_blanks "]" w2 rest H eq_refl).
  - (* an element and more *)
    intros w1 v IHv w2 es IHes He d rest [|fuel] Hd Hf; [lia|].
    cbn [json_text.grammatical_elements json_text.write_elements json_text.denote_elements
         json_text.height_elements] in *.
    split_andb He. rewrite !append_assoc in *. cbn [append] in *.
    cbn [json.elems]. rewrite (value_blanks fuel d w1 _ He).
    rewrite (IHv H1 d (w2 ++ String "," (json_text.write_elements es ++ String "]" rest)) fuel);
      [|lia|now apply stops_blanks|lengths].
    rewrite (after_blanks "," w2 _ H0 eq_refl).
    rewrite (IHes H d rest fuel); [reflexivity|lia|lengths].
  - (* the last member *)
    intros w1 key w2 w3 v IH w4 Hm d rest [|fuel] Hd Hf; [lia|].
    cbn [json_text.grammatical_members json_text.write_members json_text.denote_members
         json_text.height_members] in *.
    split_andb Hm. unfold json_text.write_string in *.
    rewrite !append_assoc in *. cbn [append] in *. rewrite !append_assoc in *. cbn [append] in *.
    cbn [json.members]. unfold json.quote.
    rewrite (after_blanks "034" w1 _ Hm eq_refl).
    rewrite (string_body_written key _ fuel H3) by lengths.
    rewrite (after_blanks ":" w2 _ H2 eq_refl).
    rewrite (value_blanks fuel d w3 _ H1).
    rewrite (IH H0 d (w4 ++ String "}" rest) fuel Hd);
      [|now apply stops_blanks|lengths].
    rewrite (after_other "," "}" w4 rest H eq_refl eq_refl).
    now rewrite (after_blanks "}" w4 rest H eq_refl).
  - (* a member and more *)
    intros w1 key w2 w3 v IHv w4 ms IHms Hm d rest [|fuel] Hd Hf; [lia|].
    cbn [json_text.grammatical_members json_text.write_members json_text.denote_members
         json_text.height_members] in *.
    split_andb Hm. unfold json_text.write_string in *.
    rewrite !append_assoc in *. cbn [append] in *. rewrite !append_assoc in *. cbn [append] in *.
    cbn [json.members]. unfold json.quote.
    rewrite (after_blanks "034" w1 _ Hm eq_refl).
    rewrite (string_body_written key _ fuel H4) by lengths.
    rewrite (after_blanks ":" w2 _ H3 eq_refl).
    rewrite (value_blanks fuel d w3 _ H2).
    rewrite (IHv H1 d (w4 ++ String "," (json_text.write_members ms ++ String "}" rest)) fuel);
      [|lia|now apply stops_blanks|lengths].
    rewrite (after_blanks "," w4 _ H0 eq_refl).
    rewrite (IHms H d rest fuel); [reflexivity|lia|lengths].
Qed.

(** *** Documents *)

Lemma skip_space_all (w : string) : json_text.blanks w = true -> json.skip_space w = "".
Proof.
  intros H. rewrite <- (append_empty w). now rewrite (skip_space_blanks w "" H).
Qed.

Lemma stops_of_blanks (w : string) : json_text.blanks w = true -> json_text.stops w = true.
Proof.
  destruct w as [|c w]; [reflexivity|]. cbn [json_text.blanks json_text.stops].
  intros H. apply Bool.andb_true_iff in H as [-> _]. reflexivity.
Qed.

(** The scanner reads a well-formed document as the value it stands for. *)
Lemma parse_written (t : json_text.document) :
  json_text.well_formed t = true ->
  json.parse (json_text.write_document t) = Some (json_text.denote (json_text.root t)).
Proof.
  destruct t as [w1 v w2]. unfold json_text.well_formed, json_text.write_document.
  cbn [json_text.leading json_text.root json_text.trailing]. intros H.
  split_andb H. apply N.leb_le in H0.
  unfold json.parse. rewrite (value_blanks _ 0 w1 _ H).
  rewrite (proj1 scan_written v H2 0%N w2); [|lia|now apply stops_of_blanks|lengths].
  now rewrite (skip_space_all w2 H1).
Qed.

(** *** Integers *)

Lemma digits_value_written (ds : list N) :
  forall acc : Z,
    json_text.decimal ds = true ->
    json.digits_value acc (json_text.digits ds) =
    Some (fold_left (fun a d => (10 * a + Z.of_N d)%Z) ds acc).
Proof.
  induction ds as [|d ds IH]; intros acc H; [reflexivity|].
  cbn [json_text.decimal forallb] in H. apply Bool.andb_true_iff in H as [Hd H].
  cbn [json_text.digits json.digits_value fold_left].
  rewrite (digit_isDigit d Hd), (digit_code d Hd).
  replace (48 + d - 48)%N with d by lia. now apply IH.
Qed.

Lemma digits_value_stops (ds : list N) (c : ascii) (rest : string) :
  forall acc : Z,
    json_text.decimal ds = true -> json.isDigit c = false ->
    json.digits_value acc (json_text.digits ds ++ String c rest) = None.
Proof.
  induction ds as [|d ds IH]; intros acc H Hc.
  - cbn. now rewrite Hc.
  - cbn [json_text.decimal forallb] in H. apply Bool.andb_true_iff in H as [Hd H].
    cbn [json_text.digits append json.digits_value].
    rewrite (digit_isDigit d Hd). now apply IH.
Qed.

Lemma natural_nonneg (ds : list N) : (0 <= json_text.natural ds)%Z.
Proof.
  unfold json_text.natural.
  assert (G : forall acc, (0 <= acc)%Z ->
                (0 <= fold_left (fun a d => (10 * a + Z.of_N d)%Z) ds acc)%Z).
  { induction ds as [|d ds IH]; intros acc H; [exact H|]. cbn [fold_left]. apply IH. lia. }
  apply G. lia.
Qed.

(** [strconv.ParseInt] on a numeral: the integer it stands for, when it is
    written as an integer and fits 64 bits. *)
Lemma ParseInt_written (n : json_text.numeral) :
  json_text.numeral_ok n = true ->
  json.ParseInt (json_text.write_numeral n) =
  match json_text.integer n with
  | Some z => if json_text.int64 z then Some z else None
  | None => None
  end.
Proof.
  destruct n as [neg wh fr ex]. unfold json_text.numeral_ok, json_text.write_numeral,
    json_text.integer.
  cbn [json_text.negative json_text.whole json_text.fraction json_text.exponent_part].
  intros H. split_andb H.
  destruct wh as [|d ds]; [discriminate|]. clear H.
  assert (Hd : (d <? 10)%N = true).
  { cbn [json_text.decimal forallb] in H2. now apply Bool.andb_true_iff in H2 as [Hd _]. }
  destruct (isDigit_char _ (digit_isDigit d Hd)) as (_ & Hm & Hp & _).
  pose proof (natural_nonneg (d :: ds)) as Hn.
  set (tail := match fr with [] => "" | _ => String "." (json_text.digits fr) end
               ++ match ex with None => "" | Some e => json_text.write_exponent e end).
  assert (Ht : match fr, ex with
               | [], None => tail = ""
               | _, _ => exists c t, tail = String c t /\ json.isDigit c = false
               end).
  { subst tail. destruct fr as [|f fr]; [destruct ex as [[[] sg pw]|]|];
      try reflexivity; eexists; eexists; (split; [reflexivity|reflexivity]). }
  assert (E : json.digits_value 0 (json_text.digits (d :: ds) ++ tail) =
              match fr, ex with
              | [], None => Some (json_text.natural (d :: ds))
              | _, _ => None
              end).
  { destruct fr as [|f fr]; [destruct ex as [e|]|].
    - destruct Ht as (c & t & -> & Hc). now apply digits_value_stops.
    - rewrite Ht, append_empty. now apply digits_value_written.
    - destruct Ht as (c & t & -> & Hc). now apply digits_value_stops. }
  clearbody tail. unfold json.ParseInt.
  destruct neg; cbn [append json_text.digits Ascii.eqb Bool.eqb andb] in *.
  - rewrite E. destruct fr as [|f fr]; [destruct ex as [e|]|]; try reflexivity.
    unfold json_text.int64.
    destruct (Z.leb_spec (json_text.natural (d :: ds)) 9223372036854775808),
      (Z.leb_spec (-9223372036854775808) (- json_text.natural (d :: ds))),
      (Z.leb_spec (- json_text.natural (d :: ds)) 9223372036854775807);
      cbn [andb]; try reflexivity; lia.
  - rewrite Hm, Hp, E. destruct fr as [|f fr]; [destruct ex as [e|]|]; try reflexivity.
    unfold json_text.int64.
    destruct (Z.leb_spec (json_text.natural (d :: ds)) 9223372036854775807),
      (Z.leb_spec (-9223372036854775808) (json_text.natural (d :: ds)));
      cbn [andb]; try reflexivity; lia.
Qed.

(** *** What the decoder stores and what the text says *)

Lemma denote_items (es : json_text.elements) :
  json_text.denote_elements es = map json_text.denote (json_text.items es).
Proof. induction es as [w1 v w2|w1 v w2 es IH]; cbn; [reflexivity|]. now rewrite IH. Qed.

Lemma denote_entries (ms : json_text.members) :
  json_text.denote_members ms = map denoted (json_text.entries ms).
Proof.
  induction ms as [w1 k w2 w3 v w4|w1 k w2 w3 v w4 ms IH]; cbn; [reflexivity|].
  now rewrite IH.
Qed.

Lemma denote_object (v : json_text.syntax) :
  is_object v = true -> json_text.denote v = json.Object (map denoted (entries_of v)).
Proof.
  destruct v; try discriminate; intros _; cbn; [reflexivity|]. now rewrite denote_entries.
Qed.

Lemma member_denoted (name : string) (v : json_text.syntax) :
  member name (map denoted (entries_of v)) = option_map json_text.denote (attribute name v).
Proof.
  unfold member, attribute. induction (entries_of v) as [|[k x] l IH]; [reflexivity|].
  cbn [map find denoted fst snd]. destruct (String.eqb k name); [reflexivity|exact IH].
Qed.

Lemma grammatical_entries (ms : json_text.members) :
  json_text.grammatical_members ms = true ->
  forallb (fun kv => json_text.grammatical (snd kv)) (json_text.entries ms) = true.
Proof.
  induction ms as [w1 k w2 w3 v w4|w1 k w2 w3 v w4 ms IH];
    cbn [json_text.grammatical_members json_text.entries forallb snd]; intros H; split_andb H.
  - now rewrite H1.
  - now rewrite H2, (IH H0).
Qed.

Lemma grammatical_items (es : json_text.elements) :
  json_text.grammatical_elements es = true ->
  forallb json_text.grammatical (json_text.items es) = true.
Proof.
  induction es as [w1 v w2|w1 v w2 es IH];
    cbn [json_text.grammatical_elements json_text.items forallb]; intros H; split_andb H.
  - now rewrite H1.
  - now rewrite H2, (IH H0).
Qed.

Lemma grammatical_entries_of (v : json_text.syntax) :
  json_text.grammatical v = true ->
  forallb (fun kv => json_text.grammatical (snd kv)) (entries_of v) = true.
Proof. destruct v; try reflexivity. apply grammatical_entries. Qed.

Lemma grammatical_attribute (name : string) (v x : json_text.syntax) :
  json_text.grammatical v = true -> attribute name v = Some x ->
  json_text.grammatical x = true.
Proof.
  intros Hv. unfold attribute.
  destruct (find _ (entries_of v)) as [kv|] eqn:E; [|discriminate]. intros [= <-].
  apply find_some in E as [Hin _].
  exact (proj1 (forallb_forall _ _) (grammatical_entries_of v Hv) kv Hin).
Qed.

Lemma as_string_denote (d : string) (x : option json_text.syntax) :
  as_string d (option_map json_text.denote x) = string_in d x.
Proof. destruct x as [[]|]; reflexivity. Qed.

Lemma as_bool_denote (d : bool) (x : option json_text.syntax) :
  as_bool d (option_map json_text.denote x) = bool_in d x.
Proof. destruct x as [[]|]; reflexivity. Qed.

Lemma as_int_denote (d : Z) (x : option json_text.syntax) :
  (forall y, x = Some y -> json_text.grammatical y = true) ->
  as_int d (option_map json_text.denote x) = integer_in d x.
Proof.
  destruct x as [[]|]; try reflexivity. intros H.
  cbn [option_map json_text.denote as_int integer_in].
  rewrite (ParseInt_written n (H _ eq_refl)).
  destruct (json_text.integer n) as [z|]; [|reflexivity].
  now destruct (json_text.int64 z).
Qed.

Lemma as_strings_denote (d : slice string) (x : option json_text.syntax) :
  as_strings d (option_map json_text.denote x) = strings_in d x.
Proof.
  destruct x as [[]|]; try reflexivity.
  cbn [option_map json_text.denote as_strings strings_in items_of].
  rewrite denote_items, map_map. f_equal. apply map_ext. intros e.
  exact (as_string_denote "" (Some e)).
Qed.

(** The record the decoder makes of an object's members is the breach the
    text describes. *)
Lemma record_of_denoted (v : json_text.syntax) :
  json_text.grammatical v = true ->
  record_of (map denoted (entries_of v)) = breach_in v.
Proof.
  intros Hv. unfold record_of, read_breach, breach_in.
  rewrite !member_denoted, !as_string_denote, !as_bool_denote, as_strings_denote.
  rewrite as_int_denote; [reflexivity|].
  intros y Hy. exact (grammatical_attribute _ v y Hv Hy).
Qed.

Lemma paste_of_denoted (v : json_text.syntax) :
  json_text.grammatical v = true ->
  paste_of (map denoted (entries_of v)) = paste_in v.
Proof.
  intros Hv. unfold paste_of, read_paste, paste_in.
  rewrite !member_denoted, !as_string_denote.
  rewrite as_int_denote; [reflexivity|].
  intros y Hy. exact (grammatical_attribute _ v y Hv Hy).
Qed.

Lemma is_string_denote (e : json_text.syntax) :
  is_string (json_text.denote e) = is_text e.
Proof. now destruct e. Qed.

Lemma has_type_denote (ty : json_type) (x : json_text.syntax) :
  json_text.grammatical x = true -> has_type ty (json_text.denote x) = written_as ty x.
Proof.
  intros Hx. destruct ty, x; try reflexivity.
  - cbn [json_text.denote has_type written_as json_text.grammatical] in *.
    rewrite (ParseInt_written n Hx).
    destruct (json_text.integer n) as [z|]; [|reflexivity].
    now destruct (json_text.int64 z).
  - cbn [json_text.denote has_type written_as]. rewrite denote_items.
    induction (json_text.items es) as [|e l IH]; [reflexivity|].
    cbn [map forallb]. now rewrite is_string_denote, IH.
Qed.

Lemma map_fst_denoted (l : list (string * json_text.syntax)) :
  map fst (map denoted l) = map fst l.
Proof. induction l as [|kv l IH]; [reflexivity|]. cbn. now rewrite IH. Qed.

Lemma breach_object_denoted (v : json_text.syntax) :
  json_text.grammatical v = true -> breach_text v = true ->
  breach_object (map denoted (entries_of v)) = true.
Proof.
  intros Hv H. unfold breach_text in H. split_andb H.
  unfold breach_object. rewrite map_fst_denoted, H1. cbn [andb]. clear H1.
  pose proof (grammatical_entries_of v Hv) as Hg.
  induction (entries_of v) as [|[k x] l IH]; [reflexivity|].
  cbn [map forallb snd] in *.
  apply Bool.andb_true_iff in H0 as [Hk Hl]. apply Bool.andb_true_iff in Hg as [Hx Hg].
  rewrite (IH Hl Hg), Bool.andb_true_r.
  unfold breach_member, breach_attribute, denoted in *. cbn [fst snd] in *.
  destruct (schema_type k); [|exact Hk]. now rewrite (has_type_denote _ x Hx).
Qed.

Lemma paste_object_denoted (v : json_text.syntax) :
  json_text.grammatical v = true -> paste_text v = true ->
  paste_object (map denoted (entries_of v)) = true.
Proof.
  intros Hv H. unfold paste_text in H. split_andb H.
  unfold paste_object. rewrite map_fst_denoted, H1. cbn [andb]. clear H1.
  pose proof (grammatical_entries_of v Hv) as Hg.
  induction (entries_of v) as [|[k x] l IH]; [reflexivity|].
  cbn [map forallb snd] in *.
  apply Bool.andb_true_iff in H0 as [Hk Hl]. apply Bool.andb_true_iff in Hg as [Hx Hg].
  rewrite (IH Hl Hg), Bool.andb_true_r.
  unfold paste_member, paste_attribute, denoted in *. cbn [fst snd] in *.
  destruct (paste_schema_type k); [|exact Hk]. now rewrite (has_type_denote _ x Hx).
Qed.

(** An array of objects, as the decoder has it. *)
Lemma denote_objects (vs : list json_text.syntax) :
  forallb is_object vs = true ->
  map json_text.denote vs = map json.Object (map (fun v => map denoted (entries_of v)) vs).
Proof.
  induction vs as [|v vs IH]; [reflexivity|]. cbn [forallb map]. intros H.
  apply Bool.andb_true_iff in H as [Hv H]. now rewrite (denote_object v Hv), (IH H).
Qed.

Lemma denote_array (v : json_text.syntax) (vs : list json_text.syntax) :
  items_of v = Some vs -> json_text.denote v = json.Array (map json_text.denote vs).
Proof.
  destruct v; try discriminate; intros [= <-]; cbn; [reflexivity|].
  now rewrite denote_items.
Qed.

Lemma grammatical_items_of (v : json_text.syntax) (vs : list json_text.syntax) :
  json_text.grammatical v = true -> items_of v = Some vs ->
  forallb json_text.grammatical vs = true.
Proof.
  destruct v; try discriminate; intros H [= <-]; [reflexivity|].
  now apply grammatical_items.
Qed.

(** ** Beside the properties *)

(** [BreachedAccount] does pass its domain filter on: a filter that is not
    empty is in the query as the [domain] parameter, escaped, and an empty
    filter leaves no [domain] parameter. *)
Lemma BreachedAccount_sends_domain (account domainFilter : string) (truncate unverified : bool)
  (w : World) :
  let q := url.RawQuery (http.URL (request_of
             (CallBreachedAccount account domainFilter truncate unverified) w)) in
  has_param q "domain" = negb (String.eqb domainFilter "") /\
  (domainFilter <> "" -> HasPrefix q ("domain=" ++ url.QueryEscape domainFilter) = true).
Proof.
  cbv zeta. unfold request_of. cbn [callService_arguments]. rewrite query_of_request.
  split.
  - unfold has_param. rewrite query_keys_of_pieces.
    destruct (negb (String.eqb domainFilter "")), truncate, unverified; reflexivity.
  - intros Hne. unfold query_pieces.
    destruct (String.eqb_spec domainFilter ""); [congruence|].
    cbn [negb app].
    assert (P : forall a b, HasPrefix (a ++ b) a = true).
    { induction a as [|x a IH]; intros b; simpl; [reflexivity|].
      now rewrite Ascii.eqb_refl, IH. }
    assert (Q : forall a, HasPrefix a a = true).
    { induction a as [|x a IH]; simpl; [reflexivity|].
      now rewrite Ascii.eqb_refl, IH. }
    destruct unverified, truncate; cbn [app String.concat]; apply P || apply Q.
Qed.

(** [Breach] keeps what it decoded when an attribute has the wrong type:
    the record comes back with the fields stored so far, beside the error. *)
Example Breach_mistyped_attribute :
  let body := "{" ++ quoted "Name" ++ ":" ++ quoted "Adobe" ++ ","
                  ++ quoted "PwnCount" ++ ":" ++ quoted "many" ++ "}" in
  returned (CallBreach "Adobe") (answering (Some (response 200 body), None)) =
  Returns (OneBreach (BreachModel.set_Name "Adobe" BreachModel.empty),
           Some (json_UnmarshalTypeError "string")).
Proof. vm_compute. reflexivity. Qed.

(** [Breach] on a body that is the JSON [null]: the decoder sets the
    pointer to nil and reports no error, and [*breach] panics. *)
Example Breach_null_body :
  returned (CallBreach "Adobe") (answering (Some (response 200 "null"), None)) = Panics.
Proof. vm_compute. reflexivity. Qed.

(** A body whose read fails: the call returns the read error and the body
    stays open. *)
Example read_failure :
  let res := http.mkResponse 200 (http.mkBody "[" (Some (read_Error "unexpected EOF"))) in
  let w := answering (Some res, None) in
  returned (CallBreaches "") w = Returns (BreachList slice_nil, Some (read_Error "unexpected EOF")) /\
  events (CallBreaches "") w = [Sent (request_of (CallBreaches "") w); BodyRead].
Proof. split; vm_compute; reflexivity. Qed.

(** ** The properties of the specification *)

(** C1 (the code departs from it): [Breaches] takes a domain filter, and
    the claim has the query string carry [domain=<filter>] when the filter is
    not empty.  [Breaches] passes an empty filter to [callService] whatever
    its argument: the one request it sends has the query
    [truncateResponse=false], with no [domain] parameter and without the
    text [domain=<filter>], for every filter. *)
Theorem Breaches_sends_no_domain (domainFilter : string) (w : World) :
  exists req : http.Request,
    requests (snd (Breaches domainFilter w [])) = [req] /\
    url.RawQuery (http.URL req) = "truncateResponse=false" /\
    has_param (url.RawQuery (http.URL req)) "domain" = false /\
    Contains (url.RawQuery (http.URL req)) ("domain=" ++ url.QueryEscape domainFilter) = false.
Proof.
  exists (request_of (CallBreaches domainFilter) w). split.
  - rewrite <- (requests_of_call (CallBreaches domainFilter) w).
    unfold events, perform. now rewrite events_returning.
  - cbn. repeat split.
Qed.

(** C2 (the code departs from it): on a transport failure the client
    returns no response and an error, and the claim has the call return that
    error.  [callService] reads [res.StatusCode] before it tests [err], so
    the call panics on the nil response instead, in each of the four
    functions. *)
Theorem transport_failure_panics (c : call) (w : World) (cause : error) :
  Do w (request_of c w) = (None, Some cause) ->
  returned c w = Panics.
Proof. intros H. exact (proj1 (no_response_panics c w _ H)). Qed.

Lemma transport_failure_panics_witness :
  let w := answering (None, Some (url_Error "dial tcp: lookup haveibeenpwned.com: no such host")) in
  let c := CallBreachedAccount "test@example.com" "" false false in
  Do w (request_of c w) =
    (None, Some (url_Error "dial tcp: lookup haveibeenpwned.com: no such host")) /\
  returned c w = Panics.
Proof.
  split; [reflexivity|].
  apply (transport_failure_panics _ _
           (url_Error "dial tcp: lookup haveibeenpwned.com: no such host")).
  reflexivity.
Defined.

(** C3: a 404 response gives each of the four functions no data (the nil
    slice, which has no element, or the record with every field at its zero
    value) and a nil error. *)
Theorem not_found_is_no_data (c : call) (w : World) (res : http.Response) :
  Do w (request_of c w) = (Some res, None) ->
  http.StatusCode res = http.StatusNotFound ->
  returned c w = Returns (no_data c, None).
Proof. intros H H404. exact (proj1 (not_found_run c w res H H404)). Qed.

Lemma not_found_is_no_data_witness :
  let w := answering (Some (response 404 ""), None) in
  let c := CallBreach "NonexistentBreach" in
  (Do w (request_of c w) = (Some (response 404 ""), None) /\
   http.StatusCode (response 404 "") = http.StatusNotFound) /\
  returned c w = Returns (OneBreach BreachModel.empty, None).
Proof.
  split; [split; reflexivity|].
  apply (not_found_is_no_data (CallBreach "NonexistentBreach") _ (response 404 ""));
    reflexivity.
Defined.

(** C4: a response of status 400 gives each of the four functions the
    error [InvalidFormat], one of status 401 [Unauthorized], one of status
    429 [RateLimited], each time with no data, whatever error the client
    returned beside the response. *)
Theorem status_is_classified (c : call) (w : World) (res : http.Response)
  (err : option error) :
  Do w (request_of c w) = (Some res, err) ->
  (http.StatusCode res = 400%Z -> returned c w = Returns (no_data c, Some InvalidFormat)) /\
  (http.StatusCode res = 401%Z -> returned c w = Returns (no_data c, Some Unauthorized)) /\
  (http.StatusCode res = 429%Z -> returned c w = Returns (no_data c, Some RateLimited)).
Proof.
  intros H. repeat split; intros Hs;
    refine (proj1 (status_error_run c w res err _ H _)); now rewrite Hs.
Qed.

Lemma status_is_classified_witness :
  returned (CallBreachedAccount "not an account" "" true false)
    (answering (Some (response 400 ""), None)) =
    Returns (BreachList slice_nil, Some InvalidFormat) /\
  returned (CallBreach "Adobe") (answering (Some (response 401 ""), None)) =
    Returns (OneBreach BreachModel.empty, Some Unauthorized) /\
  returned (CallPasteAccount "test@example.com") (answering (Some (response 429 ""), None)) =
    Returns (PasteList slice_nil, Some RateLimited).
Proof.
  split; [|split].
  - apply (status_is_classified (CallBreachedAccount "not an account" "" true false)
             (answering (Some (response 400 ""), None)) (response 400 "") None);
      reflexivity.
  - apply (status_is_classified (CallBreach "Adobe")
             (answering (Some (response 401 ""), None)) (response 401 "") None);
      reflexivity.
  - apply (status_is_classified (CallPasteAccount "test@example.com")
             (answering (Some (response 429 ""), None)) (response 429 "") None);
      reflexivity.
Defined.

(** C5 (the code departs from it): the claim has the response body read
    and closed on every exit path.  The functions close the body by a
    [defer] placed after the read, so a call that leaves earlier does not
    reach it: the body is closed exactly when the status is none of 400,
    401, 404 and 429 and the read went through.  On a 404 response, on a
    status error and on a failed read it stays open. *)
Theorem body_closed_after_read_only (c : call) (w : World) (res : http.Response) :
  Do w (request_of c w) = (Some res, None) ->
  body_closed (events c w) =
    passes (http.StatusCode res) &&
    match http.read_err (http.Body res) with
    | Some _ => false
    | None => true
    end.
Proof.
  intros H.
  destruct (status_cases (http.StatusCode res)) as [(e & He & ->)|[[H404 ->]|Hp]].
  - destruct (status_error_run c w res None e H He) as [_ ->]. reflexivity.
  - destruct (not_found_run c w res H H404) as [_ ->]. reflexivity.
  - destruct (passing_run c w res H Hp) as [_ ->]. rewrite Hp.
    now destruct (http.read_err (http.Body res)).
Qed.

Lemma body_closed_after_read_only_witness :
  let w := answering (Some (response 404 "[]"), None) in
  let c := CallPasteAccount "test@example.com" in
  Do w (request_of c w) = (Some (response 404 "[]"), None) /\
  events c w = [Sent (request_of c w)] /\
  body_closed (events c w) = false.
Proof.
  split; [reflexivity|]. split; [reflexivity|].
  apply (body_closed_after_read_only (CallPasteAccount "test@example.com")
           (answering (Some (response 404 "[]"), None)) (response 404 "[]")).
  reflexivity.
Defined.

(** C6: the one request [BreachedAccount] sends has a query string that
    contains [truncateResponse=false] exactly when [truncate] is false, and
    contains [includeUnverified=true] exactly when [unverified] is true;
    read as parameters, it has [truncateResponse] and [includeUnverified]
    under the same conditions.  This holds for every account and every
    domain filter. *)
Theorem BreachedAccount_query (account domainFilter : string) (truncate unverified : bool)
  (w : World) :
  exists req : http.Request,
    requests (snd (BreachedAccount account domainFilter truncate unverified w [])) = [req] /\
    Contains (url.RawQuery (http.URL req)) "truncateResponse=false" = negb truncate /\
    Contains (url.RawQuery (http.URL req)) "includeUnverified=true" = unverified /\
    has_param (url.RawQuery (http.URL req)) "truncateResponse" = negb truncate /\
    has_param (url.RawQuery (http.URL req)) "includeUnverified" = unverified.
Proof.
  set (c := CallBreachedAccount account domainFilter truncate unverified).
  exists (request_of c w). split.
  - rewrite <- (requests_of_call c w).
    unfold events, perform, c. now rewrite events_returning.
  - unfold request_of, c. cbn [callService_arguments]. rewrite query_of_request.
    rewrite query_truncateResponse, query_includeUnverified.
    unfold has_param. rewrite query_keys_of_pieces.
    repeat split;
      destruct (negb (String.eqb domainFilter "")), truncate, unverified; reflexivity.
Qed.

(** C7: a 200 response whose body is a well-formed JSON text, an array of
    two breach objects, gives [BreachedAccount] and [Breaches] a slice of
    exactly two records and a nil error, the first record equal to the
    first object field for field, the second to the second.  The body is
    taken as text ([json_text.write_document]): whatever white space the
    text has and however its strings are spelled, a field is the string its
    attribute's glyphs spell, the integer its digits stand for, its boolean
    or its array of strings ([breach_in]). *)
Theorem two_breaches_decoded (c : call) (w : World) (res : http.Response)
  (t : json_text.document) (w1 w2 w3 w4 : string) (b1 b2 : json_text.syntax) :
  breach_list_call c = true ->
  Do w (request_of c w) = (Some res, None) ->
  http.StatusCode res = 200%Z ->
  http.read_err (http.Body res) = None ->
  http.data (http.Body res) = json_text.write_document t ->
  json_text.well_formed t = true ->
  json_text.root t = json_text.SArray (json_text.Next w1 b1 w2 (json_text.Last w3 b2 w4)) ->
  breach_text b1 = true ->
  breach_text b2 = true ->
  returned c w = Returns (BreachList (slice_of [breach_in b1; breach_in b2]), None).
Proof.
  intros Hc H H200 Hr Hd Ht Hroot H1 H2.
  pose proof (parse_written t Ht) as Hp. rewrite <- Hd, Hroot in Hp.
  assert (G : json_text.grammatical b1 = true /\ json_text.grammatical b2 = true).
  { unfold json_text.well_formed in Ht. rewrite Hroot in Ht.
    cbn [json_text.grammatical json_text.grammatical_elements] in Ht.
    repeat match goal with
           | E : (_ && _)%bool = true |- _ => apply Bool.andb_true_iff in E as [? ?]
           end.
    now split. }
  destruct G as [G1 G2].
  assert (O1 : is_object b1 = true) by (unfold breach_text in H1; now split_andb H1).
  assert (O2 : is_object b2 = true) by (unfold breach_text in H2; now split_andb H2).
  cbn [json_text.denote json_text.denote_elements] in Hp.
  rewrite (denote_object b1 O1), (denote_object b2 O2) in Hp.
  rewrite <- (record_of_denoted b1 G1), <- (record_of_denoted b2 G2).
  destruct (passing_run c w res H) as [-> _]; [now rewrite H200|].
  apply (decode_body_accepts c _ _ _ Hr Hp).
  apply accepts_two_breaches; [exact Hc| |]; now apply breach_object_denoted.
Qed.

Lemma two_breaches_decoded_witness :
  returned (CallBreachedAccount "test@example.com" "" false false)
    (answering (Some (response 200 (json_text.write_document two_breaches_document)), None)) =
  Returns (BreachList (slice_of
    [ BreachModel.mk "Adobe" "Adobe" "" "" "" "" 152445165 "" slice_nil
        false false false false false "";
      BreachModel.mk "LinkedIn" "" "linkedin.com" "" "" "" 0 ""
        (slice_of ["Email addresses"; "Passwords"]) true false false false false
        "https://logos/in.png" ]),
    None).
Proof.
  change (returned (CallBreachedAccount "test@example.com" "" false false)
            (answering (Some (response 200 (json_text.write_document two_breaches_document)),
                        None)) =
          Returns (BreachList (slice_of [breach_in adobe_text; breach_in linkedin_text]), None)).
  apply (two_breaches_decoded (CallBreachedAccount "test@example.com" "" false false)
           (answering (Some (response 200 (json_text.write_document two_breaches_document)),
                       None))
           (response 200 (json_text.write_document two_breaches_document))
           two_breaches_document "" "" (String "010" " ") "" adobe_text linkedin_text);
    reflexivity.
Defined.




(** C9: when the status of the response is none of 400, 401, 404 and 429
    (500 and 503 are such), [callService] returns the response and a nil
    error, and the function decodes the body as it does for a 200 response
    with that body; a body the decoder accepts then gives its value and a
    nil error. *)
Theorem unlisted_status_is_decoded (c : call) (w : World) (res : http.Response) :
  Do w (request_of c w) = (Some res, None) ->
  passes (http.StatusCode res) = true ->
  fst (service_call c w []) = Returns (Some res, None) /\
  (forall w' : World,
      Do w' (request_of c w') = (Some (http.mkResponse 200 (http.Body res)), None) ->
      returned c w = returned c w') /\
  (forall (j : json.Value) (r : result),
      http.read_err (http.Body res) = None ->
      json.parse (http.data (http.Body res)) = Some j ->
      accepts c j = Some r ->
      returned c w = Returns (r, None)).
Proof.
  intros H Hp. destruct (passing_run c w res H Hp) as [E _].
  split; [now apply service_call_passes|]. split.
  - intros w' H'.
    destruct (passing_run c w' _ H') as [E' _]; [reflexivity|].
    now rewrite E, E'.
  - intros j r Hr Hj Ha. rewrite E. now apply (decode_body_accepts c _ j).
Qed.

Lemma unlisted_status_is_decoded_witness :
  let w := answering (Some (response 503 two_breaches), None) in
  let c := CallBreaches "" in
  passes 500 = true /\ passes 503 = true /\
  fst (service_call c w []) = Returns (Some (response 503 two_breaches), None) /\
  returned c w = returned c (answering (Some (response 200 two_breaches), None)) /\
  returned c w =
    Returns (BreachList (slice_of [record_of adobe_object; record_of linkedin_object]), None).
Proof.
  pose proof (unlisted_status_is_decoded (CallBreaches "")
                (answering (Some (response 503 two_breaches), None))
                (response 503 two_breaches) eq_refl eq_refl) as [Hs [Hw Hj]].
  split; [reflexivity|]. split; [reflexivity|].
  split; [exact Hs|]. split.
  - apply Hw. reflexivity.
  - apply (Hj (json.Array [json.Object adobe_object; json.Object linkedin_object]));
      vm_compute; reflexivity.
Defined.

(** C10: a 200 response whose body is the empty JSON array gives each of
    the three list functions an empty slice that is not nil (the 404 path
    gives the nil slice) and a nil error. *)
Theorem empty_array_is_empty_slice (c : call) (w : World) (res : http.Response) :
  list_call c = true ->
  Do w (request_of c w) = (Some res, None) ->
  http.StatusCode res = 200%Z ->
  http.read_err (http.Body res) = None ->
  json.parse (http.data (http.Body res)) = Some (json.Array []) ->
  returned c w = Returns (empty_list c, None) /\ empty_list c <> no_data c.
Proof.
  intros Hc H H200 Hr Hp. split.
  - destruct (passing_run c w res H) as [-> _]; [now rewrite H200|].
    apply (decode_body_accepts c _ _ _ Hr Hp). now apply accepts_empty_array.
  - destruct c; discriminate.
Qed.

Lemma empty_array_is_empty_slice_witness :
  let w := answering (Some (response 200 "[]"), None) in
  json.parse "[]" = Some (json.Array []) /\
  returned (CallBreachedAccount "test@example.com" "" false false) w =
    Returns (BreachList (slice_of []), None) /\
  returned (CallBreaches "") w = Returns (BreachList (slice_of []), None) /\
  returned (CallPasteAccount "test@example.com") w = Returns (PasteList (slice_of []), None).
Proof.
  split; [reflexivity|]. split; [|split].
  - apply (empty_array_is_empty_slice (CallBreachedAccount "test@example.com" "" false false)
             (answering (Some (response 200 "[]"), None)) (response 200 "[]"));
      reflexivity.
  - apply (empty_array_is_empty_slice (CallBreaches "")
             (answering (Some (response 200 "[]"), None)) (response 200 "[]"));
      reflexivity.
  - apply (empty_array_is_empty_slice (CallPasteAccount "test@example.com")
             (answering (Some (response 200 "[]"), None)) (response 200 "[]"));
      reflexivity.
Defined.

(** ** Further properties of the code *)

(** *** Escaping and its way back *)

Lemma shouldEscape_query (c : ascii) :
  url_text.shouldEscape c url_text.encodeQueryComponent = url.shouldEscape c.
Proof. destruct c as [[] [] [] [] [] [] [] []]; reflexivity. Qed.

Lemma escape_query (s : string) :
  url_text.escape s url_text.encodeQueryComponent = url.QueryEscape s.
Proof.
  unfold url.QueryEscape. induction s as [|c s IH]; [reflexivity|].
  cbn [url_text.escape url.escape]. rewrite shouldEscape_query, IH, Bool.andb_true_r.
  reflexivity.
Qed.

(** The two hex digits of a byte give the byte back. *)
Lemma unhex_hexdigits (c : ascii) :
  let h := url.hexdigit (N.shiftr (N_of_ascii c) 4) in
  let l := url.hexdigit (N.land (N_of_ascii c) 15) in
  (url_text.ishex h && url_text.ishex l)%bool = true /\
  ascii_of_N (N.lor (N.shiftl (url_text.unhex h) 4) (url_text.unhex l)) = c.
Proof. destruct c as [[] [] [] [] [] [] [] []]; split; reflexivity. Qed.

Lemma hexdigit_not_percent (n : N) : Ascii.eqb (url.hexdigit n) "%" = false.
Proof.
  apply (mem_differs "%" (url.hexdigit n) url.upperhex); [reflexivity|].
  apply hexdigit_upperhex.
Qed.

Lemma unescape_escape (s : string) (mode : url_text.encoding) (query : bool) :
  (mode = url_text.encodePath /\ query = false) \/
  (mode = url_text.encodeQueryComponent /\ query = true) ->
  url_text.unescape (url_text.escape s mode) query = Some s.
Proof.
  intros Hm. induction s as [|c s IH]; [reflexivity|].
  cbn [url_text.escape].
  destruct (Ascii.eqb_spec c " ") as [->|Hsp].
  - destruct Hm as [[-> ->]|[-> ->]]; cbn; rewrite IH; reflexivity.
  - replace (false && _)%bool with false by reflexivity.
    destruct (url_text.shouldEscape c mode) eqn:E.
    + cbn [url_text.unescape]. rewrite Ascii.eqb_refl.
      destruct (unhex_hexdigits c) as [Hh Hb]. cbv zeta in Hh, Hb.
      rewrite Hh, IH, Hb. reflexivity.
    + cbn [url_text.unescape].
      destruct (Ascii.eqb_spec c "%") as [->|Hpc].
      { destruct Hm as [[-> ->]|[-> ->]]; discriminate. }
      rewrite IH.
      destruct (Ascii.eqb_spec c "+") as [->|Hpl]; [|reflexivity].
      destruct Hm as [[-> ->]|[-> ->]]; [reflexivity|discriminate].
Qed.

(** *** The pieces of a query *)

Lemma Split_concat (sep : ascii) (ps : list string) :
  ps <> [] ->
  forallb (fun p => negb (mem sep p)) ps = true ->
  Split (String.concat (String sep "") ps) sep = ps.
Proof.
  induction ps as [|x ps IH]; intros Hne H; [congruence|].
  cbn [forallb] in H. apply Bool.andb_true_iff in H as [Hx Hps].
  apply Bool.negb_true_iff in Hx.
  destruct ps as [|y ps].
  - simpl. now apply Split_lacking.
  - change (String.concat (String sep "") (x :: y :: ps))
      with (x ++ String sep (String.concat (String sep "") (y :: ps))).
    rewrite Split_app_sep, (Split_lacking sep x Hx), IH; [reflexivity|discriminate|assumption].
Qed.

Lemma query_pieces_lack_ampersand (domainFilter : string) (truncate unverified : bool) :
  forallb (fun p => negb (mem "&" p)) (query_pieces domainFilter truncate unverified) = true.
Proof.
  unfold query_pieces.
  assert (D : mem "&" ("domain=" ++ url.QueryEscape domainFilter) = false).
  { simpl. apply QueryEscape_lacks_ampersand. }
  destruct (negb (String.eqb domainFilter "")), truncate, unverified;
    cbn [app forallb]; rewrite ?D; reflexivity.
Qed.

Lemma query_pieces_nonempty (domainFilter : string) (truncate unverified : bool) :
  filter (fun p => negb (String.eqb p "")) (query_pieces domainFilter truncate unverified) =
  query_pieces domainFilter truncate unverified.
Proof.
  unfold query_pieces.
  destruct (negb (String.eqb domainFilter "")), truncate, unverified; reflexivity.
Qed.

(** Split at its ampersands, a query gives back the pieces it was made
    of. *)
Lemma query_splits_into_pieces (domainFilter : string) (truncate unverified : bool) :
  filter (fun p => negb (String.eqb p ""))
    (Split (String.concat "&" (query_pieces domainFilter truncate unverified)) "&") =
  query_pieces domainFilter truncate unverified.
Proof.
  destruct (query_pieces domainFilter truncate unverified) as [|p ps] eqn:E.
  - reflexivity.
  - rewrite <- E, Split_concat.
    + apply query_pieces_nonempty.
    + rewrite E. discriminate.
    + apply query_pieces_lack_ampersand.
Qed.

Lemma query_value_domain (domainFilter : string) (truncate unverified : bool) :
  domainFilter <> "" ->
  query_value (String.concat "&" (query_pieces domainFilter truncate unverified)) "domain" =
  Some domainFilter.
Proof.
  intros Hne. unfold query_value. rewrite query_splits_into_pieces.
  unfold query_pieces.
  destruct (String.eqb_spec domainFilter ""); [congruence|].
  cbn [negb app find]. simpl CutBefore. cbn [String.eqb Ascii.eqb Bool.eqb].
  simpl CutAfter. unfold url_text.QueryUnescape.
  rewrite <- escape_query. apply unescape_escape. auto.
Qed.

(** *** The text of the URL *)

Lemma escape_app (a b : string) (mode : url_text.encoding) :
  url_text.escape (a ++ b) mode = url_text.escape a mode ++ url_text.escape b mode.
Proof.
  induction a as [|c a IH]; [reflexivity|].
  cbn [append url_text.escape]. rewrite IH.
  destruct (_ && _)%bool; [reflexivity|].
  destruct (url_text.shouldEscape c mode); reflexivity.
Qed.

(** An escaped path holds no byte that is escaped in a path, the percent
    sign and the hex digits apart. *)
Lemma escape_path_lacks (c0 : ascii) (s : string) :
  url_text.shouldEscape c0 url_text.encodePath = true ->
  Ascii.eqb "%" c0 = false ->
  mem c0 url.upperhex = false ->
  mem c0 (url_text.escape s url_text.encodePath) = false.
Proof.
  intros Hesc Hpct Hhex. induction s as [|c s IH]; [reflexivity|].
  cbn [url_text.escape]. rewrite Bool.andb_false_r.
  destruct (url_text.shouldEscape c url_text.encodePath) eqn:E.
  - cbn [mem].
    rewrite Hpct, !(mem_differs c0 _ _ Hhex (hexdigit_upperhex _)), IH. reflexivity.
  - cbn [mem]. rewrite IH, Bool.orb_false_r.
    apply Ascii.eqb_neq. intros ->. congruence.
Qed.

Lemma CutBefore_app (sep : ascii) (a b : string) :
  mem sep a = false -> CutBefore (a ++ b) sep = a ++ CutBefore b sep.
Proof.
  induction a as [|c a IH]; intros H; [reflexivity|].
  simpl in H. apply Bool.orb_false_iff in H as [Hc Ha].
  cbn [append CutBefore]. now rewrite Hc, (IH Ha).
Qed.

Lemma CutAfter_app (sep : ascii) (a b : string) :
  mem sep a = false -> CutAfter (a ++ b) sep = CutAfter b sep.
Proof.
  induction a as [|c a IH]; intros H; [reflexivity|].
  simpl in H. apply Bool.orb_false_iff in H as [Hc Ha].
  cbn [append CutAfter]. now rewrite Hc, (IH Ha).
Qed.

Lemma CutBefore_lacking (sep : ascii) (a : string) :
  mem sep a = false -> CutBefore a sep = a.
Proof.
  induction a as [|c a IH]; intros H; [reflexivity|].
  simpl in H. apply Bool.orb_false_iff in H as [Hc Ha].
  cbn [CutBefore]. now rewrite Hc, (IH Ha).
Qed.

Lemma CutAfter_lacking (sep : ascii) (a : string) :
  mem sep a = false -> CutAfter a sep = "".
Proof.
  induction a as [|c a IH]; intros H; [reflexivity|].
  simpl in H. apply Bool.orb_false_iff in H as [Hc Ha].
  cbn [CutAfter]. now rewrite Hc, (IH Ha).
Qed.

Lemma mem_concat_lacking (c sep : ascii) (ps : list string) :
  Ascii.eqb sep c = false ->
  forallb (fun p => negb (mem c p)) ps = true ->
  mem c (String.concat (String sep "") ps) = false.
Proof.
  intros Hsep. induction ps as [|x ps IH]; intros H; [reflexivity|].
  cbn [forallb] in H. apply Bool.andb_true_iff in H as [Hx Hps].
  apply Bool.negb_true_iff in Hx.
  destruct ps as [|y ps]; [exact Hx|].
  change (String.concat (String sep "") (x :: y :: ps))
    with (x ++ String sep (String.concat (String sep "") (y :: ps))).
  rewrite mem_app, Hx. cbn [mem orb]. now rewrite Hsep, (IH Hps).
Qed.

(** The query [callService] encodes holds neither a question mark nor a
    hash sign. *)
Lemma query_lacks (c0 : ascii) (domainFilter : string) (truncate unverified : bool) :
  c0 = "?"%char \/ c0 = "#"%char ->
  mem c0 (String.concat "&" (query_pieces domainFilter truncate unverified)) = false.
Proof.
  intros Hc. apply mem_concat_lacking; [destruct Hc as [->| ->]; reflexivity|].
  unfold query_pieces.
  assert (D : mem c0 ("domain=" ++ url.QueryEscape domainFilter) = false).
  { rewrite mem_app. unfold url.QueryEscape.
    rewrite (escape_lacks c0) by (destruct Hc as [->| ->]; reflexivity).
    destruct Hc as [->| ->]; reflexivity. }
  destruct (negb (String.eqb domainFilter "")), truncate, unverified;
    cbn [app forallb]; rewrite ?D; destruct Hc as [->| ->]; reflexivity.
Qed.

(** *** The request of a call *)

(** X1: whatever the client answers, a call hands it exactly one request:
    a GET for [https://haveibeenpwned.com/api/v3/<service>/<identifier>]
    (for [Breaches] the identifier is empty and the path ends in a slash),
    with the user agent [Go/1.15] and, as [hibp-api-key], what the
    environment holds under [HIBP_API_KEY] at the call, be it empty. *)
Theorem call_sends_one_request (c : call) (w : World) :
  exists req : http.Request,
    requests (events c w) = [req] /\
    http.Method req = "GET" /\
    url.Scheme (http.URL req) = "https" /\
    url.Host (http.URL req) = "haveibeenpwned.com" /\
    url.Path (http.URL req) = "/api/v3/" ++ service_of c ++ "/" ++ identifier_of c /\
    http.Header req = [("User-Agent", "Go/1.15"); ("hibp-api-key", Getenv w "HIBP_API_KEY")].
Proof.
  exists (request_of c w). split; [apply requests_of_call|].
  destruct c; repeat split.
Qed.

(** X2: the query string of the request [BreachedAccount] sends is the
    join, by ampersands, of [domain=<escaped filter>] (when the filter is
    not empty), [includeUnverified=true] (when asked for) and
    [truncateResponse=false] (when [truncate] is false), in this order,
    which is the order of the names and not the order in which the code
    adds them. *)
Theorem BreachedAccount_query_text (account domainFilter : string) (truncate unverified : bool)
  (w : World) :
  exists req : http.Request,
    requests (snd (BreachedAccount account domainFilter truncate unverified w [])) = [req] /\
    url.RawQuery (http.URL req) =
      String.concat "&"
        ((if String.eqb domainFilter "" then []
          else [("domain=" ++ url.QueryEscape domainFilter)%string])
         ++ (if unverified then ["includeUnverified=true"] else [])
         ++ (if truncate then [] else ["truncateResponse=false"]))%list.
Proof.
  set (c := CallBreachedAccount account domainFilter truncate unverified).
  exists (request_of c w). split.
  - rewrite <- (requests_of_call c w).
    unfold events, perform, c. now rewrite events_returning.
  - unfold request_of, c. cbn [callService_arguments]. rewrite query_of_request.
    unfold query_pieces. now destruct (String.eqb domainFilter "").
Qed.

(** X3: [Breach] and [PasteAccount] take no option, and yet the request
    of each carries the query [truncateResponse=false], whatever the name
    or the address. *)
Theorem Breach_and_PasteAccount_query (identifier : string) (w : World) :
  (exists req : http.Request,
      requests (snd (Breach identifier w [])) = [req] /\
      url.RawQuery (http.URL req) = "truncateResponse=false") /\
  (exists req : http.Request,
      requests (snd (PasteAccount identifier w [])) = [req] /\
      url.RawQuery (http.URL req) = "truncateResponse=false").
Proof.
  split.
  - exists (request_of (CallBreach identifier) w). split; [|reflexivity].
    rewrite <- (requests_of_call (CallBreach identifier) w).
    unfold events, perform. now rewrite events_returning.
  - exists (request_of (CallPasteAccount identifier) w). split; [|reflexivity].
    rewrite <- (requests_of_call (CallPasteAccount identifier) w).
    unfold events, perform. now rewrite events_returning.
Qed.

(** X4: read as parameters, the query of the request [BreachedAccount]
    sends has [domain], [includeUnverified] and [truncateResponse] under the
    conditions above and nothing else, none of them twice: no domain filter,
    whatever bytes it holds, adds or repeats a parameter. *)
Theorem BreachedAccount_query_parameters (account domainFilter : string)
  (truncate unverified : bool) (w : World) :
  query_keys (url.RawQuery (http.URL (request_of
                (CallBreachedAccount account domainFilter truncate unverified) w))) =
  ((if String.eqb domainFilter "" then [] else ["domain"])
   ++ (if unverified then ["includeUnverified"] else [])
   ++ (if truncate then [] else ["truncateResponse"]))%list.
Proof.
  unfold request_of. cbn [callService_arguments].
  rewrite query_of_request, query_keys_of_pieces.
  now destruct (String.eqb domainFilter "").
Qed.

(** X5: the value of the [domain] parameter, unescaped on the receiving
    side, is the domain filter byte for byte; an empty filter leaves no
    such parameter. *)
Theorem BreachedAccount_domain_value (account domainFilter : string)
  (truncate unverified : bool) (w : World) :
  query_value (url.RawQuery (http.URL (request_of
                 (CallBreachedAccount account domainFilter truncate unverified) w))) "domain" =
  if String.eqb domainFilter "" then None else Some domainFilter.
Proof.
  unfold request_of. cbn [callService_arguments]. rewrite query_of_request.
  destruct (String.eqb_spec domainFilter "") as [->|Hne].
  - destruct truncate, unverified; reflexivity.
  - now apply query_value_domain.
Qed.

(** The escaped path of a call's URL. *)
Lemma EscapedPath_of_call (c : call) (w : World) :
  url_text.EscapedPath (http.URL (request_of c w)) =
  "/api/v3/" ++ service_of c ++ "/" ++ url_text.escape (identifier_of c) url_text.encodePath.
Proof.
  unfold url_text.EscapedPath.
  destruct c; cbn [request_of callService_arguments callService_request http.URL url.Path
                   service_of identifier_of];
    match goal with
    | |- context [String.eqb ?p "*"] => replace (String.eqb p "*") with false by reflexivity
    end;
    match goal with
    | |- url_text.escape (?a ++ ?s ++ "/" ++ ?i) _ = _ =>
        change (a ++ s ++ "/" ++ i) with ((a ++ s ++ "/") ++ i)
    end;
    rewrite escape_app; reflexivity.
Qed.

(** X6: the URL text the request is made from ([u.String()]) is the API
    root, the service, a slash and the identifier escaped for a path, then
    a question mark and the query when the query is not empty.  The text
    holds no hash sign, and its first question mark is the one before the
    query: a question mark or a hash sign in the identifier is escaped, and
    nothing of the identifier is read as query or fragment. *)
Theorem url_text_of_call (c : call) (w : World) :
  let u := http.URL (request_of c w) in
  let root := API ++ service_of c ++ "/" ++
              url_text.escape (identifier_of c) url_text.encodePath in
  url_text.URL_String u =
    root ++ (if String.eqb (url.RawQuery u) "" then "" else "?" ++ url.RawQuery u) /\
  CutBefore (url_text.URL_String u) "?" = root /\
  CutAfter (url_text.URL_String u) "?" = url.RawQuery u /\
  mem "#" (url_text.URL_String u) = false.
Proof.
  cbv zeta.
  assert (T : url_text.URL_String (http.URL (request_of c w)) =
              (API ++ service_of c ++ "/" ++
               url_text.escape (identifier_of c) url_text.encodePath)
              ++ (if String.eqb (url.RawQuery (http.URL (request_of c w))) "" then ""
                  else "?" ++ url.RawQuery (http.URL (request_of c w)))).
  { unfold url_text.URL_String. rewrite EscapedPath_of_call.
    unfold url_text.nonempty.
    destruct (String.eqb (url.RawQuery (http.URL (request_of c w))) "");
      destruct c; reflexivity. }
  assert (R : forall c0, c0 = "?"%char \/ c0 = "#"%char ->
                mem c0 (API ++ service_of c ++ "/" ++
                        url_text.escape (identifier_of c) url_text.encodePath) = false).
  { intros c0 Hc. rewrite !mem_app.
    rewrite (escape_path_lacks c0) by (destruct Hc as [->| ->]; reflexivity).
    destruct c; destruct Hc as [->| ->]; reflexivity. }
  assert (Q : forall c0, c0 = "?"%char \/ c0 = "#"%char ->
                mem c0 (url.RawQuery (http.URL (request_of c w))) = false).
  { intros c0 Hc. unfold request_of.
    destruct (callService_arguments c) as [[[[service account] domainFilter] truncate] unverified].
    rewrite query_of_request. now apply query_lacks. }
  rewrite T. split; [reflexivity|].
  destruct (String.eqb_spec (url.RawQuery (http.URL (request_of c w))) "") as [E|E].
  - rewrite E, append_empty. repeat split.
    + apply CutBefore_lacking, R. auto.
    + apply CutAfter_lacking, R. auto.
    + apply R. auto.
  - repeat split.
    + rewrite CutBefore_app by (apply R; auto). simpl. now rewrite append_empty.
    + rewrite CutAfter_app by (apply R; auto). reflexivity.
    + rewrite mem_app, R by auto. simpl. apply Q. auto.
Qed.

(** X7: the escaped path of the URL unescapes to the path [callService]
    set: the identifier reaches the service byte for byte, and an
    identifier that the caller has percent-encoded already is encoded once
    more. *)
Theorem path_round_trip (c : call) (w : World) :
  url_text.unescape (url_text.EscapedPath (http.URL (request_of c w))) false =
  Some (url.Path (http.URL (request_of c w))).
Proof.
  unfold url_text.EscapedPath.
  replace (String.eqb (url.Path (http.URL (request_of c w))) "*") with false
    by (destruct c; reflexivity).
  apply unescape_escape. auto.
Qed.

(** *** How a call ends *)

(** A client error beside a response whose status is none of 400, 401 and
    429 ends the call with that error. *)
Lemma client_error_run (c : call) (w : World) (res : http.Response) (e : error) :
  Do w (request_of c w) = (Some res, Some e) ->
  status_error (http.StatusCode res) = None ->
  returned c w = Returns (no_data c, Some e) /\ events c w = [Sent (request_of c w)].
Proof.
  intros H Hs. unfold status_error in Hs.
  destruct (http.StatusCode res =? 400)%Z eqn:E400; [discriminate|].
  destruct (http.StatusCode res =? 401)%Z eqn:E401; [discriminate|].
  destruct (http.StatusCode res =? 429)%Z eqn:E429; [discriminate|].
  destruct c; cbn in H; run_call; rewrite H; simpl;
    rewrite E400, E429, E401; simpl; auto.
Qed.

(** X8: when the client returns an error together with a response (as it
    does when a redirect is refused) and the status is none of 400, 401 and
    429, each of the four functions returns that error and no data, and
    leaves the body alone; a status of 404 makes no difference then. *)
Theorem client_error_is_returned (c : call) (w : World) (res : http.Response) (e : error) :
  Do w (request_of c w) = (Some res, Some e) ->
  status_error (http.StatusCode res) = None ->
  returned c w = Returns (no_data c, Some e) /\ events c w = [Sent (request_of c w)].
Proof. apply client_error_run. Qed.

Lemma client_error_is_returned_witness :
  let e := url_Error "stopped after 10 redirects" in
  let w := answering (Some (response 302 ""), Some e) in
  let c := CallBreach "Adobe" in
  returned c w = Returns (OneBreach BreachModel.empty, Some e) /\
  returned (CallPasteAccount "a@b.c") (answering (Some (response 404 ""), Some e)) =
    Returns (PasteList slice_nil, Some e).
Proof.
  split.
  - apply (client_error_is_returned (CallBreach "Adobe")
             (answering (Some (response 302 ""), Some (url_Error "stopped after 10 redirects")))
             (response 302 "")); reflexivity.
  - apply (client_error_is_returned (CallPasteAccount "a@b.c")
             (answering (Some (response 404 ""), Some (url_Error "stopped after 10 redirects")))
             (response 404 "")); reflexivity.
Defined.

(** X9: when reading the body fails, each of the four functions returns
    the error of the read and no data, whatever bytes were read; the body
    has been read and is not closed. *)
Theorem read_error_is_returned (c : call) (w : World) (res : http.Response) (e : error) :
  Do w (request_of c w) = (Some res, None) ->
  passes (http.StatusCode res) = true ->
  http.read_err (http.Body res) = Some e ->
  returned c w = Returns (no_data c, Some e) /\
  events c w = [Sent (request_of c w); BodyRead].
Proof.
  intros H Hp Hr. destruct (passing_run c w res H Hp) as [-> ->].
  unfold decode_body. now rewrite Hr.
Qed.

Lemma read_error_is_returned_witness :
  let e := read_Error "unexpected EOF" in
  let res := http.mkResponse 200 (http.mkBody two_breaches (Some e)) in
  let w := answering (Some res, None) in
  let c := CallBreachedAccount "test@example.com" "" false false in
  returned c w = Returns (BreachList slice_nil, Some e) /\
  events c w = [Sent (request_of c w); BodyRead].
Proof.
  apply (read_error_is_returned (CallBreachedAccount "test@example.com" "" false false)
           (answering (Some (http.mkResponse 200
                               (http.mkBody two_breaches (Some (read_Error "unexpected EOF")))),
                       None))
           (http.mkResponse 200 (http.mkBody two_breaches (Some (read_Error "unexpected EOF")))));
    reflexivity.
Defined.

(** X10: whatever the client answers, a call does one of three things to
    the outside: it sends its request; or sends it and reads the body; or
    sends it, reads the body and closes it.  It never sends a second request
    (no retry), never reads a body twice and never closes a body that it
    has not read. *)
Theorem events_of_call (c : call) (w : World) :
  let req := request_of c w in
  In (events c w) [ [Sent req]; [Sent req; BodyRead]; [Sent req; BodyRead; BodyClosed] ].
Proof.
  cbv zeta.
  destruct c; run_call; simpl;
    match goal with |- context [Do w ?r] => destruct (Do w r) as [[r0|] err] end;
    crunch; auto.
Qed.

(** X11: a list function never returns data together with an error:
    when [BreachedAccount], [Breaches] or [PasteAccount] returns an error,
    the slice beside it is nil, whatever the client answered. *)
Theorem list_call_error_has_no_data (c : call) (w : World) (r : result) (e : error) :
  list_call c = true ->
  returned c w = Returns (r, Some e) ->
  r = no_data c.
Proof.
  intros Hc H.
  destruct (Do w (request_of c w)) as [[res|] err] eqn:HDo.
  - destruct (status_cases (http.StatusCode res)) as [(e' & He & _)|[[H404 _]|Hp]].
    + destruct (status_error_run c w res err e' HDo He) as [E _]. congruence.
    + destruct err as [e'|].
      * destruct (client_error_run c w res e' HDo) as [E _]; [now rewrite H404|]. congruence.
      * destruct (not_found_run c w res HDo H404) as [E _]. congruence.
    + destruct err as [e'|].
      * destruct (client_error_run c w res e' HDo) as [E _].
        { destruct (passes_cases _ Hp) as (E400 & E401 & _ & E429).
          unfold status_error. now rewrite E400, E401, E429. }
        congruence.
      * destruct (passing_run c w res HDo Hp) as [E _]. rewrite E in H.
        unfold decode_body in H.
        destruct (http.read_err (http.Body res)); [congruence|].
        destruct c; try discriminate;
          match type of H with
          | context [json.Unmarshal ?d ?v] => destruct (json.Unmarshal d v) as [x [e'|]]
          end; simpl; congruence.
  - destruct (no_response_panics c w err HDo) as [E _]. congruence.
Qed.

Lemma list_call_error_has_no_data_witness :
  let body := "[{" ++ quoted "Name" ++ ":" ++ quoted "Adobe" ++ "},{"
                   ++ quoted "PwnCount" ++ ":" ++ quoted "many" ++ "}]" in
  let w := answering (Some (response 200 body), None) in
  returned (CallBreaches "") w =
    Returns (BreachList slice_nil, Some (json_UnmarshalTypeError "string")) /\
  BreachList slice_nil = no_data (CallBreaches "").
Proof.
  split; [vm_compute; reflexivity|].
  apply (list_call_error_has_no_data (CallBreaches "")
           (answering (Some (response 200
              ("[{" ++ quoted "Name" ++ ":" ++ quoted "Adobe" ++ "},{"
                    ++ quoted "PwnCount" ++ ":" ++ quoted "many" ++ "}]")), None))
           (BreachList slice_nil) (json_UnmarshalTypeError "string"));
    vm_compute; reflexivity.
Defined.

(** X12: [Breach] on a body that is the JSON [null]: the decoder sets
    the pointer to nil and reports no error, so [*breach] panics; the body
    has been read and closed by then. *)
Theorem Breach_null_panics (name : string) (w : World) (res : http.Response) :
  Do w (request_of (CallBreach name) w) = (Some res, None) ->
  passes (http.StatusCode res) = true ->
  http.read_err (http.Body res) = None ->
  json.parse (http.data (http.Body res)) = Some json.Null ->
  fst (Breach name w []) = Panics /\
  snd (Breach name w []) = [Sent (request_of (CallBreach name) w); BodyRead; BodyClosed].
Proof.
  intros H Hp Hr Hj.
  destruct (passing_run (CallBreach name) w res H Hp) as [E1 E2].
  unfold returned, events, perform in E1, E2. rewrite events_returning in E2.
  rewrite Hr in E2. split; [|exact E2].
  unfold decode_body, json.Unmarshal in E1. rewrite Hr, Hj in E1. cbn in E1.
  unfold returning, bind in E1.
  destruct (Breach name w []) as [[[b err]|] tr]; [discriminate|reflexivity].
Qed.

Lemma Breach_null_panics_witness :
  fst (Breach "Adobe" (answering (Some (response 200 " null "), None)) []) = Panics.
Proof.
  apply (Breach_null_panics "Adobe" (answering (Some (response 200 " null "), None))
           (response 200 " null ")); vm_compute; reflexivity.
Defined.

(** X13: a list function on a body that is the JSON [null] returns the
    nil slice and a nil error, as it does on a 404 response. *)
Theorem list_call_null_is_nil (c : call) (w : World) (res : http.Response) :
  list_call c = true ->
  Do w (request_of c w) = (Some res, None) ->
  passes (http.StatusCode res) = true ->
  http.read_err (http.Body res) = None ->
  json.parse (http.data (http.Body res)) = Some json.Null ->
  returned c w = Returns (no_data c, None).
Proof.
  intros Hc H Hp Hr Hj.
  destruct (passing_run c w res H Hp) as [-> _].
  unfold decode_body, json.Unmarshal. rewrite Hr, Hj.
  destruct c; try discriminate; reflexivity.
Qed.

Lemma list_call_null_is_nil_witness :
  returned (CallPasteAccount "a@b.c") (answering (Some (response 200 "null"), None)) =
  Returns (PasteList slice_nil, None).
Proof.
  apply (list_call_null_is_nil (CallPasteAccount "a@b.c")
           (answering (Some (response 200 "null"), None)) (response 200 "null"));
    vm_compute; reflexivity.
Defined.

(** *** Decoding *)

Lemma store_breach_objects (os : list (list (string * json.Value))) :
  forallb breach_object os = true ->
  forall cur : list BreachModel.t,
    cur = [] ->
    json.store_elems (map json.Object os) cur = (map record_of os, None).
Proof.
  induction os as [|o os IH]; intros H cur ->; [reflexivity|].
  cbn [forallb] in H. apply Bool.andb_true_iff in H as [Ho Hos].
  cbn [map json.store_elems hd tl].
  change (json.store (json.Object o) json.zero)
    with (json.store_members BreachModel.fields o BreachModel.empty).
  rewrite (store_members_read o BreachModel.empty Ho), (IH Hos [] eq_refl).
  reflexivity.
Qed.

Lemma breach_array_stored (c : call) (w : World) (res : http.Response)
  (os : list (list (string * json.Value))) :
  breach_list_call c = true ->
  Do w (request_of c w) = (Some res, None) ->
  passes (http.StatusCode res) = true ->
  http.read_err (http.Body res) = None ->
  json.parse (http.data (http.Body res)) = Some (json.Array (map json.Object os)) ->
  forallb breach_object os = true ->
  returned c w = Returns (BreachList (slice_of (map record_of os)), None).
Proof.
  intros Hc H Hp Hr Hj Hos.
  destruct (passing_run c w res H Hp) as [-> _].
  apply (decode_body_accepts c _ _ _ Hr Hj).
  assert (E : json.store (json.Array (map json.Object os))
                (slice_of [] : slice BreachModel.t) =
              (slice_of (map record_of os), None)).
  { cbn [json.store json.slice_Decoder elements].
    now rewrite (store_breach_objects os Hos [] eq_refl). }
  destruct c; try discriminate; unfold accepts; now rewrite E.
Qed.

(** The objects of an array, as the decoder has them, and the records it
    makes of them. *)
Lemma objects_denoted (ok : json_text.syntax -> bool) (vs : list json_text.syntax) :
  (forall v, ok v = true -> is_object v = true) ->
  forallb ok vs = true -> forallb is_object vs = true.
Proof.
  intros Hok H. apply forallb_forall. intros v Hv.
  apply Hok. exact (proj1 (forallb_forall _ _) H v Hv).
Qed.

Lemma breach_text_object (v : json_text.syntax) : breach_text v = true -> is_object v = true.
Proof. unfold breach_text. intros H. now split_andb H. Qed.

Lemma paste_text_object (v : json_text.syntax) : paste_text v = true -> is_object v = true.
Proof. unfold paste_text. intros H. now split_andb H. Qed.

(** X14: a body that is a well-formed JSON text, an array of breach
    objects of any length, gives [BreachedAccount] and [Breaches] as many
    records, in the order of the array, each the breach its object
    describes field for field, and a nil error.  The body is taken as text:
    the white space in it and the spelling of its strings make no
    difference to the result. *)
Theorem breaches_decoded (c : call) (w : World) (res : http.Response)
  (t : json_text.document) (vs : list json_text.syntax) :
  breach_list_call c = true ->
  Do w (request_of c w) = (Some res, None) ->
  passes (http.StatusCode res) = true ->
  http.read_err (http.Body res) = None ->
  http.data (http.Body res) = json_text.write_document t ->
  json_text.well_formed t = true ->
  items_of (json_text.root t) = Some vs ->
  forallb breach_text vs = true ->
  returned c w = Returns (BreachList (slice_of (map breach_in vs)), None).
Proof.
  intros Hc H Hs Hr Hd Ht Hroot Hvs.
  pose proof (parse_written t Ht) as Hp. rewrite <- Hd in Hp.
  assert (G : forallb json_text.grammatical vs = true).
  { unfold json_text.well_formed in Ht. split_andb Ht.
    now apply (grammatical_items_of (json_text.root t)). }
  rewrite (denote_array _ vs Hroot) in Hp.
  rewrite (denote_objects vs (objects_denoted _ vs breach_text_object Hvs)) in Hp.
  replace (map breach_in vs)
    with (map record_of (map (fun v => map denoted (entries_of v)) vs)).
  - apply (breach_array_stored c w res _ Hc H Hs Hr Hp).
    rewrite forallb_forall in *. intros o Ho.
    apply in_map_iff in Ho as (v & <- & Hv).
    apply breach_object_denoted; [exact (G v Hv)|exact (Hvs v Hv)].
  - rewrite map_map. apply map_ext_in. intros v Hv.
    apply record_of_denoted. exact (proj1 (forallb_forall _ _) G v Hv).
Qed.

Lemma breaches_decoded_witness :
  returned (CallBreaches "")
    (answering (Some (response 200 (json_text.write_document two_breaches_document)), None)) =
  Returns (BreachList (slice_of (map breach_in [adobe_text; linkedin_text])), None).
Proof.
  apply (breaches_decoded (CallBreaches "")
           (answering (Some (response 200 (json_text.write_document two_breaches_document)),
                       None))
           (response 200 (json_text.write_document two_breaches_document))
           two_breaches_document [adobe_text; linkedin_text]);
    reflexivity.
Defined.

Lemma breach_object_stored (name : string) (w : World) (res : http.Response)
  (o : list (string * json.Value)) :
  Do w (request_of (CallBreach name) w) = (Some res, None) ->
  passes (http.StatusCode res) = true ->
  http.read_err (http.Body res) = None ->
  json.parse (http.data (http.Body res)) = Some (json.Object o) ->
  breach_object o = true ->
  returned (CallBreach name) w = Returns (OneBreach (record_of o), None).
Proof.
  intros H Hp Hr Hj Ho.
  destruct (passing_run _ w res H Hp) as [-> _].
  apply (decode_body_accepts _ _ _ _ Hr Hj).
  unfold accepts.
  change (json.store (json.Object o) BreachModel.empty)
    with (json.store_members BreachModel.fields o BreachModel.empty).
  now rewrite (store_members_read o BreachModel.empty Ho).
Qed.

(** X15: a body that is a well-formed JSON text, one breach object, gives
    [Breach] the breach the object describes field for field and a nil
    error; a field whose attribute the object lacks is the zero value.  The
    body is taken as text. *)
Theorem Breach_decoded (name : string) (w : World) (res : http.Response)
  (t : json_text.document) :
  Do w (request_of (CallBreach name) w) = (Some res, None) ->
  passes (http.StatusCode res) = true ->
  http.read_err (http.Body res) = None ->
  http.data (http.Body res) = json_text.write_document t ->
  json_text.well_formed t = true ->
  breach_text (json_text.root t) = true ->
  returned (CallBreach name) w = Returns (OneBreach (breach_in (json_text.root t)), None).
Proof.
  intros H Hs Hr Hd Ht Hb.
  pose proof (parse_written t Ht) as Hp. rewrite <- Hd in Hp.
  assert (G : json_text.grammatical (json_text.root t) = true).
  { unfold json_text.well_formed in Ht. now split_andb Ht. }
  rewrite (denote_object _ (breach_text_object _ Hb)) in Hp.
  rewrite <- (record_of_denoted _ G).
  apply (breach_object_stored name w res _ H Hs Hr Hp).
  now apply breach_object_denoted.
Qed.

Lemma Breach_decoded_witness :
  returned (CallBreach "Adobe")
    (answering (Some (response 200
       (json_text.write_document (json_text.mkDocument " " adobe_text ""))), None)) =
  Returns (OneBreach
             (BreachModel.mk "Adobe" "Adobe" "" "" "" "" 152445165 "" slice_nil
                false false false false false ""), None).
Proof.
  change (returned (CallBreach "Adobe")
            (answering (Some (response 200
               (json_text.write_document (json_text.mkDocument " " adobe_text ""))), None)) =
          Returns (OneBreach
                     (breach_in (json_text.root (json_text.mkDocument " " adobe_text ""))),
                   None)).
  apply (Breach_decoded "Adobe"
           (answering (Some (response 200
              (json_text.write_document (json_text.mkDocument " " adobe_text ""))), None))
           (response 200
              (json_text.write_document (json_text.mkDocument " " adobe_text "")))
           (json_text.mkDocument " " adobe_text ""));
    reflexivity.
Defined.

(** **** Pastes *)

Lemma read_paste_nil (d : PasteModel.t) : read_paste d [] = d.
Proof. now destruct d. Qed.

Lemma paste_find_field_unknown (k : string) :
  existsb (fun e => json.equalFold (fst e) k) paste_schema = false ->
  json.find_field PasteModel.fields k = None.
Proof.
  intros H. cbn [existsb paste_schema fst] in H. split_orb H.
  unfold json.find_field.
  cbn [find PasteModel.fields json.struct_field fst].
  repeat match goal with
         | E : json.equalFold ?g k = false |- _ =>
             rewrite (equalFold_differs g k E)
         end.
  cbn [find PasteModel.fields json.struct_field fst].
  rewrite_all_false. reflexivity.
Qed.

Ltac known_paste_field v Hkv IH Ho Habs :=
  cbn -[json.ParseInt] in Hkv; destruct v; try discriminate;
  cbn -[json.store_members read_paste json.ParseInt];
  try (destruct (json.ParseInt _) eqn:?; [|discriminate]);
  rewrite IH by exact Ho; cbn [json.saveError]; f_equal;
  unfold read_paste; rewrite !member_cons; cbn -[json.ParseInt];
  rewrite Habs;
  repeat match goal with E : json.ParseInt _ = _ |- _ => rewrite E end;
  reflexivity.

Lemma store_members_read_paste (o : list (string * json.Value)) :
  forall d : PasteModel.t,
    paste_object o = true ->
    json.store_members PasteModel.fields o d = (read_paste d o, None).
Proof.
  induction o as [|[k v] o IH]; intros d H.
  - simpl. now rewrite read_paste_nil.
  - unfold paste_object in H. cbn [map fst distinct forallb] in H.
    apply Bool.andb_true_iff in H as [Hd Hm].
    apply Bool.andb_true_iff in Hd as [Hk Hd].
    apply Bool.andb_true_iff in Hm as [Hkv Hm].
    apply Bool.negb_true_iff in Hk.
    assert (Ho : paste_object o = true).
    { unfold paste_object. now rewrite Hd, Hm. }
    pose proof (member_absent _ _ Hk) as Habs.
    rewrite store_members_cons.
    destruct (string_dec k "Source") as [->|?]; [known_paste_field v Hkv IH Ho Habs|].
    destruct (string_dec k "Id") as [->|?]; [known_paste_field v Hkv IH Ho Habs|].
    destruct (string_dec k "Title") as [->|?]; [known_paste_field v Hkv IH Ho Habs|].
    destruct (string_dec k "Date") as [->|?]; [known_paste_field v Hkv IH Ho Habs|].
    destruct (string_dec k "EmailCount") as [->|?]; [known_paste_field v Hkv IH Ho Habs|].
    clear Hk Habs Hd Hm.
    unfold paste_member, paste_schema_type in Hkv.
    cbn [find paste_schema fst snd] in Hkv.
    rewrite !(proj2 (String.eqb_neq _ k)) in Hkv by congruence.
    apply Bool.negb_true_iff in Hkv.
    rewrite (paste_find_field_unknown k Hkv).
    rewrite IH by exact Ho. cbn [json.saveError]. f_equal.
    unfold read_paste. rewrite !member_cons.
    rewrite !(proj2 (String.eqb_neq k _)) by congruence.
    reflexivity.
Qed.

Lemma store_paste_objects (os : list (list (string * json.Value))) :
  forallb paste_object os = true ->
  forall cur : list PasteModel.t,
    cur = [] ->
    json.store_elems (map json.Object os) cur = (map paste_of os, None).
Proof.
  induction os as [|o os IH]; intros H cur ->; [reflexivity|].
  cbn [forallb] in H. apply Bool.andb_true_iff in H as [Ho Hos].
  cbn [map json.store_elems hd tl].
  change (json.store (json.Object o) json.zero)
    with (json.store_members PasteModel.fields o PasteModel.empty).
  rewrite (store_members_read_paste o PasteModel.empty Ho), (IH Hos [] eq_refl).
  reflexivity.
Qed.

Lemma paste_array_stored (email : string) (w : World) (res : http.Response)
  (os : list (list (string * json.Value))) :
  Do w (request_of (CallPasteAccount email) w) = (Some res, None) ->
  passes (http.StatusCode res) = true ->
  http.read_err (http.Body res) = None ->
  json.parse (http.data (http.Body res)) = Some (json.Array (map json.Object os)) ->
  forallb paste_object os = true ->
  returned (CallPasteAccount email) w = Returns (PasteList (slice_of (map paste_of os)), None).
Proof.
  intros H Hp Hr Hj Hos.
  destruct (passing_run _ w res H Hp) as [-> _].
  apply (decode_body_accepts _ _ _ _ Hr Hj).
  unfold accepts.
  replace (json.store (json.Array (map json.Object os)) (slice_of [] : slice PasteModel.t))
    with (slice_of (map paste_of os), @None error); [reflexivity|].
  cbn [json.store json.slice_Decoder elements].
  now rewrite (store_paste_objects os Hos [] eq_refl).
Qed.

(** X16: a body that is a well-formed JSON text, an array of paste
    objects of any length, gives [PasteAccount] as many pastes, in the order
    of the array, each the paste its object describes field for field (the
    field [ID] is the attribute [Id]), and a nil error.  The body is taken
    as text. *)
Theorem pastes_decoded (email : string) (w : World) (res : http.Response)
  (t : json_text.document) (vs : list json_text.syntax) :
  Do w (request_of (CallPasteAccount email) w) = (Some res, None) ->
  passes (http.StatusCode res) = true ->
  http.read_err (http.Body res) = None ->
  http.data (http.Body res) = json_text.write_document t ->
  json_text.well_formed t = true ->
  items_of (json_text.root t) = Some vs ->
  forallb paste_text vs = true ->
  returned (CallPasteAccount email) w = Returns (PasteList (slice_of (map paste_in vs)), None).
Proof.
  intros H Hs Hr Hd Ht Hroot Hvs.
  pose proof (parse_written t Ht) as Hp. rewrite <- Hd in Hp.
  assert (G : forallb json_text.grammatical vs = true).
  { unfold json_text.well_formed in Ht. split_andb Ht.
    now apply (grammatical_items_of (json_text.root t)). }
  rewrite (denote_array _ vs Hroot) in Hp.
  rewrite (denote_objects vs (objects_denoted _ vs paste_text_object Hvs)) in Hp.
  replace (map paste_in vs)
    with (map paste_of (map (fun v => map denoted (entries_of v)) vs)).
  - apply (paste_array_stored email w res _ H Hs Hr Hp).
    rewrite forallb_forall in *. intros o Ho.
    apply in_map_iff in Ho as (v & <- & Hv).
    apply paste_object_denoted; [exact (G v Hv)|exact (Hvs v Hv)].
  - rewrite map_map. apply map_ext_in. intros v Hv.
    apply paste_of_denoted. exact (proj1 (forallb_forall _ _) G v Hv).
Qed.

Lemma pastes_decoded_witness :
  returned (CallPasteAccount "test@example.com")
    (answering (Some (response 200
       (json_text.write_document
          (json_text.mkDocument ""
             (json_text.SArray (json_text.Last " " pastebin_text " ")) ""))), None)) =
  Returns (PasteList (slice_of
    [PasteModel.mk "Pastebin" "8Q0BvKD8" "" "2014-03-04T19:14:54Z" 139]), None).
Proof.
  change (returned (CallPasteAccount "test@example.com")
            (answering (Some (response 200
               (json_text.write_document
                  (json_text.mkDocument ""
                     (json_text.SArray (json_text.Last " " pastebin_text " ")) ""))), None)) =
          Returns (PasteList (slice_of (map paste_in [pastebin_text])), None)).
  apply (pastes_decoded "test@example.com"
           (answering (Some (response 200
              (json_text.write_document
                 (json_text.mkDocument ""
                    (json_text.SArray (json_text.Last " " pastebin_text " ")) ""))), None))
           (response 200
              (json_text.write_document
                 (json_text.mkDocument ""
                    (json_text.SArray (json_text.Last " " pastebin_text " ")) "")))
           (json_text.mkDocument ""
              (json_text.SArray (json_text.Last " " pastebin_text " ")) "")
           [pastebin_text]);
    reflexivity.
Defined.

(** **** An object with mistyped attributes *)

Lemma breach_member_step (k : string) (v : json.Value) (d : BreachModel.t) :
  breach_member (k, v) = true ->
  match json.find_field BreachModel.fields k with
  | Some f => snd f v d
  | None => (d, None)
  end = (read_breach d [(k, v)], None).
Proof.
  intros H.
  assert (Ho : breach_object [(k, v)] = true).
  { unfold breach_object. cbn [map fst distinct forallb existsb negb andb].
    now rewrite H. }
  pose proof (store_members_read [(k, v)] d Ho) as E.
  rewrite store_members_cons in E. cbn [json.store_members] in E.
  destruct (match json.find_field BreachModel.fields k with
            | Some f => snd f v d
            | None => (d, None)
            end) as [v1 [e1|]]; cbn [json.saveError] in E; congruence.
Qed.

Lemma breach_member_not_mistyped (kv : string * json.Value) :
  breach_member kv = true -> mistyped kv = false.
Proof.
  unfold breach_member, mistyped. destruct kv as [k v]. cbn [fst snd].
  destruct (schema_type k) as [[]|]; destruct v; cbn -[json.ParseInt];
    try reflexivity; try discriminate.
  now destruct (json.ParseInt _).
Qed.

Ltac mistyped_field v H :=
  cbn -[json.ParseInt] in H; destruct v; try discriminate;
  cbn -[json.ParseInt];
  try (destruct (json.ParseInt _) eqn:?; [discriminate|]);
  reflexivity.

Lemma mistyped_step (k : string) (v : json.Value) (d : BreachModel.t) :
  mistyped (k, v) = true ->
  match json.find_field BreachModel.fields k with
  | Some f => snd f v d
  | None => (d, None)
  end = (d, Some (type_error (k, v))).
Proof.
  intros H. destruct d.
  destruct (string_dec k "Name") as [->|?]; [mistyped_field v H|].
  destruct (string_dec k "Title") as [->|?]; [mistyped_field v H|].
  destruct (string_dec k "Domain") as [->|?]; [mistyped_field v H|].
  destruct (string_dec k "BreachDate") as [->|?]; [mistyped_field v H|].
  destruct (string_dec k "AddedDate") as [->|?]; [mistyped_field v H|].
  destruct (string_dec k "ModifiedDate") as [->|?]; [mistyped_field v H|].
  destruct (string_dec k "PwnCount") as [->|?]; [mistyped_field v H|].
  destruct (string_dec k "Description") as [->|?]; [mistyped_field v H|].
  destruct (string_dec k "DataClasses") as [->|?]; [mistyped_field v H|].
  destruct (string_dec k "IsVerified") as [->|?]; [mistyped_field v H|].
  destruct (string_dec k "IsFabricated") as [->|?]; [mistyped_field v H|].
  destruct (string_dec k "IsSensitive") as [->|?]; [mistyped_field v H|].
  destruct (string_dec k "IsRetired") as [->|?]; [mistyped_field v H|].
  destruct (string_dec k "IsSpamList") as [->|?]; [mistyped_field v H|].
  destruct (string_dec k "LogoPath") as [->|?]; [mistyped_field v H|].
  exfalso. unfold mistyped, schema_type in H.
  cbn [find breach_schema fst snd] in H.
  rewrite !(proj2 (String.eqb_neq _ k)) in H by congruence.
  destruct v; discriminate.
Qed.

Lemma as_member_cons {A : Type} (f : A -> option json.Value -> A)
  (k : string) (v : json.Value) (rest : list (string * json.Value)) :
  (forall x, f x None = x) ->
  existsb (String.eqb k) (map fst rest) = false ->
  forall (x : A) (name : string),
    f (f x (member name [(k, v)])) (member name rest) =
    f x (member name ((k, v) :: rest)).
Proof.
  intros Hf H x name. rewrite !member_cons.
  destruct (String.eqb k name) eqn:E.
  - apply String.eqb_eq in E. subst name.
    now rewrite (member_absent _ _ H), Hf.
  - unfold member at 1. cbn [find]. now rewrite Hf.
Qed.

Lemma read_breach_cons (k : string) (v : json.Value) (d : BreachModel.t)
  (rest : list (string * json.Value)) :
  existsb (String.eqb k) (map fst rest) = false ->
  read_breach (read_breach d [(k, v)]) rest = read_breach d ((k, v) :: rest).
Proof.
  intros H. unfold read_breach.
  cbn [BreachModel.Name BreachModel.Title BreachModel.Domain BreachModel.BreachDate
       BreachModel.AddedDate BreachModel.ModifiedDate BreachModel.PwnCount
       BreachModel.Description BreachModel.DataClasses BreachModel.IsVerified
       BreachModel.IsFabricated BreachModel.IsSensitive BreachModel.IsRetired
       BreachModel.IsSpamList BreachModel.LogoPath].
  rewrite !(as_member_cons as_string k v rest (fun _ => eq_refl) H).
  rewrite !(as_member_cons as_int k v rest (fun _ => eq_refl) H).
  rewrite !(as_member_cons as_bool k v rest (fun _ => eq_refl) H).
  rewrite !(as_member_cons as_strings k v rest (fun _ => eq_refl) H).
  reflexivity.
Qed.

Lemma filter_keys_absent (k : string) (f : string * json.Value -> bool)
  (o : list (string * json.Value)) :
  existsb (String.eqb k) (map fst o) = false ->
  existsb (String.eqb k) (map fst (filter f o)) = false.
Proof.
  induction o as [|[k' v] o IH]; [reflexivity|].
  cbn [map fst existsb filter]. intros H.
  apply Bool.orb_false_iff in H as [Hk Ho].
  destruct (f (k', v)); cbn [map fst existsb]; [rewrite Hk|]; now apply IH.
Qed.

Lemma store_members_mixed (o : list (string * json.Value)) :
  forall d : BreachModel.t,
    distinct (map fst o) = true ->
    forallb (fun kv => breach_member kv || mistyped kv) o = true ->
    json.store_members BreachModel.fields o d =
    (read_breach d (filter breach_member o), option_map type_error (find mistyped o)).
Proof.
  induction o as [|[k v] o IH]; intros d Hd Hm.
  - cbn. now rewrite read_breach_nil.
  - cbn [map fst distinct forallb] in Hd, Hm.
    apply Bool.andb_true_iff in Hd as [Hk Hd].
    apply Bool.andb_true_iff in Hm as [Hkv Hm].
    apply Bool.negb_true_iff in Hk.
    rewrite store_members_cons. cbn [filter find].
    destruct (breach_member (k, v)) eqn:Hb.
    + rewrite (breach_member_step k v d Hb), (IH _ Hd Hm).
      rewrite (breach_member_not_mistyped _ Hb). cbn [json.saveError].
      now rewrite (read_breach_cons k v d _ (filter_keys_absent k _ o Hk)).
    + cbn [orb] in Hkv.
      rewrite (mistyped_step k v d Hkv), (IH _ Hd Hm), Hkv. reflexivity.
Qed.

(** X17: [Breach] on a body that is an object with distinct attributes,
    some of them mistyped (a value of another JSON kind than the field
    takes, or a [PwnCount] that is no 64-bit decimal integer): the decoder
    goes on after the mismatch, and [Breach] returns the record of the
    well-formed members, the mistyped ones left at the zero value, beside
    the type error of the first mistyped member; the error is nil when there
    is none. *)
Theorem Breach_keeps_well_typed_members (name : string) (w : World)
  (res : http.Response) (o : list (string * json.Value)) :
  Do w (request_of (CallBreach name) w) = (Some res, None) ->
  passes (http.StatusCode res) = true ->
  http.read_err (http.Body res) = None ->
  json.parse (http.data (http.Body res)) = Some (json.Object o) ->
  distinct (map fst o) = true ->
  forallb (fun kv => breach_member kv || mistyped kv) o = true ->
  returned (CallBreach name) w =
  Returns (OneBreach (record_of (filter breach_member o)),
           option_map type_error (find mistyped o)).
Proof.
  intros H Hp Hr Hj Hd Hm.
  destruct (passing_run _ w res H Hp) as [-> _].
  unfold decode_body, json.Unmarshal. rewrite Hr, Hj, store_pointer_object.
  change (json.store (json.Object o) BreachModel.empty)
    with (json.store_members BreachModel.fields o BreachModel.empty).
  now rewrite (store_members_mixed o BreachModel.empty Hd Hm).
Qed.

Lemma Breach_keeps_well_typed_members_witness :
  let body := "{" ++ quoted "Name" ++ ":" ++ quoted "Adobe" ++ ","
                  ++ quoted "PwnCount" ++ ":" ++ quoted "many" ++ ","
                  ++ quoted "IsVerified" ++ ":true}" in
  returned (CallBreach "Adobe") (answering (Some (response 200 body), None)) =
  Returns (OneBreach (record_of [("Name", json.Str "Adobe"); ("IsVerified", json.Bool true)]),
           Some (json_UnmarshalTypeError "string")).
Proof.
  apply (Breach_keeps_well_typed_members "Adobe"
           (answering (Some (response 200
              ("{" ++ quoted "Name" ++ ":" ++ quoted "Adobe" ++ ","
                   ++ quoted "PwnCount" ++ ":" ++ quoted "many" ++ ","
                   ++ quoted "IsVerified" ++ ":true}")), None))
           (response 200
              ("{" ++ quoted "Name" ++ ":" ++ quoted "Adobe" ++ ","
                   ++ quoted "PwnCount" ++ ":" ++ quoted "many" ++ ","
                   ++ quoted "IsVerified" ++ ":true}"))
           [("Name", json.Str "Adobe"); ("PwnCount", json.Str "many");
            ("IsVerified", json.Bool true)]);
    vm_compute; reflexivity.
Defined.
